(** * BrewerSim2: the BMP loader of [Util.hpp] (BMPConverter)

    A shallow embedding of class [BMP] ([Load], [LoadColorPalleta],
    [LoadRGBData]), of [RoundUp] and of the POSIX calls the loader makes
    ([open], [read], [lseek], [close]), followed by the properties of the
    loader that the repository's specification states.  The helpers of the
    same file that compute something of their own follow: [ImageBuffer],
    [PrintBinary], [SetLocation], [SetColor] and [Delay].

    Conventions of the embedding.
    - Unsigned w-bit fields are [Z] in [0, 2^w); C++ arithmetic on them is
      written with its wrap-around.  [int32_t] fields are [Z] in
      [-2^31, 2^31).
    - The header is read by one raw [read] into a packed struct, so the host
      is taken to be little-endian, as on every target the tool runs on.
    - [double] values: the loader only forms [bitDepth / 8] and
      [width * (bitDepth / 8)] with a 16-bit [bitDepth] and a 32-bit
      [width]; both are multiples of 1/8 below 2^47 in magnitude, which
      binary64 represents exactly, so they are modelled as rationals [Q].
    - Operations the C++ standard leaves undefined (integer division by
      zero, signed overflow, a floating value converted to an integer type
      that cannot hold it, reading past an object, evaluating a byte that
      was never stored) end the run with a [Fault].
    - Output on [std::cout] is not traced, except the message of a failed
      [VERIFY]; the expressions the dumps evaluate are modelled where they
      can fault.  [new] is taken to succeed.
    - [PrintBinary], [SetLocation] and [SetColor] are functions to the text
      they send; [%u] of [snprintf] is the decimal numeral of the standard
      library.  [millis ()] in [Delay] is a parameter. *)

From stdpp Require Import gmap strings list fin_maps.
From Stdlib Require Import ZArith QArith Qround Strings.Ascii Strings.Byte Lia.
From Stdlib Require DecimalString DecimalFacts DecimalPos DecimalN.

Open Scope Z_scope.

(** ** Machine integers *)

Definition UINT32_MOD : Z := 2 ^ 32.
Definition INT_MAX : Z := 2 ^ 31 - 1.
Definition INT_MIN : Z := - 2 ^ 31.

Definition to_uint32 (z : Z) : Z := z mod UINT32_MOD.

Definition to_uint64 (z : Z) : Z := z mod 2 ^ 64.

(** Conversion of a 32-bit pattern to [int]. *)
Definition to_int32 (z : Z) : Z :=
  let m := z mod UINT32_MOD in
  if m <? 2 ^ 31 then m else m - UINT32_MOD.

Definition Z_of_byte (b : byte) : Z := Z.of_N (Byte.to_N b).

Definition byte_of_Z (z : Z) : byte :=
  default Byte.x00 (Byte.of_N (Z.to_N (z mod 256))).

(** Little-endian value of a byte sequence. *)
Fixpoint le_decode (bs : list byte) : Z :=
  match bs with
  | [] => 0
  | b :: rest => Z_of_byte b + 256 * le_decode rest
  end.

Fixpoint le_encode (len : nat) (z : Z) : list byte :=
  match len with
  | O => []
  | S n => byte_of_Z z :: le_encode n (z / 256)
  end.

(** ** Undefined operations *)

Inductive fault : Type :=
| DivisionByZero
| SignedOverflow
| FloatToIntegerRange
| OutOfBoundsAccess
| IndeterminateValue.

(** ** BMP related constants *)

(** [BMP_BITMAPINFOHEADER], the "accepted bitmap header size", is defined
    and never used. *)
Definition BMP_SIGNATURE : Z := 19778.
Definition BMP_BI_RGB : Z := 0.
Definition BMP_BITMAPINFOHEADER : Z := 40.
Definition BMP_HEADERSIZE : Z := 14.

(** ** RoundUp *)

(** Truncation toward zero, the rule of every floating-to-integer
    conversion. *)
Definition Qtrunc (q : Q) : Z :=
  if Qle_bool 0 q then Qfloor q else Qceiling q.

(** [(T) v] for an unsigned integer type [T] of [bits] bits. *)
Definition double_to_unsigned (bits : Z) (v : Q) : fault + Z :=
  let t := Qtrunc v in
  if (0 <=? t) && (t <? 2 ^ bits) then inr t else inl FloatToIntegerRange.

(** [double RoundUp (double nValue)]. *)
Definition RoundUp (nValue : Q) : fault + Q :=
  match double_to_unsigned 64 nValue with
  | inl f => inl f
  | inr nFloorValue =>
      inr (if Qeq_bool nValue (inject_Z nFloorValue)
           then inject_Z nFloorValue
           else inject_Z (to_uint64 (nFloorValue + 1)))
  end.

(** [ABS(x)] on an [int]: [x * (-1)] overflows at [INT_MIN]. *)
Definition ABS (x : Z) : fault + Z :=
  if x <? 0
  then (if x =? INT_MIN then inl SignedOverflow else inr (x * (-1)))
  else inr x.

(** ** Data model *)

(** [struct RGB]; a field is [None] while its byte is indeterminate (the
    array comes from [new RGB[n]], which does not initialise it). *)
Record RGB : Type := mkRGB {
  nRed : option byte;
  nGreen : option byte;
  nBlue : option byte;
  nAlpha : option byte
}.

Definition RGB_indeterminate : RGB := mkRGB None None None None.

Definition sizeof_RGB : Z := 4.

(** [struct BMPHeader], packed: 14 bytes of file header and 40 of BID
    header. *)
Record BMPHeader : Type := mkBMPHeader {
  signature : Z;
  nBitmapByteSize : Z;
  nReserved : Z;
  nDataOffSet : Z;
  nBIDHeaderSize : Z;
  nWidth : Z;
  nHeight : Z;
  nColorPanes : Z;
  nBitPerPixel : Z;
  nCompressionMethod : Z;
  nRawBitmapSize : Z;
  nWidthPixPerMeter : Z;
  nHeightPixPerMeter : Z;
  nColorsInPalleta : Z;
  nImportantColors : Z
}.

Definition sizeof_BMPHeader : Z := 54.

(** The object representation of the header and its fields. *)
Definition field (off len : nat) (raw : list byte) : Z :=
  le_decode (take len (drop off raw)).

Definition header_of_bytes (raw : list byte) : BMPHeader :=
  {| signature := field 0 2 raw;
     nBitmapByteSize := field 2 4 raw;
     nReserved := field 6 4 raw;
     nDataOffSet := field 10 4 raw;
     nBIDHeaderSize := field 14 4 raw;
     nWidth := to_int32 (field 18 4 raw);
     nHeight := to_int32 (field 22 4 raw);
     nColorPanes := field 26 2 raw;
     nBitPerPixel := field 28 2 raw;
     nCompressionMethod := field 30 4 raw;
     nRawBitmapSize := field 34 4 raw;
     nWidthPixPerMeter := field 38 4 raw;
     nHeightPixPerMeter := field 42 4 raw;
     nColorsInPalleta := field 46 4 raw;
     nImportantColors := field 50 4 raw |}.

Definition bytes_of_header (h : BMPHeader) : list byte :=
  le_encode 2 (signature h) ++ le_encode 4 (nBitmapByteSize h)
  ++ le_encode 4 (nReserved h) ++ le_encode 4 (nDataOffSet h)
  ++ le_encode 4 (nBIDHeaderSize h) ++ le_encode 4 (nWidth h)
  ++ le_encode 4 (nHeight h) ++ le_encode 2 (nColorPanes h)
  ++ le_encode 2 (nBitPerPixel h) ++ le_encode 4 (nCompressionMethod h)
  ++ le_encode 4 (nRawBitmapSize h) ++ le_encode 4 (nWidthPixPerMeter h)
  ++ le_encode 4 (nHeightPixPerMeter h) ++ le_encode 4 (nColorsInPalleta h)
  ++ le_encode 4 (nImportantColors h).

(** [memset (&m_bmpHeader, 0, sizeof (BMPHeader))]. *)
Definition zero_bytes (n : nat) : list byte := replicate n Byte.x00.

(** A [read] of [data] into an object whose bytes were [old]: the first
    [length data] bytes are overwritten. *)
Definition overwrite (data old : list byte) : list byte :=
  data ++ drop (length data) old.

(** A [read] into one [RGB] entry: the bytes land in declaration order. *)
Definition store_RGB (data : list byte) (old : RGB) : RGB :=
  {| nRed := match data !! 0%nat with Some b => Some b | None => nRed old end;
     nGreen := match data !! 1%nat with Some b => Some b | None => nGreen old end;
     nBlue := match data !! 2%nat with Some b => Some b | None => nBlue old end;
     nAlpha := match data !! 3%nat with Some b => Some b | None => nAlpha old end |}.

(** Class [ImageBuffer]: a constructor and no accessor.  Class [BMP] never
    makes one. *)
Record ImageBuffer : Type := mkImageBuffer {
  m_nWidth : Z;
  m_nHeight : Z;
  m_ImageBytesSize : Z;
  m_RGBBuffer : list RGB
}.

(** [ImageBuffer (uint32_t nWidth, int32_t nHeight)]; the product is taken
    in 32 bits. *)
Definition ImageBuffer_new (nWidth nHeight : Z) : ImageBuffer :=
  {| m_nWidth := nWidth;
     m_nHeight := to_uint32 nHeight;
     m_ImageBytesSize := to_uint64 (to_uint32 (nWidth * nHeight) * sizeof_RGB);
     m_RGBBuffer := replicate (Z.to_nat (to_uint32 (nWidth * nHeight)))
                      RGB_indeterminate |}.

(** Class [BMP]. *)
Record BMP : Type := mkBMP {
  m_bmpHeader : BMPHeader;
  m_nFD : Z;
  m_pRGBData : option (list RGB);
  m_pRGBPalleta : option (list RGB)
}.

(** [BMP::BMP ()]. *)
Definition BMP_new : BMP :=
  {| m_bmpHeader := header_of_bytes (zero_bytes 54);
     m_nFD := 0;
     m_pRGBData := None;
     m_pRGBPalleta := None |}.

(** ** The file system and the descriptor table *)

Inductive node : Type :=
| RegularFile (content : list byte)
| Directory.

(** An open file description. *)
Record ofd : Type := mkOfd {
  ofd_node : node;
  ofd_pos : Z
}.

Inductive event : Type :=
| EvOpen (path : string) (ret : Z)
| EvRead (fd count : Z) (res : option (list byte))
| EvSeek (fd offset ret : Z)
| EvClose (fd ret : Z)
| EvDiag (fn msg : string).

Record World : Type := mkWorld {
  w_fs : gmap string node;
  w_fds : gmap Z ofd;
  w_trace : list event
}.

Record State : Type := mkState {
  this : BMP;
  world : World
}.

Definition log (e : event) (w : World) : World :=
  {| w_fs := w_fs w; w_fds := w_fds w; w_trace := w_trace w ++ [e] |}.

Definition with_fds (fds : gmap Z ofd) (w : World) : World :=
  {| w_fs := w_fs w; w_fds := fds; w_trace := w_trace w |}.

(** The lowest descriptor that is not open, which is the one [open]
    returns. *)
Fixpoint lowest_free_from (fuel : nat) (n : Z) (fds : gmap Z ofd) : Z :=
  match fds !! n with
  | None => n
  | Some _ =>
      match fuel with
      | O => n + 1
      | S fuel' => lowest_free_from fuel' (n + 1) fds
      end
  end.

Definition lowest_free (fds : gmap Z ofd) : Z :=
  lowest_free_from (size fds) 0 fds.

(** [std::string::c_str]: the C string ends at the first NUL. *)
Fixpoint c_str (s : string) : string :=
  match s with
  | EmptyString => EmptyString
  | String c rest =>
      if Ascii.eqb c Ascii.zero then EmptyString else String c (c_str rest)
  end.

(** ** Computations: state, result, fault *)

Inductive outcome (A : Type) : Type :=
| Ret (a : A) (s : State)
| Fault (f : fault) (s : State).

Arguments Ret {A} a s.
Arguments Fault {A} f s.

Definition M (A : Type) : Type := State → outcome A.

Definition ret {A : Type} (a : A) : M A := λ s, Ret a s.

Definition bind {A B : Type} (m : M A) (k : A → M B) : M B :=
  λ s, match m s with
       | Ret a s' => k a s'
       | Fault f s' => Fault f s'
       end.

Definition raise {A : Type} (f : fault) : M A := λ s, Fault f s.

Definition gets {A : Type} (f : State → A) : M A := λ s, Ret (f s) s.

Definition modify (f : State → State) : M unit := λ s, Ret tt (f s).

(** A pure step that may be undefined. *)
Definition defined {A : Type} (r : fault + A) : M A :=
  match r with
  | inl f => raise f
  | inr a => ret a
  end.

Notation "'let*' x ':=' c1 'in' c2" := (bind c1 (λ x, c2))
  (at level 10, x name, c1 at level 100, c2 at level 200,
   format "'[v' 'let*'  x  ':='  c1  'in' '/' c2 ']'").

Notation "c1 >> c2" := (bind c1 (λ _, c2))
  (at level 100, c2 at level 200, right associativity).

Definition on_world (f : World → World) (s : State) : State :=
  {| this := this s; world := f (world s) |}.

Definition on_this (f : BMP → BMP) (s : State) : State :=
  {| this := f (this s); world := world s |}.

Definition set_header (h : BMPHeader) (b : BMP) : BMP :=
  {| m_bmpHeader := h; m_nFD := m_nFD b;
     m_pRGBData := m_pRGBData b; m_pRGBPalleta := m_pRGBPalleta b |}.

Definition set_fd (fd : Z) (b : BMP) : BMP :=
  {| m_bmpHeader := m_bmpHeader b; m_nFD := fd;
     m_pRGBData := m_pRGBData b; m_pRGBPalleta := m_pRGBPalleta b |}.

Definition set_palleta (p : option (list RGB)) (b : BMP) : BMP :=
  {| m_bmpHeader := m_bmpHeader b; m_nFD := m_nFD b;
     m_pRGBData := m_pRGBData b; m_pRGBPalleta := p |}.

Definition header : M BMPHeader := gets (λ s, m_bmpHeader (this s)).

Definition fd_of_this : M Z := gets (λ s, m_nFD (this s)).

(** ** The POSIX calls *)

(** [open (path, O_RDONLY)]: -1 when the path does not exist. *)
Definition sys_open (path : string) : M Z :=
  λ s, let w := world s in
       match w_fs w !! path with
       | None => Ret (-1) (on_world (log (EvOpen path (-1))) s)
       | Some n =>
           let fd := lowest_free (w_fds w) in
           Ret fd (on_world (λ w, log (EvOpen path fd)
                                    (with_fds (<[fd := mkOfd n 0]> (w_fds w)) w)) s)
       end.

(** [read (fd, buf, count)]: [None] stands for -1 (a bad descriptor, or a
    directory); otherwise the bytes delivered, fewer than [count] at the end
    of the file. *)
Definition sys_read (fd count : Z) : M (option (list byte)) :=
  λ s, let w := world s in
       match w_fds w !! fd with
       | Some (mkOfd (RegularFile content) pos) =>
           let data := take (Z.to_nat count) (drop (Z.to_nat pos) content) in
           let o := mkOfd (RegularFile content) (pos + Z.of_nat (length data)) in
           Ret (Some data)
               (on_world (λ w, log (EvRead fd count (Some data))
                                 (with_fds (<[fd := o]> (w_fds w)) w)) s)
       | _ => Ret None (on_world (log (EvRead fd count None)) s)
       end.

(** The value [read] returns. *)
Definition read_ret (res : option (list byte)) : Z :=
  match res with
  | Some data => Z.of_nat (length data)
  | None => -1
  end.

(** The bytes [read] stored in the buffer. *)
Definition delivered (res : option (list byte)) : list byte :=
  default [] res.

(** [lseek (fd, offset, SEEK_SET)], with a 64-bit [off_t]. *)
Definition sys_lseek (fd offset : Z) : M Z :=
  λ s, let w := world s in
       match w_fds w !! fd with
       | Some (mkOfd n pos) =>
           if offset <? 0
           then Ret (-1) (on_world (log (EvSeek fd offset (-1))) s)
           else Ret offset
                    (on_world (λ w, log (EvSeek fd offset offset)
                                      (with_fds (<[fd := mkOfd n offset]> (w_fds w)) w)) s)
       | None => Ret (-1) (on_world (log (EvSeek fd offset (-1))) s)
       end.

(** [close (fd)]. *)
Definition sys_close (fd : Z) : M Z :=
  λ s, let w := world s in
       match w_fds w !! fd with
       | Some _ =>
           Ret 0 (on_world (λ w, log (EvClose fd 0)
                                   (with_fds (delete fd (w_fds w)) w)) s)
       | None => Ret (-1) (on_world (log (EvClose fd (-1))) s)
       end.

(** ** VERIFY *)

(** [VERIFYFALSE (x, m)] inside function [fn], followed by [k]: when [x] is
    false the message goes to [std::cout] and the function returns false.
    [m] is the fixed text of the message, without the values it prints. *)
Definition VERIFYFALSE (fn : string) (x : M bool) (m : string) (k : M bool) : M bool :=
  let* ok := x in
  if ok then k
  else (modify (on_world (log (EvDiag fn m))) >> ret false).

(** ** BMP::LoadColorPalleta *)

(** The dump of entry [nCount], printed after its read: it evaluates
    [(int)] of each of the four fields of [m_pRGBPalleta[nCount]], and a
    field that no read has stored is still indeterminate. *)
Definition dump_entry (nCount : Z) : M unit :=
  let* p := gets (λ s, m_pRGBPalleta (this s)) in
  match p ≫= (λ pal, pal !! Z.to_nat nCount) with
  | Some (mkRGB (Some _) (Some _) (Some _) (Some _)) => ret tt
  | Some _ => raise IndeterminateValue
  | None => raise OutOfBoundsAccess
  end.

(** The [for] loop over the palette entries, from [nCount] with [todo]
    entries left, and the [return true] after it.  [nCount] is an [int]. *)
Fixpoint LoadColorPalleta_loop (todo : nat) (nCount : Z) : M bool :=
  match todo with
  | O => ret true
  | S todo' =>
      VERIFYFALSE "LoadColorPalleta"
        (let* fd := fd_of_this in
         let* res := sys_read fd sizeof_RGB in
         modify (on_this (λ b,
           set_palleta
             (alter (store_RGB (delivered res)) (Z.to_nat nCount)
                <$> m_pRGBPalleta b) b))
         >> ret (0 <? read_ret res))
        "Error reading index Palleta"
        (dump_entry nCount >>
         (if nCount =? INT_MAX then raise SignedOverflow
          else LoadColorPalleta_loop todo' (nCount + 1)))
  end.

Definition LoadColorPalleta : M bool :=
  VERIFYFALSE "LoadColorPalleta"
    (let* h := header in ret (signature h =? BMP_SIGNATURE))
    "No image was loaded."
    (let* h := header in
     if 0 <? nColorsInPalleta h then
       let nPalleteOffset := to_int32 (BMP_HEADERSIZE + nBIDHeaderSize h) in
       VERIFYFALSE "LoadColorPalleta"
         (let* fd := fd_of_this in
          let* r := sys_lseek fd nPalleteOffset in
          ret (0 <? r))
         "Error Accessing Color Palleta area"
         (modify (on_this (set_palleta
                    (Some (replicate (Z.to_nat (nColorsInPalleta h))
                                     RGB_indeterminate))))
          >> LoadColorPalleta_loop (Z.to_nat (nColorsInPalleta h)) 0)
     else ret true).

(** ** BMP::LoadRGBData *)

(** The locals computed at the top of [LoadRGBData]. *)
Record Geometry : Type := mkGeometry {
  nBytesPerPixelFactor : Q;
  nBytesPerPixel : Z;
  nBytesPerRow : Z;
  nPaddingSize : Z;
  nRowDataSize : Z
}.

Definition scanline_geometry (width bitDepth : Z) : fault + Geometry :=
  let factor := (inject_Z bitDepth / 8)%Q in
  match double_to_unsigned 8 (if negb (Qle_bool 1 factor) then 1%Q else factor)
  with
  | inl f => inl f
  | inr bpp =>
      match RoundUp (inject_Z width * factor)%Q with
      | inl f => inl f
      | inr up =>
          match double_to_unsigned 32 up with
          | inl f => inl f
          | inr bpr =>
              let pad := if 0 <? bpr mod 4 then 4 - bpr mod 4 else 0 in
              inr {| nBytesPerPixelFactor := factor;
                     nBytesPerPixel := bpp;
                     nBytesPerRow := bpr;
                     nPaddingSize := pad;
                     nRowDataSize := to_uint32 (bpr + pad) |}
          end
      end
  end.

(** The inner [for], over the [nBytesPerRow] counts of one row; it ends
    with the row loop's [continue], passed as [k].  [nDataProcessing] is a
    4-byte object, which [PrintBinary] reads [nBytesPerPixel] bytes of. *)
Fixpoint LoadRGBData_row (todo : nat) (g : Geometry) (k : M bool) : M bool :=
  match todo with
  | O => k
  | S todo' =>
      VERIFYFALSE "LoadRGBData"
        (let* fd := fd_of_this in
         let* res := sys_read fd (nBytesPerPixel g) in
         ret (0 <=? read_ret res))
        "Error reading bytes data file"
        (if 4 <? nBytesPerPixel g then raise OutOfBoundsAccess
         else LoadRGBData_row todo' g k)
  end.

(** The outer [for], from row [nRowCount] with [todo] rows left, and the
    [return true] after it. *)
Fixpoint LoadRGBData_rows (todo : nat) (g : Geometry) (nRowCount : Z) : M bool :=
  match todo with
  | O => ret true
  | S todo' =>
      VERIFYFALSE "LoadRGBData"
        (let* h := header in
         let* fd := fd_of_this in
         let* nReturn :=
           sys_lseek fd (to_uint32 (nDataOffSet h
                                    + to_uint32 (nRowDataSize g * nRowCount))) in
         ret (0 <? nReturn))
        "Error setting next row data location"
        (LoadRGBData_row (Z.to_nat (nBytesPerRow g)) g
           (LoadRGBData_rows todo' g (to_uint32 (nRowCount + 1))))
  end.

Definition LoadRGBData : M bool :=
  VERIFYFALSE "LoadRGBData"
    (let* h := header in ret (signature h =? BMP_SIGNATURE))
    "No image was loaded."
    (let* h := header in
     let* g := defined (scanline_geometry (nWidth h) (nBitPerPixel h)) in
     let* rows := defined (ABS (nHeight h)) in
     LoadRGBData_rows (Z.to_nat rows) g 0).

(** ** BMP::Load *)

(** The header dump prints [nBitmapByteSize / nHeight]. *)
Definition dump_header : M unit :=
  let* h := header in
  if to_uint32 (nHeight h) =? 0 then raise DivisionByZero else ret tt.

Definition Load (strFileName : string) : M bool :=
  VERIFYFALSE "Load"
    (ret (negb (String.length strFileName =? 0)%nat))
    "Filename has zero length()"
    (modify (on_this (set_header (header_of_bytes (zero_bytes 54)))) >>
     VERIFYFALSE "Load"
       (let* fd := sys_open (c_str strFileName) in
        modify (on_this (set_fd fd)) >> ret (0 <? fd))
       "Error, file could not be opened"
       (VERIFYFALSE "Load"
          (let* fd := fd_of_this in
           let* res := sys_read fd sizeof_BMPHeader in
           modify (on_this (set_header
                     (header_of_bytes (overwrite (delivered res) (zero_bytes 54)))))
           >> ret (0 <=? read_ret res))
          "Error reading header"
          (dump_header >>
           VERIFYFALSE "Load"
             (let* h := header in ret (signature h =? BMP_SIGNATURE))
             "Signature value is not implemented."
             (VERIFYFALSE "Load"
                (let* h := header in ret (nCompressionMethod h =? BMP_BI_RGB))
                "Error, compression is not implemented."
                (LoadColorPalleta >>
                 LoadRGBData >>
                 (let* fd := fd_of_this in sys_close fd) >>
                 ret true))))).

(** ** main *)

(** [main]: the exit status and the final state; [args] is [argv]. *)
Definition main (args : list string) (w : World) : outcome Z :=
  match args with
  | [_; file] =>
      (Load file >> ret 0) {| this := BMP_new; world := w |}
  | _ => Ret 1 {| this := BMP_new; world := w |}
  end.

(** ** PrintBinary *)

(** The digit that [PrintBinary] writes for bit [7 - nCountb] of [nValue]. *)
Definition PrintBinary_digit (nValue nCountb : Z) : string :=
  if Z.land nValue (Z.shiftl 1 (7 - nCountb)) =? 0 then "0" else "1".

(** The [do ... while (++nCountb < 8)] of [PrintBinary], with [todo] turns
    left. *)
Fixpoint PrintBinary_bits (todo : nat) (nValue nCountb : Z) : string :=
  match todo with
  | O => ""
  | S n => PrintBinary_digit nValue nCountb +:+ PrintBinary_bits n nValue (nCountb + 1)
  end.

(** The [for] over the bytes, with [todo] bytes left; [pBuffer] is the
    object the pointer leads to, and reading past it is undefined. *)
Fixpoint PrintBinary_bytes (todo : nat) (pBuffer : list byte) (nCount : Z) : fault + string :=
  match todo with
  | O => inr ""
  | S n =>
      match pBuffer !! Z.to_nat nCount with
      | None => inl OutOfBoundsAccess
      | Some nValue =>
          match PrintBinary_bytes n pBuffer (nCount + 1) with
          | inl f => inl f
          | inr rest => inr (PrintBinary_bits 8 (Z_of_byte nValue) 0 +:+ rest)
          end
      end
  end.

(** [void PrintBinary (const uint8_t* pBuffer, size_t nSize)]: the text sent
    to [std::cout]. *)
Definition PrintBinary (pBuffer : list byte) (nSize : Z) : fault + string :=
  PrintBinary_bytes (Z.to_nat nSize) pBuffer 0.

(** ** Terminal helpers *)

(** The text [printf] gives for [%u]. *)
Definition format_u (n : Z) : string :=
  DecimalString.NilZero.string_of_uint (N.to_uint (Z.to_N n)).

(** [snprintf (buffer, size, ...)] for the formatted [text]: at most
    [size - 1] characters and a zero byte are stored, and the length of the
    whole text is returned.  A byte of the buffer that was never stored is
    [None]. *)
Definition snprintf (buffer : list (option byte)) (size : nat) (text : string)
  : list (option byte) * Z :=
  let stored :=
    match size with
    | O => []
    | S room => take room (String.list_byte_of_string text) ++ [Byte.x00]
    end in
  (map Some stored ++ drop (length stored) buffer,
   Z.of_nat (String.length text)).

(** [device.write (buffer, size)]: the bytes handed to the stream. *)
Definition Stream_write (buffer : list (option byte)) (size : Z)
  : fault + list (option byte) :=
  if size <=? Z.of_nat (length buffer)
  then inr (take (Z.to_nat size) buffer)
  else inl OutOfBoundsAccess.

(** The character [\033]. *)
Definition ESC : string := String (ascii_of_nat 27) "".

(** [void SetLocation (Stream& device, uint16_t nY, uint16_t nX)]. *)
Definition SetLocation (nY nX : Z) : fault + list (option byte) :=
  let szTemp := replicate 15 None in
  let '(szTemp, n) :=
    snprintf szTemp 15
      (ESC +:+ "[" +:+ format_u nY +:+ ";" +:+ format_u nX +:+ "H") in
  let nLen := n mod 256 in
  Stream_write szTemp nLen.

(** [void SetColor (Stream& device, const uint8_t nFgColor,
    const uint8_t nBgColor)]. *)
Definition SetColor (nFgColor nBgColor : Z) : fault + list (option byte) :=
  let szTemp := replicate 15 None in
  let '(szTemp, n) :=
    snprintf szTemp 15
      (ESC +:+ "[" +:+ format_u (nFgColor + 30) +:+ ";"
       +:+ format_u (nBgColor + 40) +:+ "m") in
  let nLen := n mod 256 in
  Stream_write szTemp nLen.

(** ** Delay *)

(** The [do ... while] of [Delay].  [millis ()] belongs to the environment:
    [clock k] is what its call number [k] returns, the first one being
    number 0; it is an [unsigned long], of 32 bits on the ESP8266, and so is
    the difference.  [CorePartition_Yield ()] leaves the variables of
    [Delay] alone.  The result is the number of times [Delay] yielded;
    [None] when the loop is still running after [fuel] turns. *)
Fixpoint Delay_loop
  (fuel : nat) (clock : nat → Z) (nMomentum nSleep : Z) (calls : nat) : option nat :=
  match fuel with
  | O => None
  | S fuel' =>
      if to_uint32 (clock calls - nMomentum) <? nSleep
      then Delay_loop fuel' clock nMomentum nSleep (S calls)
      else Some calls
  end.

(** [void Delay (uint64_t nSleep)]. *)
Definition Delay (fuel : nat) (clock : nat → Z) (nSleep : Z) : option nat :=
  let nMomentum := to_uint32 (clock 0%nat) in
  Delay_loop fuel clock nMomentum nSleep 1.

(** * Vocabulary of the properties *)

(** ** Reading a trace *)

(** A call without its result. *)
Inductive call : Type :=
| COpen (path : string)
| CRead (fd count : Z)
| CSeek (fd offset : Z)
| CClose (fd : Z)
| CDiag (fn : string).

Definition shape (e : event) : call :=
  match e with
  | EvOpen path _ => COpen path
  | EvRead fd count _ => CRead fd count
  | EvSeek fd offset _ => CSeek fd offset
  | EvClose fd _ => CClose fd
  | EvDiag fn _ => CDiag fn
  end.

Definition is_seek (e : event) : bool :=
  match e with EvSeek _ _ _ => true | _ => false end.

Definition is_close (e : event) : bool :=
  match e with EvClose _ _ => true | _ => false end.

(** The bytes a trace consumed from the file. *)
Fixpoint bytes_consumed (tr : list event) : Z :=
  match tr with
  | [] => 0
  | EvRead _ _ (Some data) :: rest => Z.of_nat (length data) + bytes_consumed rest
  | _ :: rest => bytes_consumed rest
  end.

(** The state after a failed [VERIFYFALSE] of function [fn]. *)
Definition diagnosed (fn m : string) (s : State) : State :=
  on_world (log (EvDiag fn m)) s.

(** ** Scanline geometry *)

Definition supported_depth (d : Z) : Prop :=
  d = 1 ∨ d = 4 ∨ d = 8 ∨ d = 16 ∨ d = 24.

(** The geometry the specification gives for a row of [w] pixels of [d]
    bits. *)
Definition geometry_as_specified (w d : Z) : Prop :=
  ∃ g, scanline_geometry w d = inr g
       ∧ nBytesPerRow g = Qceiling (inject_Z w * (inject_Z d / 8))
       ∧ nPaddingSize g = (4 - nBytesPerRow g mod 4) mod 4
       ∧ nRowDataSize g = nBytesPerRow g + nPaddingSize g
       ∧ nRowDataSize g mod 4 = 0.

(** ** Outcomes *)

Definition final {A : Type} (o : outcome A) : State :=
  match o with
  | Ret _ s => s
  | Fault _ s => s
  end.

(** A computation that can end by a fault or by returning true, never by
    returning false. *)
Definition never_false (m : M bool) : Prop :=
  ∀ s s', m s ≠ Ret false s'.

(** [m] ends, whichever way, with [f] of the object as it found it. *)
Definition keeps {X A : Type} (f : BMP → X) (m : M A) : Prop :=
  ∀ s, f (this (final (m s))) = f (this s).

(** [m], run on an object whose header is [h], returns, and leaves the
    header alone. *)
Definition returns_with {A : Type} (h : BMPHeader) (m : M A) : Prop :=
  ∀ s, m_bmpHeader (this s) = h →
       ∃ a s', m s = Ret a s' ∧ m_bmpHeader (this s') = h.

(** ** The states of Load *)

(** The states [Load] goes through up to its header checks. *)
Definition Load_not_opened (path : string) (s : State) : State :=
  {| this := set_fd (-1) (set_header (header_of_bytes (zero_bytes 54)) (this s));
     world := log (EvOpen path (-1)) (world s) |}.

Definition Load_opened (path : string) (n : node) (s : State) : State :=
  let fd := lowest_free (w_fds (world s)) in
  {| this := set_fd fd (set_header (header_of_bytes (zero_bytes 54)) (this s));
     world := log (EvOpen path fd)
                (with_fds (<[fd := mkOfd n 0]> (w_fds (world s))) (world s)) |}.

Definition Load_header_unread (path : string) (s : State) : State :=
  let s1 := Load_opened path Directory s in
  {| this := set_header (header_of_bytes (zero_bytes 54)) (this s1);
     world := log (EvRead (m_nFD (this s1)) 54 None) (world s1) |}.

Definition Load_header_read (path : string) (content : list byte) (s : State) : State :=
  let s1 := Load_opened path (RegularFile content) s in
  let fd := m_nFD (this s1) in
  let data := take 54 content in
  {| this := set_header (header_of_bytes (overwrite data (zero_bytes 54))) (this s1);
     world := log (EvRead fd 54 (Some data))
                (with_fds (<[fd := mkOfd (RegularFile content)
                                     (0 + Z.of_nat (length data))]>
                             (w_fds (world s1))) (world s1)) |}.

(** The header [Load] stores from a file with this content: the first 54
    bytes, over the zeroes [memset] left. *)
Definition file_header (content : list byte) : BMPHeader :=
  header_of_bytes (overwrite (take 54 content) (zero_bytes 54)).


(** ** Sample files *)

(** A process with descriptors 0, 1 and 2 open, and the given files. *)
Definition std_fds : gmap Z ofd :=
  list_to_map [(0, mkOfd (RegularFile []) 0);
               (1, mkOfd (RegularFile []) 0);
               (2, mkOfd (RegularFile []) 0)].

Definition world_of (files : list (string * node)) : World :=
  {| w_fs := list_to_map files; w_fds := std_fds; w_trace := [] |}.

Definition start (files : list (string * node)) : State :=
  {| this := BMP_new; world := world_of files |}.

Definition bytes (l : list Z) : list byte := map byte_of_Z l.

(** 2 x 2, 24 bits: the bottom row red, green, the top row blue, white;
    each row of 6 bytes padded to 8. *)
Definition rgb24_2x2 : list byte :=
  bytes_of_header (mkBMPHeader 19778 70 0 54 40 2 2 1 24 0 16 0 0 0 0)
  ++ bytes [0; 0; 255; 0; 255; 0; 0; 0]
  ++ bytes [255; 0; 0; 255; 255; 255; 0; 0].

(** A file of no bytes. *)
Definition empty_file : list byte := [].

(** The same file with the signature "XY". *)
Definition xy24_2x2 : list byte :=
  bytes [88; 89] ++ drop 2 rgb24_2x2.

(** 1 x 1, 32 bits. *)
Definition rgb32_1x1 : list byte :=
  bytes_of_header (mkBMPHeader 19778 58 0 54 40 1 1 1 32 0 4 0 0 0 0)
  ++ bytes [1; 2; 3; 4].

(** 1 x 1, 24 bits, with a colour count of two and a colour table. *)
Definition rgb24_with_table : list byte :=
  bytes_of_header (mkBMPHeader 19778 66 0 62 40 1 1 1 24 0 4 0 0 2 0)
  ++ bytes [16; 32; 48; 0; 255; 255; 255; 0]
  ++ bytes [1; 2; 3; 0].

(** The 2 x 2 file with a BID header size of 12 in place of 40. *)
Definition core24_2x2 : list byte :=
  bytes_of_header (mkBMPHeader 19778 70 0 54 12 2 2 1 24 0 16 0 0 0 0)
  ++ drop 54 rgb24_2x2.

(** The 2 x 2 file with a data offset of 0. *)
Definition origin24_2x2 : list byte :=
  bytes_of_header (mkBMPHeader 19778 70 0 0 40 2 2 1 24 0 16 0 0 0 0)
  ++ drop 54 rgb24_2x2.

(** 1 x 1, 40 bits. *)
Definition deep40_1x1 : list byte :=
  bytes_of_header (mkBMPHeader 19778 62 0 54 40 1 1 1 40 0 8 0 0 0 0)
  ++ bytes [1; 2; 3; 4; 5; 0; 0; 0].

(** 1 x 1, 1 bit, with the two palette entries of a monochrome bitmap and
    a colour count of zero. *)
Definition mono_1x1 : list byte :=
  bytes_of_header (mkBMPHeader 19778 66 0 62 40 1 1 1 1 0 4 0 0 0 0)
  ++ bytes [0; 0; 0; 0; 255; 255; 255; 0]
  ++ bytes [128; 0; 0; 0].

(** 1 x 2, 8 bits, with a colour count of two; the first palette entry is
    the bytes 16, 32, 48, 0. *)
Definition pal8_1x2 : list byte :=
  bytes_of_header (mkBMPHeader 19778 70 0 62 40 1 2 1 8 0 8 0 0 2 0)
  ++ bytes [16; 32; 48; 0; 255; 255; 255; 0]
  ++ bytes [0; 0; 0; 0; 1; 0; 0; 0].

(** ** Pixel output, palette entries and rows *)


(** [len] bytes of the file from offset [off]. *)
Definition file_bytes (content : list byte) (off len : Z) : list byte :=
  take (Z.to_nat len) (drop (Z.to_nat off) content).

(** An [RGB] whose four bytes are [data], in file order. *)
Definition RGB_of_bytes (data : list byte) : RGB :=
  store_RGB data RGB_indeterminate.

(** Entry [i] of the colour table that starts at [off]. *)
Definition palette_entry (content : list byte) (off : Z) (i : nat) : RGB :=
  RGB_of_bytes (file_bytes content (off + 4 * Z.of_nat i) 4).

(** The read of that entry. *)
Definition palette_read (fd : Z) (content : list byte) (off : Z) (i : nat) : event :=
  EvRead fd 4 (Some (file_bytes content (off + 4 * Z.of_nat i) 4)).

(** The target of the seek of file row [r]. *)
Definition row_offset (h : BMPHeader) (g : Geometry) (r : Z) : Z :=
  to_uint32 (nDataOffSet h + to_uint32 (nRowDataSize g * r)).

(** The seek of file row [r], which returns its target. *)
Definition row_seek (fd : Z) (h : BMPHeader) (g : Geometry) (r : Z) : event :=
  EvSeek fd (row_offset h g r) (row_offset h g r).

(** Row [y] of a pixel array [w] samples wide, when there is one. *)
Definition output_row (b : BMP) (w y : Z) : option (list RGB) :=
  match m_pRGBData b with
  | Some buf => Some (take (Z.to_nat w) (drop (Z.to_nat (y * w)) buf))
  | None => None
  end.

(** ** Invariants of a run *)

(** [P] holds when [m] ends, whichever way, if it held when [m] started. *)
Definition holds_through {A : Type} (P : State → Prop) (m : M A) : Prop :=
  ∀ s, P s → P (final (m s)).

(** The file system as [Load] found it. *)
Definition file_system_is (fs0 : gmap string node) (s : State) : Prop :=
  w_fs (world s) = fs0.

(** The object's descriptor [fd] is open, every other descriptor is as in
    [fds0], and nothing was closed since the trace was [tr0]. *)
Definition descriptor_held
  (fd : Z) (fds0 : gmap Z ofd) (tr0 : list event) (s : State) : Prop :=
  m_nFD (this s) = fd
  ∧ is_Some (w_fds (world s) !! fd)
  ∧ (∀ k, k ≠ fd → w_fds (world s) !! k = fds0 !! k)
  ∧ ∃ tr', w_trace (world s) = tr0 ++ tr' ∧ filter is_close tr' = [].

(** ** Binary numerals *)

(** The number a string of binary digits stands for, after the digits that
    gave [acc]; [None] for a text with any other character. *)
Fixpoint binary_value (acc : Z) (s : string) : option Z :=
  match s with
  | EmptyString => Some acc
  | String "0"%char rest => binary_value (2 * acc) rest
  | String "1"%char rest => binary_value (2 * acc + 1) rest
  | String _ _ => None
  end.

(** ** Clocks *)

(** A millisecond counter of 32 bits that reads [t0] first and is one
    further at each later reading. *)
Definition ticking (t0 : Z) : nat → Z := λ k, to_uint32 (t0 + Z.of_nat k).

(** * Properties *)

(** ** The descriptor open returns *)

(** [lowest_free_from] probes [n], [n + 1], ... and stops at the first
    descriptor that is not open. *)
Lemma lowest_free_from_spec (fuel : nat) :
  ∀ (n : Z) (fds : gmap Z ofd),
    let r := lowest_free_from fuel n fds in
    n ≤ r
    ∧ (∀ k, n ≤ k < r → is_Some (fds !! k))
    ∧ (fds !! r = None ∨ ∀ k, n ≤ k ≤ n + Z.of_nat fuel → is_Some (fds !! k)).
Proof.
  induction fuel as [| fuel IH]; intros n fds; cbn [lowest_free_from].
  - destruct (fds !! n) as [o |] eqn:Hn.
    + cbv zeta. split; [lia |]. split.
      * intros k Hk. replace k with n by lia. rewrite Hn. eauto.
      * right. intros k Hk. replace k with n by lia. rewrite Hn. eauto.
    + cbv zeta. split; [lia |]. split; [intros k Hk; lia | left; exact Hn].
  - destruct (fds !! n) as [o |] eqn:Hn.
    + destruct (IH (n + 1) fds) as (Hle & Hbelow & Hfree). cbv zeta.
      split; [lia |]. split.
      * intros k Hk. destruct (decide (k = n)) as [-> | Hne].
        -- rewrite Hn. eauto.
        -- apply Hbelow. lia.
      * destruct Hfree as [Hfree | Hall]; [left; exact Hfree | right].
        intros k Hk. destruct (decide (k = n)) as [-> | Hne].
        -- rewrite Hn. eauto.
        -- apply Hall. lia.
    + cbv zeta. split; [lia |]. split; [intros k Hk; lia | left; exact Hn].
Qed.

(** [open] returns a descriptor that was not open, every smaller one being
    open. *)
Lemma lowest_free_spec (fds : gmap Z ofd) :
  0 ≤ lowest_free fds
  ∧ fds !! lowest_free fds = None
  ∧ ∀ k, 0 ≤ k < lowest_free fds → is_Some (fds !! k).
Proof.
  unfold lowest_free.
  destruct (lowest_free_from_spec (size fds) 0 fds) as (Hle & Hbelow & Hfree).
  split; [exact Hle |]. split; [| exact Hbelow].
  destruct Hfree as [Hfree | Hall]; [exact Hfree | exfalso].
  assert (Hsub : (list_to_set (seqZ 0 (Z.of_nat (S (size fds)))) : gset Z) ⊆ dom fds).
  { intros k Hk. apply elem_of_list_to_set, elem_of_seqZ in Hk.
    apply elem_of_dom, Hall. lia. }
  apply subseteq_size in Hsub.
  rewrite size_list_to_set in Hsub by apply NoDup_seqZ.
  rewrite length_seqZ, size_dom in Hsub. lia.
Qed.

(** ** Scanline geometry *)

Lemma product_eighths (w d : Z) :
  (inject_Z w * (inject_Z d / 8))%Q = (w * (d * 1)) # 8.
Proof. reflexivity. Qed.

Lemma Qceiling_eighths (n : Z) : Qceiling (n # 8) = (n + 7) / 8.
Proof.
  unfold Qceiling, Qfloor, Qopp; cbn [Qnum Qden].
  pose proof (Z.div_mod n 8 ltac:(lia)) as Hn.
  pose proof (Z.mod_pos_bound n 8 ltac:(lia)) as Hb.
  pose proof (Z.div_mod (- n) 8 ltac:(lia)) as Hn'.
  pose proof (Z.mod_pos_bound (- n) 8 ltac:(lia)) as Hb'.
  pose proof (Z.div_mod (n + 7) 8 ltac:(lia)) as Hn7.
  pose proof (Z.mod_pos_bound (n + 7) 8 ltac:(lia)) as Hb7.
  lia.
Qed.

Lemma Qtrunc_inject (z : Z) : Qtrunc (inject_Z z) = z.
Proof.
  unfold Qtrunc, Qceiling, Qle_bool, Qfloor, Qopp, inject_Z; cbn [Qnum Qden].
  rewrite !Z.div_1_r. destruct (_ <=? _); lia.
Qed.

(** On a non-negative number of eighths [RoundUp] is the ceiling. *)
Lemma RoundUp_eighths (n : Z) :
  0 ≤ n < 2 ^ 60 →
  RoundUp (n # 8) = inr (inject_Z ((n + 7) / 8)).
Proof.
  intros Hn. unfold RoundUp, double_to_unsigned, Qtrunc.
  assert (Hle : Qle_bool 0 (n # 8) = true).
  { unfold Qle_bool; cbn [Qnum Qden]. apply Z.leb_le. lia. }
  rewrite Hle. unfold Qfloor.
  pose proof (Z.div_mod n 8 ltac:(lia)) as Hd.
  pose proof (Z.mod_pos_bound n 8 ltac:(lia)) as Hb.
  pose proof (Z.div_mod (n + 7) 8 ltac:(lia)) as Hd7.
  pose proof (Z.mod_pos_bound (n + 7) 8 ltac:(lia)) as Hb7.
  assert (Hr : (0 <=? n / 8) && (n / 8 <? 2 ^ 64) = true).
  { apply andb_true_iff; split; [apply Z.leb_le | apply Z.ltb_lt]; lia. }
  rewrite Hr. f_equal.
  unfold Qeq_bool, inject_Z; cbn [Qnum Qden].
  destruct (Z.eqb (n * 1) (n / 8 * 8)) eqn:E.
  - apply Z.eqb_eq in E. f_equal. lia.
  - apply Z.eqb_neq in E. unfold to_uint64.
    rewrite Z.mod_small by lia. f_equal. lia.
Qed.

Lemma geometry_in_range (w d : Z) :
  0 < w → supported_depth d →
  Qceiling (inject_Z w * (inject_Z d / 8)) ≤ 2 ^ 32 - 4 →
  geometry_as_specified w d.
Proof.
  intros Hw Hd. unfold geometry_as_specified, scanline_geometry.
  rewrite product_eighths, Qceiling_eighths. intros Hc.
  assert (Hn : 0 ≤ w * (d * 1) < 2 ^ 60).
  { pose proof (Z.div_mod (w * (d * 1) + 7) 8 ltac:(lia)).
    pose proof (Z.mod_pos_bound (w * (d * 1) + 7) 8 ltac:(lia)).
    unfold supported_depth in Hd. lia. }
  rewrite RoundUp_eighths by exact Hn.
  set (bpr := (w * (d * 1) + 7) / 8) in *.
  assert (Hbpr : 0 ≤ bpr).
  { subst bpr. apply Z.div_pos; lia. }
  assert (Hcast : double_to_unsigned 32 (inject_Z bpr) = inr bpr).
  { unfold double_to_unsigned. rewrite Qtrunc_inject.
    replace ((0 <=? bpr) && (bpr <? 2 ^ 32)) with true; [reflexivity |].
    symmetry. apply andb_true_iff; split; [apply Z.leb_le | apply Z.ltb_lt]; lia. }
  rewrite Hcast.
  assert (Hpix : ∃ k, double_to_unsigned 8
                        (if negb (Qle_bool 1 (inject_Z d / 8))
                         then 1%Q else (inject_Z d / 8)%Q) = inr k).
  { destruct Hd as [-> | [-> | [-> | [-> | ->]]]]; eexists; reflexivity. }
  destruct Hpix as [k ->].
  eexists; split; [reflexivity |]. cbn [nBytesPerRow nPaddingSize nRowDataSize].
  pose proof (Z.mod_pos_bound bpr 4 ltac:(lia)) as Hm.
  pose proof (Z.div_mod bpr 4 ltac:(lia)) as Hdm.
  assert (Hpad : (if 0 <? bpr mod 4 then 4 - bpr mod 4 else 0)
                 = (4 - bpr mod 4) mod 4).
  { destruct (0 <? bpr mod 4) eqn:E.
    - apply Z.ltb_lt in E. symmetry. apply Z.mod_small. lia.
    - apply Z.ltb_ge in E. replace (bpr mod 4) with 0 by lia. reflexivity. }
  rewrite Hpad. set (pad := (4 - bpr mod 4) mod 4).
  assert (Hp : 0 ≤ pad < 4) by (apply Z.mod_pos_bound; lia).
  assert (Hsum : (bpr + pad) mod 4 = 0).
  { subst pad. rewrite Zplus_mod_idemp_r.
    replace (bpr + (4 - bpr mod 4)) with (4 + (bpr - bpr mod 4)) by lia.
    replace (bpr - bpr mod 4) with (bpr / 4 * 4) by lia.
    rewrite Z.mod_add by lia. reflexivity. }
  assert (Hfit : to_uint32 (bpr + pad) = bpr + pad).
  { unfold to_uint32, UINT32_MOD. apply Z.mod_small.
    pose proof (Z.div_mod (bpr + pad) 4 ltac:(lia)). lia. }
  rewrite Hfit.
  split; [reflexivity |]. split; [reflexivity |].
  split; [reflexivity | exact Hsum].
Qed.

(** C5, as amended.  For every width > 0 and bit depth in {1, 4, 8, 16, 24}
    whose row fits 32 bits once padded, that is with
    ceil (width * bitDepth / 8) <= 2^32 - 4, the locals of [LoadRGBData]
    satisfy nBytesPerRow = ceil (width * bitDepth / 8),
    nPaddingSize = (4 - nBytesPerRow mod 4) mod 4,
    nRowDataSize = nBytesPerRow + nPaddingSize, and nRowDataSize is a
    multiple of 4.  In particular width 3 at 24 bits gives 9, 3 and 12, and
    width 21 at 1 bit gives 3, 1 and 4. *)
Theorem scanline_geometry_spec :
  (∀ w d : Z,
     0 < w → supported_depth d →
     Qceiling (inject_Z w * (inject_Z d / 8)) ≤ 2 ^ 32 - 4 →
     geometry_as_specified w d)
  ∧ scanline_geometry 3 24 = inr (mkGeometry (24 # 8) 3 9 3 12)
  ∧ scanline_geometry 21 1 = inr (mkGeometry (1 # 8) 1 3 1 4).
Proof.
  split; [exact geometry_in_range | split; reflexivity].
Qed.

Lemma scanline_geometry_spec_witness :
  0 < 3 ∧ supported_depth 24
  ∧ Qceiling (inject_Z 3 * (inject_Z 24 / 8)) ≤ 2 ^ 32 - 4
  ∧ geometry_as_specified 3 24.
Proof.
  assert (H1 : 0 < 3) by lia.
  assert (H2 : supported_depth 24) by (unfold supported_depth; lia).
  assert (H3 : Qceiling (inject_Z 3 * (inject_Z 24 / 8)) ≤ 2 ^ 32 - 4)
    by (vm_compute; discriminate).
  exact (conj H1 (conj H2 (conj H3 (proj1 scanline_geometry_spec 3 24 H1 H2 H3)))).
Defined.

(** C5 as stated fails: a row of 1431655765 pixels of 24 bits has
    nBytesPerRow = 2^32 - 1 and nPaddingSize = 1, and their 32-bit sum
    nRowDataSize wraps to 0; and for 2147483647 pixels of 24 bits the
    ceiling, 6442450941, does not fit the [uint32_t] it is converted to. *)
Lemma scanline_geometry_wraps :
  (0 < 1431655765 ∧ supported_depth 24
   ∧ scanline_geometry 1431655765 24
     = inr (mkGeometry (24 # 8) 3 4294967295 1 0)
   ∧ ¬ geometry_as_specified 1431655765 24)
  ∧ (Qceiling (inject_Z 2147483647 * (inject_Z 24 / 8)) = 6442450941
     ∧ scanline_geometry 2147483647 24 = inl FloatToIntegerRange
     ∧ ¬ geometry_as_specified 2147483647 24).
Proof.
  split.
  - split; [lia |]. split; [unfold supported_depth; lia |].
    split; [vm_compute; reflexivity |].
    intros (g & Hg & _ & _ & Hsum & _).
    vm_compute in Hg. injection Hg as <-. vm_compute in Hsum. discriminate.
  - split; [vm_compute; reflexivity |]. split; [vm_compute; reflexivity |].
    intros (g & Hg & _). vm_compute in Hg. discriminate.
Qed.

(** ** The first check of Load and of the two loaders *)

(** C9.  For the empty file name [Load] returns false at once: the only
    effect is the diagnostic; nothing is opened, sought or read, and the
    object is not touched. *)
Theorem Load_empty_filename (s : State) :
  Load "" s = Ret false (diagnosed "Load" "Filename has zero length()" s).
Proof. reflexivity. Qed.

(** Without the signature both loaders stop at their first check. *)
Lemma loaders_stop_without_signature (s : State) :
  signature (m_bmpHeader (this s)) ≠ BMP_SIGNATURE →
  LoadColorPalleta s
  = Ret false (diagnosed "LoadColorPalleta" "No image was loaded." s)
  ∧ LoadRGBData s
    = Ret false (diagnosed "LoadRGBData" "No image was loaded." s).
Proof.
  intros Hsig. apply Z.eqb_neq in Hsig.
  unfold LoadColorPalleta, LoadRGBData, VERIFYFALSE, header, gets, bind, ret.
  rewrite Hsig. split; reflexivity.
Qed.

(** ** What the loaders leave alone *)

Lemma never_false_ret_true : never_false (ret true).
Proof. intros s s'. unfold ret. discriminate. Qed.

Lemma never_false_bind {A : Type} (m : M A) (k : A → M bool) :
  (∀ a, never_false (k a)) → never_false (bind m k).
Proof.
  intros Hk s s'. unfold bind. destruct (m s) as [a s1 | f s1].
  - apply Hk.
  - discriminate.
Qed.

Section Frame.

Context {X : Type} (f : BMP → X).
Hypothesis f_palleta : ∀ p b, f (set_palleta p b) = f b.

Lemma keeps_ret {A : Type} (a : A) : keeps f (ret a).
Proof. intros s. reflexivity. Qed.

Lemma keeps_raise {A : Type} (e : fault) : keeps f (@raise A e).
Proof. intros s. reflexivity. Qed.

Lemma keeps_gets {A : Type} (g : State → A) : keeps f (gets g).
Proof. intros s. reflexivity. Qed.

Lemma keeps_defined {A : Type} (r : fault + A) : keeps f (defined r).
Proof. destruct r; intros s; reflexivity. Qed.

Lemma keeps_bind {A B : Type} (m : M A) (k : A → M B) :
  keeps f m → (∀ a, keeps f (k a)) → keeps f (bind m k).
Proof.
  intros Hm Hk s. unfold bind. specialize (Hm s).
  destruct (m s) as [a s1 | e s1]; cbn in *.
  - rewrite Hk. exact Hm.
  - exact Hm.
Qed.

Lemma keeps_on_world (g : World → World) : keeps f (modify (on_world g)).
Proof. intros s. reflexivity. Qed.

Lemma keeps_set_palleta (g : BMP → option (list RGB)) :
  keeps f (modify (on_this (λ b, set_palleta (g b) b))).
Proof. intros s. cbn. apply f_palleta. Qed.

Lemma keeps_sys_read (fd count : Z) : keeps f (sys_read fd count).
Proof.
  intros s. unfold sys_read.
  destruct (w_fds (world s) !! fd) as [[[content |] pos] |]; reflexivity.
Qed.

Lemma keeps_sys_lseek (fd offset : Z) : keeps f (sys_lseek fd offset).
Proof.
  intros s. unfold sys_lseek.
  destruct (w_fds (world s) !! fd) as [[n pos] |]; [| reflexivity].
  destruct (offset <? 0); reflexivity.
Qed.

Lemma keeps_sys_close (fd : Z) : keeps f (sys_close fd).
Proof.
  intros s. unfold sys_close.
  destruct (w_fds (world s) !! fd); reflexivity.
Qed.

Lemma keeps_VERIFYFALSE (fn m : string) (x k : M bool) :
  keeps f x → keeps f k → keeps f (VERIFYFALSE fn x m k).
Proof.
  intros Hx Hk. unfold VERIFYFALSE. apply keeps_bind; [exact Hx |].
  intros [|]; [exact Hk |].
  apply keeps_bind; [apply keeps_on_world | intros _; apply keeps_ret].
Qed.

Create HintDb keeps.

Hint Resolve keeps_ret keeps_raise keeps_gets keeps_defined keeps_on_world
  keeps_sys_read keeps_sys_lseek keeps_sys_close : keeps.

Ltac keeps_step :=
  first [ apply keeps_VERIFYFALSE
        | apply keeps_bind; [| intros ?]
        | apply keeps_set_palleta
        | solve [unfold header, fd_of_this; auto with keeps] ].

Lemma keeps_dump_entry (nCount : Z) : keeps f (dump_entry nCount).
Proof.
  intros s. unfold dump_entry, bind, gets.
  destruct (_ ≫= _) as [[[r |] [g |] [b |] [a |]] |]; reflexivity.
Qed.

Lemma keeps_LoadColorPalleta_loop (todo : nat) (nCount : Z) :
  keeps f (LoadColorPalleta_loop todo nCount).
Proof.
  revert nCount. induction todo as [| todo IH]; intros nCount;
    cbn [LoadColorPalleta_loop].
  - apply keeps_ret.
  - apply keeps_VERIFYFALSE; [repeat keeps_step |].
    apply keeps_bind; [apply keeps_dump_entry | intros _].
    destruct (nCount =? INT_MAX); [apply keeps_raise | apply IH].
Qed.

Lemma keeps_LoadColorPalleta : keeps f LoadColorPalleta.
Proof.
  unfold LoadColorPalleta. repeat keeps_step.
  destruct (0 <? nColorsInPalleta _); [| apply keeps_ret].
  repeat keeps_step. apply keeps_LoadColorPalleta_loop.
Qed.

Lemma keeps_LoadRGBData_row (todo : nat) (g : Geometry) (k : M bool) :
  keeps f k → keeps f (LoadRGBData_row todo g k).
Proof.
  intros Hk. induction todo as [| todo IH]; cbn.
  - exact Hk.
  - repeat keeps_step. destruct (4 <? nBytesPerPixel g); [apply keeps_raise | exact IH].
Qed.

Lemma keeps_LoadRGBData_rows (todo : nat) (g : Geometry) (nRowCount : Z) :
  keeps f (LoadRGBData_rows todo g nRowCount).
Proof.
  revert nRowCount. induction todo as [| todo IH]; intros nRowCount; cbn.
  - apply keeps_ret.
  - repeat keeps_step. apply keeps_LoadRGBData_row, IH.
Qed.

Lemma keeps_LoadRGBData : keeps f LoadRGBData.
Proof.
  unfold LoadRGBData. repeat keeps_step. apply keeps_LoadRGBData_rows.
Qed.

End Frame.

(** ** The exits of Load *)

(** [Load] in direct style. *)
Lemma Load_eq (strFileName : string) (s : State) :
  Load strFileName s =
  if (String.length strFileName =? 0)%nat
  then Ret false (diagnosed "Load" "Filename has zero length()" s)
  else
    let path := c_str strFileName in
    match w_fs (world s) !! path with
    | None =>
        Ret false (diagnosed "Load" "Error, file could not be opened"
                     (Load_not_opened path s))
    | Some n =>
        if 0 <? lowest_free (w_fds (world s)) then
          match n with
          | Directory =>
              Ret false (diagnosed "Load" "Error reading header"
                           (Load_header_unread path s))
          | RegularFile content =>
              let s2 := Load_header_read path content s in
              let h := m_bmpHeader (this s2) in
              if to_uint32 (nHeight h) =? 0 then Fault DivisionByZero s2
              else if signature h =? BMP_SIGNATURE then
                if nCompressionMethod h =? BMP_BI_RGB then
                  (LoadColorPalleta >> LoadRGBData >>
                   (let* fd := fd_of_this in sys_close fd) >> ret true) s2
                else Ret false (diagnosed "Load"
                                  "Error, compression is not implemented." s2)
              else Ret false (diagnosed "Load"
                                "Signature value is not implemented." s2)
          end
        else Ret false (diagnosed "Load" "Error, file could not be opened"
                          (Load_opened path n s))
    end.
Proof.
  destruct s as [b [fs fds tr]].
  unfold Load, VERIFYFALSE, bind at 1, ret at 1.
  destruct (String.length strFileName =? 0)%nat; [reflexivity |].
  cbn [negb]. unfold bind at 1, modify at 1.
  unfold bind at 1 2, sys_open. cbn [world w_fs w_fds on_this this].
  destruct (fs !! c_str strFileName) as [n |]; [| reflexivity].
  cbn -[lowest_free header_of_bytes zero_bytes]. unfold ret at 1.
  destruct (0 <? lowest_free fds); [| reflexivity].
  unfold bind at 1 2 3, fd_of_this at 1, gets at 1, sys_read.
  cbn -[lowest_free header_of_bytes zero_bytes].
  rewrite lookup_insert_eq.
  destruct n as [content |]; [| reflexivity].
  cbn -[lowest_free header_of_bytes zero_bytes LoadColorPalleta LoadRGBData Z.leb Z.of_nat].
  replace (0 <=? Z.of_nat (length (take (Z.to_nat sizeof_BMPHeader)
                                        (drop (Z.to_nat 0) content))))
    with true by (symmetry; apply Z.leb_le; lia).
  unfold dump_header, header, gets, bind at 1 2.
  cbn -[lowest_free header_of_bytes zero_bytes LoadColorPalleta LoadRGBData Z.leb Z.of_nat].
  destruct (to_uint32 _ =? 0); [reflexivity |].
  unfold bind at 1 2, ret at 1.
  cbn -[lowest_free header_of_bytes zero_bytes LoadColorPalleta LoadRGBData].
  destruct (signature _ =? BMP_SIGNATURE); [| reflexivity].
  unfold bind at 1 2, ret at 1.
  cbn -[lowest_free header_of_bytes zero_bytes LoadColorPalleta LoadRGBData].
  destruct (nCompressionMethod _ =? BMP_BI_RGB); reflexivity.
Qed.

Lemma Load_header_read_header (path : string) (content : list byte) (s : State) :
  m_bmpHeader (this (Load_header_read path content s)) = file_header content.
Proof. reflexivity. Qed.

Lemma to_int32_zero (z : Z) : to_uint32 (to_int32 z) = 0 → to_int32 z = 0.
Proof.
  unfold to_uint32, to_int32, UINT32_MOD.
  pose proof (Z.mod_pos_bound z (2 ^ 32) ltac:(lia)) as Hm.
  destruct (z mod 2 ^ 32 <? 2 ^ 31) eqn:E.
  - rewrite Z.mod_mod by lia. trivial.
  - apply Z.ltb_ge in E.
    replace (z mod 2 ^ 32 - 2 ^ 32) with (z mod 2 ^ 32 + (-1) * 2 ^ 32) by lia.
    rewrite Z.mod_add by lia. rewrite Z.mod_mod by lia. lia.
Qed.

Lemma keeps_Load_tail {X : Type} (f : BMP → X) :
  (∀ p b, f (set_palleta p b) = f b) →
  keeps f (LoadColorPalleta >> LoadRGBData >>
           (let* fd := fd_of_this in sys_close fd) >> ret true).
Proof.
  intros Hf.
  apply keeps_bind; [apply keeps_LoadColorPalleta, Hf | intros _].
  apply keeps_bind; [apply keeps_LoadRGBData | intros _].
  apply keeps_bind; [| intros _; apply keeps_ret].
  apply keeps_bind; [apply keeps_gets | intros fd; apply keeps_sys_close].
Qed.

Lemma never_false_Load_tail :
  never_false (LoadColorPalleta >> LoadRGBData >>
               (let* fd := fd_of_this in sys_close fd) >> ret true).
Proof.
  repeat (apply never_false_bind; intros ?). apply never_false_ret_true.
Qed.

(** ** Runs without fault *)

Section Returns.

Variable h : BMPHeader.

Lemma returns_ret {A : Type} (a : A) : returns_with h (ret a).
Proof. intros s Hs. exists a, s. split; [reflexivity | exact Hs]. Qed.

Lemma returns_bind {A B : Type} (m : M A) (k : A → M B) :
  returns_with h m → (∀ a, returns_with h (k a)) → returns_with h (bind m k).
Proof.
  intros Hm Hk s Hs. destruct (Hm s Hs) as (a & s1 & Hrun & Hs1).
  unfold bind. rewrite Hrun. apply Hk, Hs1.
Qed.

Lemma returns_value_bind {A B : Type} (a : A) (k : A → M B) :
  returns_with h (k a) → returns_with h (bind (ret a) k).
Proof. intros Hk s Hs. apply Hk, Hs. Qed.

(** The header a run reads is [h]. *)
Lemma returns_header_bind {B : Type} (k : BMPHeader → M B) :
  returns_with h (k h) → returns_with h (bind header k).
Proof.
  intros Hk s Hs. unfold bind, header, gets. rewrite Hs. apply Hk, Hs.
Qed.

Lemma returns_gets {A : Type} (g : State → A) : returns_with h (gets g).
Proof. intros s Hs. exists (g s), s. split; [reflexivity | exact Hs]. Qed.

Lemma returns_on_world (g : World → World) : returns_with h (modify (on_world g)).
Proof. intros s Hs. exists tt, (on_world g s). split; [reflexivity | exact Hs]. Qed.

Lemma returns_set_palleta (g : BMP → option (list RGB)) :
  returns_with h (modify (on_this (λ b, set_palleta (g b) b))).
Proof.
  intros s Hs. eexists tt, _. split; [reflexivity | exact Hs].
Qed.

Lemma returns_sys_read (fd count : Z) : returns_with h (sys_read fd count).
Proof.
  intros s Hs. unfold sys_read.
  destruct (w_fds (world s) !! fd) as [[[content |] pos] |];
    eexists _, _; (split; [reflexivity | exact Hs]).
Qed.

Lemma returns_sys_lseek (fd offset : Z) : returns_with h (sys_lseek fd offset).
Proof.
  intros s Hs. unfold sys_lseek.
  destruct (w_fds (world s) !! fd) as [[n pos] |];
    [destruct (offset <? 0) |]; eexists _, _; (split; [reflexivity | exact Hs]).
Qed.

Lemma returns_sys_close (fd : Z) : returns_with h (sys_close fd).
Proof.
  intros s Hs. unfold sys_close.
  destruct (w_fds (world s) !! fd); eexists _, _; (split; [reflexivity | exact Hs]).
Qed.

Lemma returns_VERIFYFALSE (fn m : string) (x k : M bool) :
  returns_with h x → returns_with h k → returns_with h (VERIFYFALSE fn x m k).
Proof.
  intros Hx Hk. unfold VERIFYFALSE. apply returns_bind; [exact Hx |].
  intros [|]; [exact Hk |].
  apply returns_bind; [apply returns_on_world | intros _; apply returns_ret].
Qed.

Ltac returns_step :=
  first [ apply returns_VERIFYFALSE
        | apply returns_header_bind
        | apply returns_bind; [| intros ?]
        | apply returns_set_palleta
        | apply returns_sys_read | apply returns_sys_lseek
        | apply returns_sys_close | apply returns_on_world
        | apply returns_gets | apply returns_ret ].

Lemma returns_LoadRGBData_row (todo : nat) (g : Geometry) (k : M bool) :
  nBytesPerPixel g ≤ 4 →
  returns_with h k → returns_with h (LoadRGBData_row todo g k).
Proof.
  intros Hpix Hk. induction todo as [| todo IH]; cbn.
  - exact Hk.
  - apply returns_VERIFYFALSE.
    + unfold fd_of_this. repeat returns_step.
    + replace (4 <? nBytesPerPixel g) with false by (symmetry; apply Z.ltb_ge; lia).
      exact IH.
Qed.

Lemma returns_LoadRGBData_rows (todo : nat) (g : Geometry) (nRowCount : Z) :
  nBytesPerPixel g ≤ 4 →
  returns_with h (LoadRGBData_rows todo g nRowCount).
Proof.
  intros Hpix. revert nRowCount. induction todo as [| todo IH]; intros nRowCount; cbn.
  - apply returns_ret.
  - apply returns_VERIFYFALSE.
    + unfold fd_of_this. repeat returns_step.
    + apply returns_LoadRGBData_row; [exact Hpix | apply IH].
Qed.

Lemma returns_LoadRGBData (g : Geometry) :
  scanline_geometry (nWidth h) (nBitPerPixel h) = inr g →
  nBytesPerPixel g ≤ 4 →
  nHeight h ≠ INT_MIN →
  returns_with h LoadRGBData.
Proof.
  intros Hgeo Hpix Hmin. unfold LoadRGBData. apply returns_VERIFYFALSE.
  - apply returns_header_bind, returns_ret.
  - apply returns_header_bind. rewrite Hgeo.
    apply (returns_value_bind g).
    assert (Habs : ∃ rows, ABS (nHeight h) = inr rows).
    { unfold ABS. destruct (nHeight h <? 0); [| eauto].
      replace (nHeight h =? INT_MIN) with false
        by (symmetry; apply Z.eqb_neq; exact Hmin).
      eauto. }
    destruct Habs as [rows ->].
    apply (returns_value_bind rows).
    apply returns_LoadRGBData_rows, Hpix.
Qed.

End Returns.

(** ** Load as a whole *)

(** The sample files carry the headers they were built from. *)
Lemma sample_headers :
  file_header rgb24_2x2 = mkBMPHeader 19778 70 0 54 40 2 2 1 24 0 16 0 0 0 0
  ∧ file_header xy24_2x2 = mkBMPHeader 22872 70 0 54 40 2 2 1 24 0 16 0 0 0 0
  ∧ file_header rgb32_1x1 = mkBMPHeader 19778 58 0 54 40 1 1 1 32 0 4 0 0 0 0
  ∧ file_header mono_1x1 = mkBMPHeader 19778 66 0 62 40 1 1 1 1 0 4 0 0 0 0
  ∧ file_header pal8_1x2 = mkBMPHeader 19778 70 0 62 40 1 2 1 8 0 8 0 0 2 0
  ∧ file_header empty_file = mkBMPHeader 0 0 0 0 0 0 0 0 0 0 0 0 0 0 0.
Proof. repeat split; vm_compute; reflexivity. Qed.

(** A run of [Load] that seeks has stored a header with the signature. *)
Lemma Load_seeks_need_signature (strFileName : string) (s : State) :
  signature (m_bmpHeader (this (final (Load strFileName s)))) ≠ BMP_SIGNATURE →
  filter is_seek (w_trace (world (final (Load strFileName s))))
  = filter is_seek (w_trace (world s)).
Proof.
  rewrite Load_eq.
  destruct (String.length strFileName =? 0)%nat.
  { intros _. cbn. rewrite filter_app. cbn. apply app_nil_r. }
  cbv zeta.
  destruct (w_fs (world s) !! c_str strFileName) as [n |].
  2:{ intros _. cbn. rewrite !filter_app. cbn. rewrite !app_nil_r. reflexivity. }
  destruct (0 <? lowest_free (w_fds (world s))).
  2:{ intros _. cbn. rewrite !filter_app. cbn. rewrite !app_nil_r. reflexivity. }
  destruct n as [content |].
  2:{ intros _. cbn. rewrite !filter_app. cbn. rewrite !app_nil_r. reflexivity. }
  destruct (to_uint32 _ =? 0).
  { intros _. cbn. rewrite !filter_app. cbn. rewrite !app_nil_r. reflexivity. }
  destruct (signature _ =? BMP_SIGNATURE) eqn:Hsig.
  2:{ intros _. cbn. rewrite !filter_app. cbn. rewrite !app_nil_r. reflexivity. }
  destruct (nCompressionMethod _ =? BMP_BI_RGB).
  2:{ intros _. cbn. rewrite !filter_app. cbn. rewrite !app_nil_r. reflexivity. }
  intros Hbad. exfalso. apply Hbad.
  rewrite (keeps_Load_tail m_bmpHeader ltac:(reflexivity)).
  apply Z.eqb_eq, Hsig.
Qed.

(** C10.  While the stored header's signature is not 19778, both
    [LoadColorPalleta] and [LoadRGBData] return false having done nothing
    but print their diagnostic: no seek and no read.  Hence palette and
    pixel I/O need a header with a valid signature to have been read: a new
    object has none, and a run of [Load] that ends with a stored signature
    other than 19778 has made no seek, so it never reached the palette or
    the pixel data. *)
Theorem loaders_need_signature :
  (∀ s, signature (m_bmpHeader (this s)) ≠ BMP_SIGNATURE →
        LoadColorPalleta s
        = Ret false (diagnosed "LoadColorPalleta" "No image was loaded." s)
        ∧ LoadRGBData s
          = Ret false (diagnosed "LoadRGBData" "No image was loaded." s))
  ∧ signature (m_bmpHeader BMP_new) ≠ BMP_SIGNATURE
  ∧ (∀ strFileName s,
       signature (m_bmpHeader (this (final (Load strFileName s)))) ≠ BMP_SIGNATURE →
       filter is_seek (w_trace (world (final (Load strFileName s))))
       = filter is_seek (w_trace (world s))).
Proof.
  split; [exact loaders_stop_without_signature |].
  split; [vm_compute; discriminate | exact Load_seeks_need_signature].
Qed.

Lemma loaders_need_signature_witness :
  (signature (m_bmpHeader BMP_new) ≠ BMP_SIGNATURE
   ∧ LoadColorPalleta (mkState BMP_new (mkWorld ∅ ∅ []))
     = Ret false (mkState BMP_new
                    (mkWorld ∅ ∅ [EvDiag "LoadColorPalleta" "No image was loaded."]))
   ∧ LoadRGBData (mkState BMP_new (mkWorld ∅ ∅ []))
     = Ret false (mkState BMP_new
                    (mkWorld ∅ ∅ [EvDiag "LoadRGBData" "No image was loaded."])))
  ∧ filter is_seek
      (w_trace (world (final (Load "xy24.bmp"
                                (start [("xy24.bmp", RegularFile xy24_2x2)])))))
    = [].
Proof.
  assert (H : signature (m_bmpHeader BMP_new) ≠ BMP_SIGNATURE)
    by (vm_compute; discriminate).
  split.
  - exact (conj H (proj1 loaders_need_signature
                     (mkState BMP_new (mkWorld ∅ ∅ [])) H)).
  - refine (proj2 (proj2 loaders_need_signature) "xy24.bmp"
              (start [("xy24.bmp", RegularFile xy24_2x2)]) _).
    vm_compute. discriminate.
Defined.



(** C3, as amended.  The signature and the compression method are checked
    before any palette or pixel read: for a file that opens and whose
    header has a height other than zero (the header dump divides by it),
    when the signature is not 19778 or the compression is not 0, [Load]
    returns false after the open, the read of the header and one
    diagnostic, with no seek and no palette or pixel read, and leaves
    palette and pixel data as they were.  The failure is the value false:
    there are no error kinds.  The bit depth is not checked. *)
Theorem Load_rejects_before_loading
  (strFileName : string) (content : list byte) (s : State) :
  String.length strFileName ≠ 0%nat →
  w_fs (world s) !! c_str strFileName = Some (RegularFile content) →
  0 < lowest_free (w_fds (world s)) →
  nHeight (file_header content) ≠ 0 →
  signature (file_header content) ≠ BMP_SIGNATURE
  ∨ nCompressionMethod (file_header content) ≠ BMP_BI_RGB →
  ∃ s' msg,
    Load strFileName s = Ret false s'
    ∧ w_trace (world s')
      = w_trace (world s)
        ++ [EvOpen (c_str strFileName) (lowest_free (w_fds (world s)));
            EvRead (lowest_free (w_fds (world s))) 54 (Some (take 54 content));
            EvDiag "Load" msg]
    ∧ m_pRGBPalleta (this s') = m_pRGBPalleta (this s)
    ∧ m_pRGBData (this s') = m_pRGBData (this s).
Proof.
  intros Hname Hfile Hfd Hheight Hbad.
  rewrite Load_eq.
  apply Nat.eqb_neq in Hname. rewrite Hname. cbv zeta. rewrite Hfile.
  apply Z.ltb_lt in Hfd. rewrite Hfd.
  rewrite Load_header_read_header.
  assert (Hdiv : (to_uint32 (nHeight (file_header content)) =? 0) = false).
  { apply Z.eqb_neq. intros Hz. apply Hheight. apply to_int32_zero, Hz. }
  rewrite Hdiv.
  assert (Htrace : ∀ msg,
    w_trace (world (diagnosed "Load" msg
                      (Load_header_read (c_str strFileName) content s)))
    = w_trace (world s)
      ++ [EvOpen (c_str strFileName) (lowest_free (w_fds (world s)));
          EvRead (lowest_free (w_fds (world s))) 54 (Some (take 54 content));
          EvDiag "Load" msg]).
  { intros msg. cbn. rewrite <- !app_assoc. reflexivity. }
  destruct (signature (file_header content) =? BMP_SIGNATURE) eqn:Hsig.
  - destruct (nCompressionMethod (file_header content) =? BMP_BI_RGB) eqn:Hcomp.
    + apply Z.eqb_eq in Hsig, Hcomp. destruct Hbad as [Hbad | Hbad]; contradiction.
    + eexists _, _. split; [reflexivity |]. split; [apply Htrace |].
      split; reflexivity.
  - eexists _, _. split; [reflexivity |]. split; [apply Htrace |].
    split; reflexivity.
Qed.

Lemma Load_rejects_before_loading_witness :
  ∃ s' msg,
    Load "xy24.bmp" (start [("xy24.bmp", RegularFile xy24_2x2)]) = Ret false s'
    ∧ w_trace (world s')
      = [EvOpen "xy24.bmp" 3; EvRead 3 54 (Some (take 54 xy24_2x2));
         EvDiag "Load" msg]
    ∧ m_pRGBPalleta (this s') = None
    ∧ m_pRGBData (this s') = None.
Proof.
  refine (Load_rejects_before_loading "xy24.bmp" xy24_2x2
            (start [("xy24.bmp", RegularFile xy24_2x2)]) _ _ _ _ _).
  - cbn. discriminate.
  - vm_compute. reflexivity.
  - vm_compute. reflexivity.
  - vm_compute. discriminate.
  - left. vm_compute. discriminate.
Defined.

(** C3 as stated fails: a file of 32 bits per pixel, a depth outside
    {1, 4, 8, 16, 24}, is not rejected; [Load] returns true after seeking
    to the pixel data and reading it.  And a file of no bytes, whose
    signature and height read as 0, is not rejected either: the header dump
    divides by the height before the signature is looked at. *)
Lemma Load_validation_gaps :
  (nBitPerPixel (file_header rgb32_1x1) = 32
   ∧ ∃ s', Load "rgb32.bmp" (start [("rgb32.bmp", RegularFile rgb32_1x1)])
           = Ret true s'
           ∧ map shape (w_trace (world s'))
             = [COpen "rgb32.bmp"; CRead 3 54; CSeek 3 54;
                CRead 3 4; CRead 3 4; CRead 3 4; CRead 3 4; CClose 3])
  ∧ (signature (file_header empty_file) ≠ BMP_SIGNATURE
     ∧ ∃ s', Load "empty.bmp" (start [("empty.bmp", RegularFile empty_file)])
             = Fault DivisionByZero s').
Proof.
  split.
  - split; [vm_compute; reflexivity |].
    eexists. split; vm_compute; reflexivity.
  - split; [vm_compute; discriminate |].
    eexists. vm_compute. reflexivity.
Qed.

(** The size of the BID header is not looked at: with 12 in place of 40
    the file is loaded all the same. *)
Lemma Load_accepts_other_header_size :
  nBIDHeaderSize (file_header core24_2x2) = 12
  ∧ ∃ s', Load "core24.bmp" (start [("core24.bmp", RegularFile core24_2x2)])
          = Ret true s'
          ∧ filter is_seek (w_trace (world s')) = [EvSeek 3 54 54; EvSeek 3 62 62].
Proof.
  split; [vm_compute; reflexivity |].
  eexists. split; vm_compute; reflexivity.
Qed.

(** What the two loaders return is discarded: with a data offset of 0 the
    first seek of [LoadRGBData] returns 0, the loader gives up with its
    diagnostic, and [Load] closes the file and returns true. *)
Lemma Load_discards_loader_results :
  ∃ s', Load "origin24.bmp" (start [("origin24.bmp", RegularFile origin24_2x2)])
        = Ret true s'
        ∧ map shape (w_trace (world s'))
          = [COpen "origin24.bmp"; CRead 3 54; CSeek 3 0;
             CDiag "LoadRGBData"; CClose 3].
Proof.
  eexists. split; vm_compute; reflexivity.
Qed.

(** C4: the descriptor is not closed on the early exits.  On a file whose
    signature is "XY", [Load] returns false with descriptor 3 still open
    on the file, and no [close] in the trace; on the well-formed file the
    last call is the [close]. *)
Theorem Load_leaks_descriptor :
  (∃ s', Load "xy24.bmp" (start [("xy24.bmp", RegularFile xy24_2x2)])
         = Ret false s'
         ∧ w_fds (world s') !! 3 = Some (mkOfd (RegularFile xy24_2x2) 54)
         ∧ filter is_close (w_trace (world s')) = [])
  ∧ (∃ s', Load "rgb24.bmp" (start [("rgb24.bmp", RegularFile rgb24_2x2)])
           = Ret true s'
           ∧ w_fds (world s') !! 3 = None
           ∧ last (w_trace (world s')) = Some (EvClose 3 0)).
Proof.
  split; eexists; (split; [vm_compute; reflexivity |]); split; vm_compute; reflexivity.
Qed.

(** ** The palette *)

Lemma length_file_bytes (content : list byte) (off len : Z) :
  0 ≤ off → 0 ≤ len → off + len ≤ Z.of_nat (length content) →
  length (file_bytes content off len) = Z.to_nat len.
Proof.
  intros Hoff Hlen Hfit. unfold file_bytes.
  rewrite length_take, length_drop. lia.
Qed.

Lemma store_RGB_full (data : list byte) (old : RGB) :
  length data = 4%nat → store_RGB data old = RGB_of_bytes data.
Proof.
  intros Hlen.
  destruct data as [| b0 [| b1 [| b2 [| b3 [| b4 rest]]]]]; try discriminate.
  reflexivity.
Qed.

Lemma RGB_of_bytes_full (data : list byte) :
  length data = 4%nat →
  ∃ r g b a, RGB_of_bytes data = mkRGB (Some r) (Some g) (Some b) (Some a).
Proof.
  intros Hlen.
  destruct data as [| b0 [| b1 [| b2 [| b3 [| b4 rest]]]]]; try discriminate.
  eexists _, _, _, _. reflexivity.
Qed.

(** The dump of an entry whose four bytes were stored. *)
Lemma dump_entry_stored (i : nat) (s : State) (pal : list RGB) (r g b a : byte) :
  m_pRGBPalleta (this s) = Some pal →
  pal !! i = Some (mkRGB (Some r) (Some g) (Some b) (Some a)) →
  dump_entry (Z.of_nat i) s = Ret tt s.
Proof.
  intros Hpal Hentry. unfold dump_entry, bind, gets.
  rewrite Hpal. cbn [mbind option_bind]. rewrite Nat2Z.id, Hentry. reflexivity.
Qed.

Section Palette.

Variables (fd : Z) (content : list byte) (off : Z).
Hypothesis off_pos : 0 ≤ off.

(** One turn of the loop, on a file that still has four bytes. *)
Lemma LoadColorPalleta_loop_step
  (todo i : nat) (h : BMPHeader) (data : option (list RGB)) (pal : list RGB)
  (fs : gmap string node) (fds : gmap Z ofd) (tr : list event) :
  fds !! fd = Some (mkOfd (RegularFile content) (off + 4 * Z.of_nat i)) →
  off + 4 * Z.of_nat i + 4 ≤ Z.of_nat (length content) →
  Z.of_nat i < INT_MAX →
  (i < length pal)%nat →
  LoadColorPalleta_loop (S todo) (Z.of_nat i)
    (mkState (mkBMP h fd data (Some pal)) (mkWorld fs fds tr))
  = LoadColorPalleta_loop todo (Z.of_nat (S i))
      (mkState
         (mkBMP h fd data (Some (alter (λ _, palette_entry content off i) i pal)))
         (mkWorld fs
            (<[fd := mkOfd (RegularFile content) (off + 4 * Z.of_nat (S i))]> fds)
            (tr ++ [palette_read fd content off i]))).
Proof.
  intros Hopen Hfit Hmax Hin.
  assert (Hlen : length (file_bytes content (off + 4 * Z.of_nat i) 4) = 4%nat).
  { rewrite length_file_bytes; lia. }
  destruct (RGB_of_bytes_full _ Hlen) as (r & g & bl & a & Hentry).
  cbn [LoadColorPalleta_loop].
  unfold VERIFYFALSE, bind at 1 2 3 4, fd_of_this, gets at 1, sys_read.
  cbn [this world w_fds m_nFD]. rewrite Hopen.
  fold (file_bytes content (off + 4 * Z.of_nat i) sizeof_RGB).
  change sizeof_RGB with 4. unfold modify, ret at 1, read_ret, delivered.
  cbn [default]. rewrite Hlen. cbn [Z.of_nat Z.ltb Z.compare Pos.of_succ_nat].
  unfold on_this, on_world, log, with_fds, set_palleta.
  cbn [this world m_bmpHeader m_nFD m_pRGBData m_pRGBPalleta w_fs w_fds w_trace
       fmap option_fmap option_map].
  rewrite Nat2Z.id.
  replace (alter (store_RGB (file_bytes content (off + 4 * Z.of_nat i) 4)) i pal)
    with (alter (λ _, palette_entry content off i) i pal)
    by (apply list_alter_ext; [| reflexivity];
        intros old _; symmetry; apply store_RGB_full, Hlen).
  change (0 <? Z.of_nat 4) with true. cbv beta iota. unfold bind at 1.
  rewrite (dump_entry_stored i _ (alter (λ _, palette_entry content off i) i pal)
             r g bl a);
    [| reflexivity
     | rewrite list_lookup_alter_eq;
       destruct (lookup_lt_is_Some_2 pal i Hin) as [old ->];
       cbn [fmap option_fmap option_map]; f_equal; exact Hentry].
  replace (Z.of_nat i =? INT_MAX) with false by (symmetry; apply Z.eqb_neq; lia).
  replace (Z.of_nat i + 1) with (Z.of_nat (S i)) by lia.
  unfold palette_read.
  replace (off + 4 * Z.of_nat i + Z.of_nat 4) with (off + 4 * Z.of_nat (S i)) by lia.
  reflexivity.
Qed.

(** The whole loop, from entry [i], on a file that holds the entries. *)
Lemma LoadColorPalleta_loop_spec (todo : nat) :
  ∀ (i : nat) (h : BMPHeader) (data : option (list RGB)) (pal : list RGB)
    (fs : gmap string node) (fds : gmap Z ofd) (tr : list event),
    fds !! fd = Some (mkOfd (RegularFile content) (off + 4 * Z.of_nat i)) →
    off + 4 * Z.of_nat (i + todo) ≤ Z.of_nat (length content) →
    Z.of_nat (i + todo) ≤ INT_MAX →
    (i + todo ≤ length pal)%nat →
    ∃ pal',
      LoadColorPalleta_loop todo (Z.of_nat i)
        (mkState (mkBMP h fd data (Some pal)) (mkWorld fs fds tr))
      = Ret true
          (mkState (mkBMP h fd data (Some pal'))
             (mkWorld fs
                (<[fd := mkOfd (RegularFile content)
                           (off + 4 * Z.of_nat (i + todo))]> fds)
                (tr ++ map (palette_read fd content off) (seq i todo))))
      ∧ length pal' = length pal
      ∧ (∀ j, (j < i)%nat → pal' !! j = pal !! j)
      ∧ (∀ j, (i ≤ j < i + todo)%nat → (j < length pal)%nat →
              pal' !! j = Some (palette_entry content off j)).
Proof.
  induction todo as [| todo IH]; intros i h data pal fs fds tr Hopen Hfit Hmax Hpal.
  - exists pal. cbn [LoadColorPalleta_loop seq map]. unfold ret.
    rewrite app_nil_r, Nat.add_0_r, insert_id by exact Hopen.
    split; [reflexivity |]. split; [reflexivity |].
    split; [reflexivity | intros j Hj; lia].
  - rewrite LoadColorPalleta_loop_step; [| exact Hopen | lia | lia | lia].
    destruct (IH (S i) h data (alter (λ _, palette_entry content off i) i pal) fs
                (<[fd := mkOfd (RegularFile content) (off + 4 * Z.of_nat (S i))]> fds)
                (tr ++ [palette_read fd content off i]))
      as (pal' & Hrun & Hlen & Hlow & Hhigh).
    { apply lookup_insert_eq. }
    { replace (S i + todo)%nat with (i + S todo)%nat by lia. exact Hfit. }
    { replace (S i + todo)%nat with (i + S todo)%nat by lia. exact Hmax. }
    { rewrite length_alter. lia. }
    exists pal'. split.
    { rewrite Hrun, insert_insert_eq, <- app_assoc.
      replace (S i + todo)%nat with (i + S todo)%nat by lia. reflexivity. }
    rewrite length_alter in Hlen. split; [exact Hlen |]. split.
    + intros j Hj. rewrite Hlow by lia. apply list_lookup_alter_ne. lia.
    + intros j Hj Hjl. destruct (decide (j = i)) as [-> | Hne].
      * rewrite Hlow by lia. rewrite list_lookup_alter_eq.
        destruct (lookup_lt_is_Some_2 pal i Hjl) as [old ->]. reflexivity.
      * apply Hhigh; [lia | rewrite length_alter; exact Hjl].
Qed.

End Palette.

Lemma to_int32_small (z : Z) : 0 ≤ z < 2 ^ 31 → to_int32 z = z.
Proof.
  intros Hz. unfold to_int32, UINT32_MOD. rewrite Z.mod_small by lia.
  replace (z <? 2 ^ 31) with true by (symmetry; apply Z.ltb_lt; lia).
  reflexivity.
Qed.

(** [LoadColorPalleta] on a header with a colour count [n] > 0, the
    descriptor open on a regular file that holds the [n] entries. *)
Lemma LoadColorPalleta_reads (s : State) (content : list byte) (pos : Z) :
  let h := m_bmpHeader (this s) in
  let fd := m_nFD (this s) in
  let off := BMP_HEADERSIZE + nBIDHeaderSize h in
  signature h = BMP_SIGNATURE →
  0 < nColorsInPalleta h ≤ INT_MAX →
  0 < off < 2 ^ 31 →
  w_fds (world s) !! fd = Some (mkOfd (RegularFile content) pos) →
  off + 4 * nColorsInPalleta h ≤ Z.of_nat (length content) →
  ∃ s' pal,
    LoadColorPalleta s = Ret true s'
    ∧ m_pRGBPalleta (this s') = Some pal
    ∧ Z.of_nat (length pal) = nColorsInPalleta h
    ∧ w_trace (world s')
      = w_trace (world s)
        ++ EvSeek fd off off
           :: map (palette_read fd content off)
                (seq 0 (Z.to_nat (nColorsInPalleta h)))
    ∧ (∀ i, (i < Z.to_nat (nColorsInPalleta h))%nat →
            pal !! i = Some (palette_entry content off i)).
Proof.
  destruct s as [[h fd data old] [fs fds tr]]. cbn [this world m_bmpHeader m_nFD w_fds w_trace].
  intros Hsig Hn Hoff Hopen Hfit.
  unfold LoadColorPalleta, VERIFYFALSE, bind at 1 2, header at 1, gets at 1, ret at 1.
  cbn [this m_bmpHeader]. rewrite Hsig, Z.eqb_refl.
  unfold bind at 1, header at 1, gets at 1. cbn [this m_bmpHeader].
  replace (0 <? nColorsInPalleta h) with true by (symmetry; apply Z.ltb_lt; lia).
  rewrite to_int32_small by lia.
  unfold VERIFYFALSE, bind at 1 2 3, fd_of_this at 1, gets at 1, sys_lseek.
  cbn [this world m_nFD w_fds]. rewrite Hopen.
  replace (BMP_HEADERSIZE + nBIDHeaderSize h <? 0) with false
    by (symmetry; apply Z.ltb_ge; lia).
  unfold ret at 1.
  replace (0 <? BMP_HEADERSIZE + nBIDHeaderSize h) with true
    by (symmetry; apply Z.ltb_lt; lia).
  unfold bind at 1, modify at 1, on_this, on_world, log, with_fds, set_palleta.
  cbn [this world m_bmpHeader m_nFD m_pRGBData m_pRGBPalleta w_fs w_fds w_trace].
  set (n := Z.to_nat (nColorsInPalleta h)).
  destruct (LoadColorPalleta_loop_spec fd content (BMP_HEADERSIZE + nBIDHeaderSize h)
              ltac:(lia) n 0%nat h data (replicate n RGB_indeterminate) fs
              (<[fd := mkOfd (RegularFile content)
                         (BMP_HEADERSIZE + nBIDHeaderSize h)]> fds)
              (tr ++ [EvSeek fd (BMP_HEADERSIZE + nBIDHeaderSize h)
                        (BMP_HEADERSIZE + nBIDHeaderSize h)]))
    as (pal & Hrun & Hlen & _ & Hentries).
  { rewrite lookup_insert_eq. do 2 f_equal. lia. }
  { subst n. lia. }
  { subst n. lia. }
  { rewrite length_replicate. lia. }
  change (Z.of_nat 0) with 0 in Hrun. rewrite Hrun.
  eexists _, pal. split; [reflexivity |].
  cbn [this world m_pRGBPalleta w_trace].
  rewrite length_replicate in Hlen.
  split; [reflexivity |]. split; [subst n; lia |]. split.
  - rewrite <- app_assoc. reflexivity.
  - intros i Hi. apply Hentries; [lia | rewrite length_replicate; lia].
Qed.

Lemma RGB_of_file_bytes (content : list byte) (k : Z) :
  0 ≤ k →
  let e := RGB_of_bytes (file_bytes content k 4) in
  nRed e = content !! Z.to_nat k
  ∧ nGreen e = content !! Z.to_nat (k + 1)
  ∧ nBlue e = content !! Z.to_nat (k + 2)
  ∧ nAlpha e = content !! Z.to_nat (k + 3).
Proof.
  intros Hk.
  assert (Hat : ∀ j : nat, (j < 4)%nat →
            file_bytes content k 4 !! j = content !! Z.to_nat (k + Z.of_nat j)).
  { intros j Hj. unfold file_bytes.
    rewrite lookup_take_lt by (change (Z.to_nat 4) with 4%nat; exact Hj).
    rewrite lookup_drop. f_equal. lia. }
  pose proof (Hat 0%nat ltac:(lia)) as H0.
  pose proof (Hat 1%nat ltac:(lia)) as H1.
  pose proof (Hat 2%nat ltac:(lia)) as H2.
  pose proof (Hat 3%nat ltac:(lia)) as H3.
  change (Z.of_nat 0) with 0 in H0. rewrite Z.add_0_r in H0.
  change (Z.of_nat 1) with 1 in H1.
  change (Z.of_nat 2) with 2 in H2.
  change (Z.of_nat 3) with 3 in H3.
  unfold RGB_of_bytes, store_RGB. cbn [nRed nGreen nBlue nAlpha RGB_indeterminate].
  rewrite H0, H1, H2, H3.
  repeat split; match goal with |- match ?x with _ => _ end = _ =>
                  destruct x; reflexivity end.
Qed.

(** C6, as amended.  Whether a palette is loaded depends on the colour
    count alone, whatever the bit depth.  With nColorsInPalleta = 0 no
    palette is loaded (nothing is sought or read, the object is unchanged);
    with nColorsInPalleta = n > 0, on a file that holds them, n entries are
    loaded, read from file offset 14 + nBIDHeaderSize on. *)
Theorem LoadColorPalleta_by_colour_count
  (s : State) (content : list byte) (pos : Z) :
  let h := m_bmpHeader (this s) in
  let fd := m_nFD (this s) in
  let off := BMP_HEADERSIZE + nBIDHeaderSize h in
  signature h = BMP_SIGNATURE →
  (nColorsInPalleta h = 0 → LoadColorPalleta s = Ret true s)
  ∧ (0 < nColorsInPalleta h ≤ INT_MAX →
     0 < off < 2 ^ 31 →
     w_fds (world s) !! fd = Some (mkOfd (RegularFile content) pos) →
     off + 4 * nColorsInPalleta h ≤ Z.of_nat (length content) →
     ∃ s' pal,
       LoadColorPalleta s = Ret true s'
       ∧ m_pRGBPalleta (this s') = Some pal
       ∧ Z.of_nat (length pal) = nColorsInPalleta h
       ∧ w_trace (world s')
         = w_trace (world s)
           ++ EvSeek fd off off
              :: map (λ i, EvRead fd 4
                             (Some (file_bytes content (off + 4 * Z.of_nat i) 4)))
                   (seq 0 (Z.to_nat (nColorsInPalleta h)))).
Proof.
  intros h fd off Hsig. split.
  - intros Hzero. subst h.
    unfold LoadColorPalleta, VERIFYFALSE, bind, header, gets, ret.
    rewrite Hsig. change (BMP_SIGNATURE =? BMP_SIGNATURE) with true.
    cbv beta iota. rewrite Hzero. reflexivity.
  - intros Hn Hoff Hopen Hfit.
    destruct (LoadColorPalleta_reads s content pos Hsig Hn Hoff Hopen Hfit)
      as (s' & pal & Hrun & Hpal & Hlen & Htrace & _).
    exists s', pal. repeat split; assumption.
Qed.

Lemma LoadColorPalleta_by_colour_count_witness :
  (LoadColorPalleta (Load_header_read "mono.bmp" mono_1x1
                       (start [("mono.bmp", RegularFile mono_1x1)]))
   = Ret true (Load_header_read "mono.bmp" mono_1x1
                 (start [("mono.bmp", RegularFile mono_1x1)])))
  ∧ ∃ s' pal,
      LoadColorPalleta (Load_header_read "pal8.bmp" pal8_1x2
                          (start [("pal8.bmp", RegularFile pal8_1x2)]))
      = Ret true s'
      ∧ m_pRGBPalleta (this s') = Some pal
      ∧ Z.of_nat (length pal) = 2
      ∧ w_trace (world s')
        = [EvOpen "pal8.bmp" 3; EvRead 3 54 (Some (take 54 pal8_1x2));
           EvSeek 3 54 54;
           EvRead 3 4 (Some (bytes [16; 32; 48; 0]));
           EvRead 3 4 (Some (bytes [255; 255; 255; 0]))].
Proof.
  split.
  - refine (proj1 (LoadColorPalleta_by_colour_count
                     (Load_header_read "mono.bmp" mono_1x1
                        (start [("mono.bmp", RegularFile mono_1x1)]))
                     mono_1x1 54 _) _); vm_compute; reflexivity.
  - refine (proj2 (LoadColorPalleta_by_colour_count
                     (Load_header_read "pal8.bmp" pal8_1x2
                        (start [("pal8.bmp", RegularFile pal8_1x2)]))
                     pal8_1x2 54 _) _ _ _ _).
    + vm_compute; reflexivity.
    + vm_compute. split; [reflexivity | discriminate].
    + vm_compute. split; reflexivity.
    + vm_compute. reflexivity.
    + vm_compute. discriminate.
Defined.

(** C6 as stated fails: the monochrome file has a bit depth of 1 and a
    colour count of zero, and [Load] returns true without loading the two
    entries of its palette; and for the file of 24 bits with a colour count
    of two a palette of two entries is loaded. *)
Lemma Load_skips_palette_of_monochrome :
  (nBitPerPixel (file_header mono_1x1) = 1
   ∧ nColorsInPalleta (file_header mono_1x1) = 0
   ∧ ∃ s', Load "mono.bmp" (start [("mono.bmp", RegularFile mono_1x1)]) = Ret true s'
           ∧ m_pRGBPalleta (this s') = None
           ∧ map shape (w_trace (world s'))
             = [COpen "mono.bmp"; CRead 3 54; CSeek 3 62; CRead 3 1; CClose 3])
  ∧ (nBitPerPixel (file_header rgb24_with_table) = 24
     ∧ nColorsInPalleta (file_header rgb24_with_table) = 2
     ∧ ∃ s' pal,
         Load "table.bmp" (start [("table.bmp", RegularFile rgb24_with_table)])
         = Ret true s'
         ∧ m_pRGBPalleta (this s') = Some pal
         ∧ length pal = 2%nat).
Proof.
  split.
  - split; [vm_compute; reflexivity |]. split; [vm_compute; reflexivity |].
    eexists. split; [vm_compute; reflexivity |]. split; vm_compute; reflexivity.
  - split; [vm_compute; reflexivity |]. split; [vm_compute; reflexivity |].
    eexists _, _. split; [vm_compute; reflexivity |]. split; reflexivity.
Qed.

(** C7, as amended.  Every palette entry read from the file is stored as it
    is read, its four bytes in file order in nRed, nGreen, nBlue and
    nAlpha: the stored red is the entry's first byte in the file and the
    stored blue its third.  Nothing is reordered. *)
Theorem LoadColorPalleta_keeps_file_order
  (s : State) (content : list byte) (pos : Z) :
  let h := m_bmpHeader (this s) in
  let fd := m_nFD (this s) in
  let off := BMP_HEADERSIZE + nBIDHeaderSize h in
  signature h = BMP_SIGNATURE →
  0 < nColorsInPalleta h ≤ INT_MAX →
  0 < off < 2 ^ 31 →
  w_fds (world s) !! fd = Some (mkOfd (RegularFile content) pos) →
  off + 4 * nColorsInPalleta h ≤ Z.of_nat (length content) →
  ∃ s' pal,
    LoadColorPalleta s = Ret true s'
    ∧ m_pRGBPalleta (this s') = Some pal
    ∧ ∀ i, 0 ≤ i < nColorsInPalleta h →
        ∃ e, pal !! Z.to_nat i = Some e
             ∧ nRed e = content !! Z.to_nat (off + 4 * i)
             ∧ nGreen e = content !! Z.to_nat (off + 4 * i + 1)
             ∧ nBlue e = content !! Z.to_nat (off + 4 * i + 2)
             ∧ nAlpha e = content !! Z.to_nat (off + 4 * i + 3).
Proof.
  intros h fd off Hsig Hn Hoff Hopen Hfit.
  destruct (LoadColorPalleta_reads s content pos Hsig Hn Hoff Hopen Hfit)
    as (s' & pal & Hrun & Hpal & _ & _ & Hentries).
  subst h fd off.
  exists s', pal. split; [exact Hrun |]. split; [exact Hpal |].
  intros i Hi. eexists. split; [apply Hentries; lia |].
  unfold palette_entry. rewrite Z2Nat.id by lia.
  apply RGB_of_file_bytes. lia.
Qed.

Lemma LoadColorPalleta_keeps_file_order_witness :
  ∃ s' pal,
    LoadColorPalleta (Load_header_read "pal8.bmp" pal8_1x2
                        (start [("pal8.bmp", RegularFile pal8_1x2)]))
    = Ret true s'
    ∧ m_pRGBPalleta (this s') = Some pal
    ∧ ∀ i, 0 ≤ i < 2 →
        ∃ e, pal !! Z.to_nat i = Some e
             ∧ nRed e = pal8_1x2 !! Z.to_nat (54 + 4 * i)
             ∧ nGreen e = pal8_1x2 !! Z.to_nat (54 + 4 * i + 1)
             ∧ nBlue e = pal8_1x2 !! Z.to_nat (54 + 4 * i + 2)
             ∧ nAlpha e = pal8_1x2 !! Z.to_nat (54 + 4 * i + 3).
Proof.
  refine (LoadColorPalleta_keeps_file_order
            (Load_header_read "pal8.bmp" pal8_1x2
               (start [("pal8.bmp", RegularFile pal8_1x2)]))
            pal8_1x2 54 _ _ _ _ _).
  - vm_compute; reflexivity.
  - vm_compute. split; [reflexivity | discriminate].
  - vm_compute. split; reflexivity.
  - vm_compute. reflexivity.
  - vm_compute. discriminate.
Defined.

(** C7 as stated fails: the first palette entry of the file is the bytes
    16, 32, 48, 0; the stored red is 16, the first byte, not the third, and
    the stored blue is 48, the third byte, not the first. *)
Lemma LoadColorPalleta_does_not_reorder :
  file_bytes pal8_1x2 54 4 = bytes [16; 32; 48; 0]
  ∧ ∃ s' pal e,
      Load "pal8.bmp" (start [("pal8.bmp", RegularFile pal8_1x2)]) = Ret true s'
      ∧ m_pRGBPalleta (this s') = Some pal
      ∧ pal !! 0%nat = Some e
      ∧ nRed e = Some (byte_of_Z 16) ∧ nRed e ≠ Some (byte_of_Z 48)
      ∧ nBlue e = Some (byte_of_Z 48) ∧ nBlue e ≠ Some (byte_of_Z 16).
Proof.
  split; [vm_compute; reflexivity |].
  eexists _, _, _. split; [vm_compute; reflexivity |].
  split; [reflexivity |]. split; [reflexivity |].
  repeat split; vm_compute; (reflexivity || discriminate).
Qed.

(** ** The rows *)

Lemma no_seek_among_reads (tr : list event) (n : nat) (fd count : Z) :
  map shape tr = replicate n (CRead fd count) → filter is_seek tr = [].
Proof.
  revert n. induction tr as [| e tr IH]; intros n Hshape; [reflexivity |].
  destruct n as [| n]; [discriminate |].
  cbn [map replicate] in Hshape. injection Hshape as He Htr.
  destruct e; try discriminate.
  rewrite filter_cons_False by (intros []). exact (IH n Htr).
Qed.

Section Rows.

Variables (fd : Z) (content : list byte) (g : Geometry).
Hypothesis pixel_fits : nBytesPerPixel g ≤ 4.

(** The reads of one row, on a regular file: none fails. *)
Lemma LoadRGBData_row_spec (todo : nat) (k : M bool) :
  ∀ (b : BMP) (fs : gmap string node) (fds : gmap Z ofd) (tr : list event)
    (pos : Z),
    m_nFD b = fd →
    fds !! fd = Some (mkOfd (RegularFile content) pos) →
    ∃ pos' tr',
      LoadRGBData_row todo g k (mkState b (mkWorld fs fds tr))
      = k (mkState b
             (mkWorld fs (<[fd := mkOfd (RegularFile content) pos']> fds)
                (tr ++ tr')))
      ∧ map shape tr' = replicate todo (CRead fd (nBytesPerPixel g)).
Proof.
  induction todo as [| todo IH]; intros b fs fds tr pos Hfd Hopen.
  - exists pos, []. cbn [LoadRGBData_row].
    rewrite app_nil_r, insert_id by exact Hopen. split; reflexivity.
  - cbn [LoadRGBData_row].
    unfold VERIFYFALSE, bind at 1 2 3, fd_of_this at 1, gets at 1, sys_read.
    cbn [this world w_fds]. rewrite Hfd, Hopen.
    unfold ret at 1, read_ret.
    set (data := take (Z.to_nat (nBytesPerPixel g)) (drop (Z.to_nat pos) content)).
    replace (0 <=? Z.of_nat (length data)) with true
      by (symmetry; apply Z.leb_le; lia).
    replace (4 <? nBytesPerPixel g) with false
      by (symmetry; apply Z.ltb_ge; exact pixel_fits).
    unfold on_world, log, with_fds. cbn [this world w_fs w_fds w_trace].
    destruct (IH b fs
                (<[fd := mkOfd (RegularFile content)
                           (pos + Z.of_nat (length data))]> fds)
                (tr ++ [EvRead fd (nBytesPerPixel g) (Some data)])
                (pos + Z.of_nat (length data)) Hfd)
      as (pos' & tr' & Hrun & Hshape).
    { apply lookup_insert_eq. }
    exists pos', (EvRead fd (nBytesPerPixel g) (Some data) :: tr').
    split.
    + rewrite Hrun, insert_insert_eq, <- app_assoc. reflexivity.
    + cbn [map shape replicate]. rewrite Hshape. reflexivity.
Qed.

(** The rows from [r] on, when no seek lands on offset 0. *)
Lemma LoadRGBData_rows_spec (todo : nat) :
  ∀ (r : Z) (b : BMP) (fs : gmap string node) (fds : gmap Z ofd)
    (tr : list event) (pos : Z),
    m_nFD b = fd →
    fds !! fd = Some (mkOfd (RegularFile content) pos) →
    0 ≤ r → r + Z.of_nat todo < 2 ^ 32 →
    (∀ r', r ≤ r' < r + Z.of_nat todo → 0 < row_offset (m_bmpHeader b) g r') →
    ∃ pos' tr',
      LoadRGBData_rows todo g r (mkState b (mkWorld fs fds tr))
      = Ret true
          (mkState b
             (mkWorld fs (<[fd := mkOfd (RegularFile content) pos']> fds)
                (tr ++ tr')))
      ∧ filter is_seek tr'
        = map (row_seek fd (m_bmpHeader b) g) (seqZ r (Z.of_nat todo)).
Proof.
  induction todo as [| todo IH]; intros r b fs fds tr pos Hfd Hopen Hr Hmax Hseek.
  - exists pos, []. cbn [LoadRGBData_rows]. unfold ret.
    rewrite app_nil_r, insert_id by exact Hopen. split; reflexivity.
  - cbn [LoadRGBData_rows].
    unfold VERIFYFALSE, bind at 1 2 3 4, header at 1, fd_of_this at 1, gets at 1 2,
      sys_lseek.
    cbn [this world w_fds]. rewrite Hfd, Hopen.
    fold (row_offset (m_bmpHeader b) g r).
    pose proof (Hseek r ltac:(lia)) as Hpos.
    replace (row_offset (m_bmpHeader b) g r <? 0) with false
      by (symmetry; apply Z.ltb_ge; lia).
    unfold ret at 1.
    replace (0 <? row_offset (m_bmpHeader b) g r) with true
      by (symmetry; apply Z.ltb_lt; exact Hpos).
    unfold on_world, log, with_fds. cbn [this world w_fs w_fds w_trace].
    replace (to_uint32 (r + 1)) with (r + 1)
      by (unfold to_uint32, UINT32_MOD; rewrite Z.mod_small; lia).
    set (seek := EvSeek fd (row_offset (m_bmpHeader b) g r)
                   (row_offset (m_bmpHeader b) g r)).
    destruct (LoadRGBData_row_spec (Z.to_nat (nBytesPerRow g))
                (LoadRGBData_rows todo g (r + 1)) b fs
                (<[fd := mkOfd (RegularFile content)
                           (row_offset (m_bmpHeader b) g r)]> fds)
                (tr ++ [seek]) (row_offset (m_bmpHeader b) g r) Hfd)
      as (pos1 & tr1 & Hrow & Hshape1).
    { apply lookup_insert_eq. }
    rewrite Hrow, insert_insert_eq.
    destruct (IH (r + 1) b fs
                (<[fd := mkOfd (RegularFile content) pos1]> fds)
                ((tr ++ [seek]) ++ tr1) pos1 Hfd)
      as (pos2 & tr2 & Hrows & Hshape2).
    { apply lookup_insert_eq. }
    { lia. }
    { lia. }
    { intros r' Hr'. apply Hseek. lia. }
    exists pos2, (seek :: tr1 ++ tr2). split.
    + rewrite Hrows, insert_insert_eq, <- !app_assoc. reflexivity.
    + replace (Z.of_nat (S todo)) with (Z.succ (Z.of_nat todo)) by lia.
      rewrite seqZ_cons by lia.
      replace (Z.pred (Z.succ (Z.of_nat todo))) with (Z.of_nat todo) by lia.
      replace (Z.succ r) with (r + 1) by lia.
      cbn [map]. rewrite <- Hshape2. unfold row_seek at 1. fold seek.
      rewrite filter_cons_True by exact I.
      rewrite filter_app, (no_seek_among_reads _ _ _ _ Hshape1). reflexivity.
Qed.

End Rows.

Lemma ABS_range (x rows : Z) :
  INT_MIN ≤ x ≤ INT_MAX → ABS x = inr rows → 0 ≤ rows < 2 ^ 32.
Proof.
  unfold ABS, INT_MIN, INT_MAX. intros Hx.
  destruct (x <? 0) eqn:Hneg.
  - apply Z.ltb_lt in Hneg. destruct (x =? - 2 ^ 31); [discriminate |].
    intros [= <-]. lia.
  - apply Z.ltb_ge in Hneg. intros [= <-]. lia.
Qed.

(** C2, as amended.  For a header with a valid signature and a height of
    magnitude [rows], on a regular file, when no row's seek target is 0:
    [LoadRGBData] returns true, and the seeks it has made are one for every
    file row r from 0 to rows - 1, in this order, each to
    (nDataOffSet + r * nRowDataSize) mod 2^32.  No pixel array is written:
    the object is left exactly as it was. *)
Theorem LoadRGBData_row_order
  (s : State) (content : list byte) (pos : Z) (g : Geometry) (rows : Z) :
  let h := m_bmpHeader (this s) in
  let fd := m_nFD (this s) in
  signature h = BMP_SIGNATURE →
  INT_MIN ≤ nHeight h ≤ INT_MAX →
  scanline_geometry (nWidth h) (nBitPerPixel h) = inr g →
  ABS (nHeight h) = inr rows →
  nBytesPerPixel g ≤ 4 →
  w_fds (world s) !! fd = Some (mkOfd (RegularFile content) pos) →
  (∀ r, 0 ≤ r < rows → 0 < row_offset h g r) →
  ∃ s' tr',
    LoadRGBData s = Ret true s'
    ∧ this s' = this s
    ∧ w_trace (world s') = w_trace (world s) ++ tr'
    ∧ filter is_seek tr' = map (row_seek fd h g) (seqZ 0 rows).
Proof.
  destruct s as [b [fs fds tr]].
  intros h fd Hsig Hrange Hgeo Habs Hpix Hopen Hseek. subst h fd.
  cbn [this world w_fds w_trace] in *.
  pose proof (ABS_range _ _ Hrange Habs) as Hrows.
  unfold LoadRGBData, VERIFYFALSE, bind at 1 2, header at 1, gets at 1, ret at 1.
  cbn [this]. rewrite Hsig. change (BMP_SIGNATURE =? BMP_SIGNATURE) with true.
  cbv beta iota.
  unfold bind at 1 2 3, header at 1, gets at 1. cbn [this].
  rewrite Hgeo, Habs. unfold defined, ret at 1 2.
  destruct (LoadRGBData_rows_spec (m_nFD b) content g Hpix (Z.to_nat rows)
              0 b fs fds tr pos eq_refl Hopen ltac:(lia) ltac:(lia))
    as (pos' & tr' & Hrun & Hseeks).
  { intros r Hr. apply Hseek. lia. }
  rewrite Hrun. eexists _, tr'. split; [reflexivity |].
  cbn [this world w_trace]. split; [reflexivity |]. split; [reflexivity |].
  rewrite Hseeks, Z2Nat.id by lia. reflexivity.
Qed.

Lemma LoadRGBData_row_order_witness :
  ∃ s' tr',
    LoadRGBData (Load_header_read "rgb24.bmp" rgb24_2x2
                   (start [("rgb24.bmp", RegularFile rgb24_2x2)]))
    = Ret true s'
    ∧ this s' = this (Load_header_read "rgb24.bmp" rgb24_2x2
                        (start [("rgb24.bmp", RegularFile rgb24_2x2)]))
    ∧ w_trace (world s')
      = [EvOpen "rgb24.bmp" 3; EvRead 3 54 (Some (take 54 rgb24_2x2))] ++ tr'
    ∧ filter is_seek tr' = [EvSeek 3 54 54; EvSeek 3 62 62].
Proof.
  refine (LoadRGBData_row_order
            (Load_header_read "rgb24.bmp" rgb24_2x2
               (start [("rgb24.bmp", RegularFile rgb24_2x2)]))
            rgb24_2x2 54 (mkGeometry (24 # 8) 3 6 2 8) 2 _ _ _ _ _ _ _).
  - vm_compute; reflexivity.
  - vm_compute. split; discriminate.
  - vm_compute; reflexivity.
  - vm_compute; reflexivity.
  - vm_compute. discriminate.
  - vm_compute; reflexivity.
  - intros r Hr. assert (Hcases : r = 0 ∨ r = 1) by lia.
    destruct Hcases as [-> | ->]; vm_compute; reflexivity.
Defined.

(** C2 as stated fails: the 2-row file is decoded with success, its file
    rows 0 and 1 sought at 54 and 62, but no output row is written; there
    is no row [height - 1], nor any other. *)
Lemma Load_writes_no_output_row :
  nHeight (file_header rgb24_2x2) = 2
  ∧ ∃ s', Load "rgb24.bmp" (start [("rgb24.bmp", RegularFile rgb24_2x2)])
          = Ret true s'
          ∧ filter is_seek (w_trace (world s')) = [EvSeek 3 54 54; EvSeek 3 62 62]
          ∧ output_row (this s') 2 1 = None
          ∧ output_row (this s') 2 0 = None.
Proof.
  split; [vm_compute; reflexivity |].
  eexists. split; [vm_compute; reflexivity |].
  split; [vm_compute; reflexivity |]. split; reflexivity.
Qed.

(** C8: on the 2 x 2 file of 24 bits a row has 2 samples and
    nBytesPerRow = 6 payload bytes, yet for file row 0 the loader issues 6
    reads of 3 bytes, which take the 16 bytes up to the end of the file:
    the count of the loop is nBytesPerRow, not the width. *)
Theorem LoadRGBData_reads_a_group_per_byte :
  scanline_geometry 2 24 = inr (mkGeometry (24 # 8) 3 6 2 8)
  ∧ ∃ s' row0 row1,
      Load "rgb24.bmp" (start [("rgb24.bmp", RegularFile rgb24_2x2)]) = Ret true s'
      ∧ w_trace (world s')
        = [EvOpen "rgb24.bmp" 3; EvRead 3 54 (Some (take 54 rgb24_2x2));
           EvSeek 3 54 54] ++ row0 ++ [EvSeek 3 62 62] ++ row1 ++ [EvClose 3 0]
      ∧ map shape row0 = replicate 6 (CRead 3 3)
      ∧ bytes_consumed row0 = 16
      ∧ map shape row1 = replicate 6 (CRead 3 3).
Proof.
  split; [vm_compute; reflexivity |].
  eexists _,
    [EvRead 3 3 (Some (bytes [0; 0; 255])); EvRead 3 3 (Some (bytes [0; 255; 0]));
     EvRead 3 3 (Some (bytes [0; 0; 255])); EvRead 3 3 (Some (bytes [0; 0; 255]));
     EvRead 3 3 (Some (bytes [255; 255; 0])); EvRead 3 3 (Some (bytes [0]))],
    [EvRead 3 3 (Some (bytes [255; 0; 0])); EvRead 3 3 (Some (bytes [255; 255; 255]));
     EvRead 3 3 (Some (bytes [0; 0])); EvRead 3 3 (Some []);
     EvRead 3 3 (Some []); EvRead 3 3 (Some [])].
  split; [vm_compute; reflexivity |].
  repeat split; vm_compute; reflexivity.
Qed.

(** ** main *)

(** [main] discards what [Load] returns: with one argument the exit status
    is 0 whether the file was loaded or not. *)
Lemma main_exit_status (prog file : string) (w : World) (b : bool) (s' : State) :
  Load file (mkState BMP_new w) = Ret b s' →
  main [prog; file] w = Ret 0 s'.
Proof.
  intros Hrun. unfold main, bind. rewrite Hrun. reflexivity.
Qed.

Lemma main_usage (args : list string) (w : World) :
  length args ≠ 2%nat → main args w = Ret 1 (mkState BMP_new w).
Proof.
  intros Hlen. destruct args as [| a0 [| a1 [| a2 rest]]]; try reflexivity.
  contradiction Hlen. reflexivity.
Qed.

(** * Further properties of the loader *)

(** ** The header as read *)

Lemma Z_of_byte_range (b : byte) : 0 ≤ Z_of_byte b < 256.
Proof.
  unfold Z_of_byte. pose proof (Byte.to_N_bounded b). lia.
Qed.

Lemma Z_of_byte_inj (b : byte) (z : Z) :
  Z_of_byte b = z → Byte.of_N (Z.to_N z) = Some b.
Proof.
  intros <-. unfold Z_of_byte. rewrite N2Z.id. apply Byte.of_to_N.
Qed.

Lemma le_decode_zeroes (n : nat) : le_decode (replicate n Byte.x00) = 0.
Proof.
  induction n as [| n IH]; [reflexivity |].
  cbn [replicate le_decode]. rewrite IH. reflexivity.
Qed.

(** A field that lies wholly past the end of the file reads as zero: the
    short read leaves what [memset] put there. *)
Lemma field_past_end (content : list byte) (off len : nat) :
  (length content ≤ off)%nat → (off + len ≤ 54)%nat →
  field off len (overwrite (take 54 content) (zero_bytes 54)) = 0.
Proof.
  intros Hshort Hin. unfold field, overwrite, zero_bytes.
  rewrite length_take, drop_replicate.
  rewrite drop_app_ge by (rewrite length_take; lia).
  rewrite length_take, drop_replicate, take_replicate.
  apply le_decode_zeroes.
Qed.

(** X1.  The signature check of [Load] passes exactly for the files whose
    first two bytes are 'B' and 'M'. *)
Theorem signature_iff_starts_with_BM (content : list byte) :
  signature (file_header content) = BMP_SIGNATURE
  ↔ take 2 content = ["B"; "M"]%byte.
Proof.
  unfold file_header, header_of_bytes, signature, BMP_SIGNATURE.
  destruct content as [| b0 [| b1 rest]].
  - split; [vm_compute; discriminate | discriminate].
  - change (field 0 2 (overwrite (take 54 [b0]) (zero_bytes 54)))
      with (Z_of_byte b0 + 256 * (Z_of_byte Byte.x00 + 256 * 0)).
    pose proof (Z_of_byte_range b0).
    change (Z_of_byte Byte.x00) with 0.
    split; [lia | discriminate].
  - change (field 0 2 (overwrite (take 54 (b0 :: b1 :: rest)) (zero_bytes 54)))
      with (Z_of_byte b0 + 256 * (Z_of_byte b1 + 256 * 0)).
    pose proof (Z_of_byte_range b0). pose proof (Z_of_byte_range b1).
    cbn [take]. split.
    + intros Hsig.
      assert (Hb0 : Z_of_byte b0 = 66) by lia.
      assert (Hb1 : Z_of_byte b1 = 77) by lia.
      apply Z_of_byte_inj in Hb0, Hb1. cbn in Hb0, Hb1.
      injection Hb0 as <-. injection Hb1 as <-. reflexivity.
    + intros [= -> ->]. reflexivity.
Qed.

(** ** The exits before the header checks *)

(** X2.  [Load] of a name that is not in the file system: one failed
    [open], the diagnostic, and false; no descriptor is opened, the header
    has been zeroed and m_nFD holds -1. *)
Theorem Load_missing_file (strFileName : string) (s : State) :
  String.length strFileName ≠ 0%nat →
  w_fs (world s) !! c_str strFileName = None →
  ∃ s',
    Load strFileName s = Ret false s'
    ∧ w_trace (world s')
      = w_trace (world s)
        ++ [EvOpen (c_str strFileName) (-1);
            EvDiag "Load" "Error, file could not be opened"]
    ∧ w_fds (world s') = w_fds (world s)
    ∧ m_nFD (this s') = -1
    ∧ m_bmpHeader (this s') = header_of_bytes (zero_bytes 54)
    ∧ m_pRGBPalleta (this s') = m_pRGBPalleta (this s).
Proof.
  intros Hname Hnone. rewrite Load_eq.
  apply Nat.eqb_neq in Hname. rewrite Hname. cbv zeta. rewrite Hnone.
  eexists. split; [reflexivity |].
  split; [cbn; rewrite <- app_assoc; reflexivity |].
  repeat split.
Qed.

Lemma Load_missing_file_witness :
  ∃ s',
    Load "absent.bmp" (start [("rgb24.bmp", RegularFile rgb24_2x2)]) = Ret false s'
    ∧ w_trace (world s')
      = [EvOpen "absent.bmp" (-1);
         EvDiag "Load" "Error, file could not be opened"]
    ∧ w_fds (world s') = std_fds
    ∧ m_nFD (this s') = -1
    ∧ m_bmpHeader (this s') = header_of_bytes (zero_bytes 54)
    ∧ m_pRGBPalleta (this s') = None.
Proof.
  refine (Load_missing_file "absent.bmp"
            (start [("rgb24.bmp", RegularFile rgb24_2x2)]) _ _).
  - cbn. discriminate.
  - vm_compute. reflexivity.
Defined.

Lemma lowest_free_zero (fds : gmap Z ofd) : fds !! 0 = None → lowest_free fds = 0.
Proof.
  intros Hfree. unfold lowest_free.
  destruct (size fds); cbn [lowest_free_from]; rewrite Hfree; reflexivity.
Qed.

(** X3.  [open] returning descriptor 0 is taken for a failure: when
    descriptor 0 is free, [Load] of any file that exists returns false with
    the "could not be opened" diagnostic, reads nothing, and leaves the
    file open on descriptor 0. *)
Theorem Load_descriptor_zero (strFileName : string) (n : node) (s : State) :
  String.length strFileName ≠ 0%nat →
  w_fs (world s) !! c_str strFileName = Some n →
  w_fds (world s) !! 0 = None →
  ∃ s',
    Load strFileName s = Ret false s'
    ∧ w_trace (world s')
      = w_trace (world s)
        ++ [EvOpen (c_str strFileName) 0;
            EvDiag "Load" "Error, file could not be opened"]
    ∧ w_fds (world s') = <[0 := mkOfd n 0]> (w_fds (world s))
    ∧ m_nFD (this s') = 0.
Proof.
  intros Hname Hfile Hfree. rewrite Load_eq.
  apply Nat.eqb_neq in Hname. rewrite Hname. cbv zeta. rewrite Hfile.
  unfold Load_opened. rewrite (lowest_free_zero _ Hfree).
  change (0 <? 0) with false. cbv iota.
  eexists. split; [reflexivity |].
  split; [cbn; rewrite <- app_assoc; reflexivity |].
  split; reflexivity.
Qed.

Lemma Load_descriptor_zero_witness :
  ∃ s',
    Load "rgb24.bmp"
      (mkState BMP_new (mkWorld {["rgb24.bmp" := RegularFile rgb24_2x2]} ∅ []))
    = Ret false s'
    ∧ w_trace (world s')
      = [EvOpen "rgb24.bmp" 0; EvDiag "Load" "Error, file could not be opened"]
    ∧ w_fds (world s') = <[0 := mkOfd (RegularFile rgb24_2x2) 0]> ∅
    ∧ m_nFD (this s') = 0.
Proof.
  refine (Load_descriptor_zero "rgb24.bmp" (RegularFile rgb24_2x2)
            (mkState BMP_new (mkWorld {["rgb24.bmp" := RegularFile rgb24_2x2]} ∅ []))
            _ _ _).
  - cbn. discriminate.
  - vm_compute. reflexivity.
  - reflexivity.
Defined.

(** X4.  A file whose height field reads as zero, as does every file of at
    most 22 bytes, makes [Load] divide by zero in its header dump, right
    after the read of the header and before the signature is checked. *)
Theorem Load_zero_height_divides_by_zero
  (strFileName : string) (content : list byte) (s : State) :
  String.length strFileName ≠ 0%nat →
  w_fs (world s) !! c_str strFileName = Some (RegularFile content) →
  0 < lowest_free (w_fds (world s)) →
  (length content ≤ 22)%nat ∨ nHeight (file_header content) = 0 →
  Load strFileName s
  = Fault DivisionByZero (Load_header_read (c_str strFileName) content s).
Proof.
  intros Hname Hfile Hfd Hzero. rewrite Load_eq.
  apply Nat.eqb_neq in Hname. rewrite Hname. cbv zeta. rewrite Hfile.
  apply Z.ltb_lt in Hfd. rewrite Hfd.
  rewrite Load_header_read_header.
  assert (Hheight : nHeight (file_header content) = 0).
  { destruct Hzero as [Hshort | Hheight]; [| exact Hheight].
    unfold file_header, header_of_bytes, nHeight.
    rewrite field_past_end by lia. reflexivity. }
  rewrite Hheight. reflexivity.
Qed.

Lemma Load_zero_height_divides_by_zero_witness :
  Load "bm.bmp" (start [("bm.bmp", RegularFile ["B"; "M"]%byte)])
  = Fault DivisionByZero
      (Load_header_read "bm.bmp" ["B"; "M"]%byte
         (start [("bm.bmp", RegularFile ["B"; "M"]%byte)])).
Proof.
  refine (Load_zero_height_divides_by_zero "bm.bmp" ["B"; "M"]%byte
            (start [("bm.bmp", RegularFile ["B"; "M"]%byte)]) _ _ _ _).
  - cbn. discriminate.
  - vm_compute. reflexivity.
  - vm_compute. reflexivity.
  - left. cbn. lia.
Defined.

(** ** What a run keeps true *)

Section Invariant.

Variable P : State → Prop.
Hypothesis P_palleta : ∀ g s, P s → P (on_this (λ b, set_palleta (g b) b) s).
Hypothesis P_diag : ∀ fn m s, P s → P (on_world (log (EvDiag fn m)) s).
Hypothesis P_read : ∀ count s, P s → P (final (sys_read (m_nFD (this s)) count s)).
Hypothesis P_lseek : ∀ offset s, P s → P (final (sys_lseek (m_nFD (this s)) offset s)).

Lemma holds_ret {A : Type} (a : A) : holds_through P (ret a).
Proof. intros s Hs. exact Hs. Qed.

Lemma holds_raise {A : Type} (e : fault) : holds_through P (@raise A e).
Proof. intros s Hs. exact Hs. Qed.

Lemma holds_gets {A : Type} (g : State → A) : holds_through P (gets g).
Proof. intros s Hs. exact Hs. Qed.

Lemma holds_defined {A : Type} (r : fault + A) : holds_through P (defined r).
Proof. destruct r; intros s Hs; exact Hs. Qed.

Lemma holds_bind {A B : Type} (m : M A) (k : A → M B) :
  holds_through P m → (∀ a, holds_through P (k a)) → holds_through P (bind m k).
Proof.
  intros Hm Hk s Hs. unfold bind. specialize (Hm s Hs).
  destruct (m s) as [a s1 | e s1]; cbn in *; [apply Hk, Hm | exact Hm].
Qed.

(** A [read] on the object's own descriptor. *)
Lemma holds_read_this {B : Type} (count : Z) (k : option (list byte) → M B) :
  (∀ res, holds_through P (k res)) →
  holds_through P (let* fd := fd_of_this in let* res := sys_read fd count in k res).
Proof.
  intros Hk s Hs. unfold bind at 1, fd_of_this, gets.
  unfold bind. pose proof (P_read count s Hs) as Hr.
  destruct (sys_read (m_nFD (this s)) count s) as [res s1 | e s1]; cbn in *;
    [apply Hk, Hr | exact Hr].
Qed.

(** An [lseek] on the object's own descriptor. *)
Lemma holds_lseek_this {B : Type} (offset : Z) (k : Z → M B) :
  (∀ r, holds_through P (k r)) →
  holds_through P (let* fd := fd_of_this in let* r := sys_lseek fd offset in k r).
Proof.
  intros Hk s Hs. unfold bind at 1, fd_of_this, gets.
  unfold bind. pose proof (P_lseek offset s Hs) as Hr.
  destruct (sys_lseek (m_nFD (this s)) offset s) as [r s1 | e s1]; cbn in *;
    [apply Hk, Hr | exact Hr].
Qed.

Lemma holds_VERIFYFALSE (fn m : string) (x k : M bool) :
  holds_through P x → holds_through P k → holds_through P (VERIFYFALSE fn x m k).
Proof.
  intros Hx Hk. unfold VERIFYFALSE. apply holds_bind; [exact Hx |].
  intros [|]; [exact Hk |].
  apply holds_bind; [| intros _; apply holds_ret].
  intros s Hs. apply P_diag, Hs.
Qed.

Lemma holds_dump_entry (nCount : Z) : holds_through P (dump_entry nCount).
Proof.
  intros s Hs. unfold dump_entry, bind, gets.
  destruct (_ ≫= _) as [[[r |] [g |] [b |] [a |]] |]; exact Hs.
Qed.

Lemma holds_LoadColorPalleta_loop (todo : nat) (nCount : Z) :
  holds_through P (LoadColorPalleta_loop todo nCount).
Proof.
  revert nCount. induction todo as [| todo IH]; intros nCount;
    cbn [LoadColorPalleta_loop].
  - apply holds_ret.
  - apply holds_VERIFYFALSE.
    + apply holds_read_this. intros res.
      apply holds_bind; [| intros _; apply holds_ret].
      intros s Hs. apply (P_palleta (λ b, _ <$> m_pRGBPalleta b)), Hs.
    + apply holds_bind; [apply holds_dump_entry | intros _].
      destruct (nCount =? INT_MAX); [apply holds_raise | apply IH].
Qed.

Lemma holds_LoadColorPalleta : holds_through P LoadColorPalleta.
Proof.
  unfold LoadColorPalleta. apply holds_VERIFYFALSE.
  - apply holds_bind; [apply holds_gets | intros h; apply holds_ret].
  - apply holds_bind; [apply holds_gets | intros h].
    destruct (0 <? nColorsInPalleta h); [| apply holds_ret].
    apply holds_VERIFYFALSE.
    + apply holds_lseek_this. intros r. apply holds_ret.
    + apply holds_bind; [| intros _; apply holds_LoadColorPalleta_loop].
      intros s Hs. apply (P_palleta (λ _, Some _)), Hs.
Qed.

Lemma holds_LoadRGBData_row (todo : nat) (g : Geometry) (k : M bool) :
  holds_through P k → holds_through P (LoadRGBData_row todo g k).
Proof.
  intros Hk. induction todo as [| todo IH]; cbn.
  - exact Hk.
  - apply holds_VERIFYFALSE.
    + apply holds_read_this. intros res. apply holds_ret.
    + destruct (4 <? nBytesPerPixel g); [apply holds_raise | exact IH].
Qed.

Lemma holds_LoadRGBData_rows (todo : nat) (g : Geometry) (nRowCount : Z) :
  holds_through P (LoadRGBData_rows todo g nRowCount).
Proof.
  revert nRowCount. induction todo as [| todo IH]; intros nRowCount; cbn.
  - apply holds_ret.
  - apply holds_VERIFYFALSE.
    + apply holds_bind; [apply holds_gets | intros h].
      apply holds_lseek_this. intros r. apply holds_ret.
    + apply holds_LoadRGBData_row, IH.
Qed.

Lemma holds_LoadRGBData : holds_through P LoadRGBData.
Proof.
  unfold LoadRGBData. apply holds_VERIFYFALSE.
  - apply holds_bind; [apply holds_gets | intros h; apply holds_ret].
  - apply holds_bind; [apply holds_gets | intros h].
    apply holds_bind; [apply holds_defined | intros g].
    apply holds_bind; [apply holds_defined | intros rows].
    apply holds_LoadRGBData_rows.
Qed.

End Invariant.

Lemma file_system_is_read (fs0 : gmap string node) (fd count : Z) (s : State) :
  file_system_is fs0 s → file_system_is fs0 (final (sys_read fd count s)).
Proof.
  unfold file_system_is, sys_read. intros Hs.
  destruct (w_fds (world s) !! fd) as [[[content |] pos] |]; exact Hs.
Qed.

Lemma file_system_is_lseek (fs0 : gmap string node) (fd offset : Z) (s : State) :
  file_system_is fs0 s → file_system_is fs0 (final (sys_lseek fd offset s)).
Proof.
  unfold file_system_is, sys_lseek. intros Hs.
  destruct (w_fds (world s) !! fd) as [[n pos] |]; [| exact Hs].
  destruct (offset <? 0); exact Hs.
Qed.

Lemma file_system_is_close (fs0 : gmap string node) (fd : Z) (s : State) :
  file_system_is fs0 s → file_system_is fs0 (final (sys_close fd s)).
Proof.
  unfold file_system_is, sys_close. intros Hs.
  destruct (w_fds (world s) !! fd); exact Hs.
Qed.

(** X5.  [Load] never writes: whichever way it ends, the file system is
    as it found it. *)
Theorem Load_keeps_file_system (strFileName : string) (s : State) :
  w_fs (world (final (Load strFileName s))) = w_fs (world s).
Proof.
  rewrite Load_eq.
  destruct (String.length strFileName =? 0)%nat; [reflexivity |].
  cbv zeta.
  destruct (w_fs (world s) !! c_str strFileName) as [n |]; [| reflexivity].
  destruct (0 <? lowest_free (w_fds (world s))); [| reflexivity].
  destruct n as [content |]; [| reflexivity].
  destruct (to_uint32 _ =? 0); [reflexivity |].
  destruct (signature _ =? BMP_SIGNATURE); [| reflexivity].
  destruct (nCompressionMethod _ =? BMP_BI_RGB); [| reflexivity].
  set (P := file_system_is (w_fs (world s))).
  assert (Hpal : ∀ g s0, P s0 → P (on_this (λ b, set_palleta (g b) b) s0))
    by (intros g s0 Hs0; exact Hs0).
  assert (Hdiag : ∀ fn m s0, P s0 → P (on_world (log (EvDiag fn m)) s0))
    by (intros fn m s0 Hs0; exact Hs0).
  assert (Hread : ∀ count s0, P s0 → P (final (sys_read (m_nFD (this s0)) count s0)))
    by (intros count s0; apply file_system_is_read).
  assert (Hseek : ∀ offset s0, P s0 → P (final (sys_lseek (m_nFD (this s0)) offset s0)))
    by (intros offset s0; apply file_system_is_lseek).
  assert (Htail : holds_through P
                    (LoadColorPalleta >> LoadRGBData >>
                     (let* fd := fd_of_this in sys_close fd) >> ret true)).
  { apply holds_bind;
      [apply (holds_LoadColorPalleta P Hpal Hdiag Hread Hseek) | intros _].
    apply holds_bind; [apply (holds_LoadRGBData P Hdiag Hread Hseek) | intros _].
    apply holds_bind; [| intros _; apply holds_ret].
    apply holds_bind; [apply holds_gets | intros fd].
    intros s0. apply file_system_is_close. }
  apply Htail. reflexivity.
Qed.

Section Descriptor.

Variables (fd : Z) (fds0 : gmap Z ofd) (tr0 : list event).

Lemma descriptor_held_palleta (g : BMP → option (list RGB)) (s : State) :
  descriptor_held fd fds0 tr0 s →
  descriptor_held fd fds0 tr0 (on_this (λ b, set_palleta (g b) b) s).
Proof. intros Hs. exact Hs. Qed.

Lemma descriptor_held_diag (fn m : string) (s : State) :
  descriptor_held fd fds0 tr0 s →
  descriptor_held fd fds0 tr0 (on_world (log (EvDiag fn m)) s).
Proof.
  intros (Hfd & Hopen & Hother & tr' & Htr & Hclose).
  split; [exact Hfd |]. split; [exact Hopen |]. split; [exact Hother |].
  exists (tr' ++ [EvDiag fn m]). split.
  - cbn. rewrite Htr, <- app_assoc. reflexivity.
  - rewrite filter_app, Hclose. reflexivity.
Qed.

Lemma descriptor_held_read (count : Z) (s : State) :
  descriptor_held fd fds0 tr0 s →
  descriptor_held fd fds0 tr0 (final (sys_read (m_nFD (this s)) count s)).
Proof.
  intros (Hfd & Hopen & Hother & tr' & Htr & Hclose).
  unfold sys_read. rewrite Hfd.
  destruct (w_fds (world s) !! fd) as [[[content |] pos] |] eqn:Hlook; cbn.
  - split; [exact Hfd |]. cbn. split; [rewrite lookup_insert_eq; eauto |].
    split; [intros k Hk; rewrite lookup_insert_ne by congruence; apply Hother, Hk |].
    eexists (tr' ++ [_]). split.
    + rewrite Htr, <- app_assoc. reflexivity.
    + rewrite filter_app, Hclose. reflexivity.
  - split; [exact Hfd |]. cbn. split; [rewrite Hlook; eauto |].
    split; [exact Hother |].
    eexists (tr' ++ [_]). split.
    + rewrite Htr, <- app_assoc. reflexivity.
    + rewrite filter_app, Hclose. reflexivity.
  - destruct Hopen as [o Ho]. discriminate.
Qed.

Lemma descriptor_held_lseek (offset : Z) (s : State) :
  descriptor_held fd fds0 tr0 s →
  descriptor_held fd fds0 tr0 (final (sys_lseek (m_nFD (this s)) offset s)).
Proof.
  intros (Hfd & Hopen & Hother & tr' & Htr & Hclose).
  unfold sys_lseek. rewrite Hfd.
  destruct (w_fds (world s) !! fd) as [[n pos] |] eqn:Hlook.
  - destruct (offset <? 0); cbn.
    + split; [exact Hfd |]. cbn. split; [rewrite Hlook; eauto |].
      split; [exact Hother |].
      eexists (tr' ++ [_]). split.
      * rewrite Htr, <- app_assoc. reflexivity.
      * rewrite filter_app, Hclose. reflexivity.
    + split; [exact Hfd |]. cbn. split; [rewrite lookup_insert_eq; eauto |].
      split; [intros k Hk; rewrite lookup_insert_ne by congruence; apply Hother, Hk |].
      eexists (tr' ++ [_]). split.
      * rewrite Htr, <- app_assoc. reflexivity.
      * rewrite filter_app, Hclose. reflexivity.
  - destruct Hopen as [o Ho]. discriminate.
Qed.

Lemma descriptor_held_LoadColorPalleta :
  holds_through (descriptor_held fd fds0 tr0) LoadColorPalleta.
Proof.
  apply holds_LoadColorPalleta;
    [ intros g s; apply descriptor_held_palleta
    | intros fn m s; apply descriptor_held_diag
    | intros count s; apply descriptor_held_read
    | intros offset s; apply descriptor_held_lseek ].
Qed.

Lemma descriptor_held_LoadRGBData :
  holds_through (descriptor_held fd fds0 tr0) LoadRGBData.
Proof.
  apply holds_LoadRGBData;
    [ intros fn m s; apply descriptor_held_diag
    | intros count s; apply descriptor_held_read
    | intros offset s; apply descriptor_held_lseek ].
Qed.

End Descriptor.

(** ** The descriptor after Load *)

(** X6.  When [Load] returns true the descriptor it opened has been closed,
    once, by the last call it made, and the descriptor table is as it was
    before. *)
Theorem Load_true_restores_descriptors (strFileName : string) (s s' : State) :
  Load strFileName s = Ret true s' →
  w_fds (world s') = w_fds (world s)
  ∧ ∃ tr',
      w_trace (world s')
      = w_trace (world s) ++ tr' ++ [EvClose (lowest_free (w_fds (world s))) 0]
      ∧ filter is_close tr' = [].
Proof.
  rewrite Load_eq.
  destruct (String.length strFileName =? 0)%nat; [discriminate |].
  cbv zeta.
  destruct (w_fs (world s) !! c_str strFileName) as [n |]; [| discriminate].
  destruct (0 <? lowest_free (w_fds (world s))); [| discriminate].
  destruct n as [content |]; [| discriminate].
  destruct (to_uint32 _ =? 0); [discriminate |].
  destruct (signature _ =? BMP_SIGNATURE); [| discriminate].
  destruct (nCompressionMethod _ =? BMP_BI_RGB); [| discriminate].
  set (fd := lowest_free (w_fds (world s))).
  set (s2 := Load_header_read (c_str strFileName) content s).
  destruct (lowest_free_spec (w_fds (world s))) as (_ & Hfree & _). fold fd in Hfree.
  assert (H2 : descriptor_held fd (w_fds (world s)) (w_trace (world s)) s2).
  { split; [reflexivity |]. split; [cbn; rewrite lookup_insert_eq; eauto |].
    split.
    - intros k Hk. subst fd. cbn. rewrite !lookup_insert_ne by congruence. reflexivity.
    - eexists [_; _]. split; [cbn; rewrite <- app_assoc; reflexivity | reflexivity]. }
  pose proof (descriptor_held_LoadColorPalleta fd _ _ s2 H2) as H3.
  unfold bind at 1.
  destruct (LoadColorPalleta s2) as [b3 s3 | e3 s3]; [| discriminate].
  cbn [final] in H3.
  pose proof (descriptor_held_LoadRGBData fd _ _ s3 H3) as H4.
  unfold bind at 1.
  destruct (LoadRGBData s3) as [b4 s4 | e4 s4]; [| discriminate].
  cbn [final] in H4.
  destruct H4 as (Hfd & [o Hopen] & Hother & tr' & Htr & Hclose).
  unfold bind, fd_of_this, gets, sys_close, ret. rewrite Hfd, Hopen.
  intros [= <-]. cbn [world on_world w_fds w_trace log with_fds].
  split.
  - apply map_eq. intros k. destruct (decide (k = fd)) as [-> | Hk].
    + rewrite lookup_delete_eq. symmetry. exact Hfree.
    + rewrite lookup_delete_ne by congruence. apply Hother, Hk.
  - exists tr'. split; [rewrite Htr, <- app_assoc; reflexivity | exact Hclose].
Qed.

Lemma Load_true_restores_descriptors_witness :
  ∃ s',
    Load "rgb24.bmp" (start [("rgb24.bmp", RegularFile rgb24_2x2)]) = Ret true s'
    ∧ w_fds (world s') = std_fds
    ∧ ∃ tr', w_trace (world s') = [] ++ tr' ++ [EvClose 3 0]
             ∧ filter is_close tr' = [].
Proof.
  assert (Hrun : ∃ s', Load "rgb24.bmp" (start [("rgb24.bmp", RegularFile rgb24_2x2)])
                       = Ret true s')
    by (eexists; vm_compute; reflexivity).
  destruct Hrun as [s' Hrun]. exists s'. split; [exact Hrun |].
  exact (Load_true_restores_descriptors _ _ _ Hrun).
Defined.

(** X7.  When [Load] returns false for a file that exists, the descriptor
    [open] returned is still open on that file and nothing was closed:
    every failure after the [open] leaks the descriptor. *)
Theorem Load_false_leaves_descriptor_open
  (strFileName : string) (n : node) (s s' : State) :
  String.length strFileName ≠ 0%nat →
  w_fs (world s) !! c_str strFileName = Some n →
  Load strFileName s = Ret false s' →
  (∃ pos, w_fds (world s') !! lowest_free (w_fds (world s)) = Some (mkOfd n pos))
  ∧ ∃ tr', w_trace (world s') = w_trace (world s) ++ tr'
           ∧ filter is_close tr' = [].
Proof.
  intros Hname Hfile. rewrite Load_eq.
  apply Nat.eqb_neq in Hname. rewrite Hname. cbv zeta. rewrite Hfile.
  destruct (0 <? lowest_free (w_fds (world s))).
  2:{ intros [= <-]. split.
      - exists 0. cbn. apply lookup_insert_eq.
      - eexists [_; _]. split; [cbn; rewrite <- !app_assoc; reflexivity | reflexivity]. }
  destruct n as [content |].
  2:{ intros [= <-]. split.
      - exists 0. cbn. apply lookup_insert_eq.
      - eexists [_; _; _].
        split; [cbn; rewrite <- !app_assoc; reflexivity | reflexivity]. }
  assert (Hexit : ∀ msg,
    (∃ pos, w_fds (world (diagnosed "Load" msg
                            (Load_header_read (c_str strFileName) content s)))
            !! lowest_free (w_fds (world s))
            = Some (mkOfd (RegularFile content) pos))
    ∧ ∃ tr', w_trace (world (diagnosed "Load" msg
                               (Load_header_read (c_str strFileName) content s)))
             = w_trace (world s) ++ tr'
             ∧ filter is_close tr' = []).
  { intros msg. split.
    - eexists. cbn. apply lookup_insert_eq.
    - eexists [_; _; _].
      split; [cbn; rewrite <- !app_assoc; reflexivity | reflexivity]. }
  destruct (to_uint32 _ =? 0); [discriminate |].
  destruct (signature _ =? BMP_SIGNATURE); [| intros [= <-]; apply Hexit].
  destruct (nCompressionMethod _ =? BMP_BI_RGB); [| intros [= <-]; apply Hexit].
  intros Hrun. exfalso. exact (never_false_Load_tail _ _ Hrun).
Qed.

Lemma Load_false_leaves_descriptor_open_witness :
  ∃ s',
    Load "dir" (start [("dir", Directory)]) = Ret false s'
    ∧ (∃ pos, w_fds (world s') !! 3 = Some (mkOfd Directory pos))
    ∧ ∃ tr', w_trace (world s') = [] ++ tr' ∧ filter is_close tr' = [].
Proof.
  assert (Hrun : ∃ s', Load "dir" (start [("dir", Directory)]) = Ret false s')
    by (eexists; vm_compute; reflexivity).
  destruct Hrun as [s' Hrun]. exists s'. split; [exact Hrun |].
  refine (Load_false_leaves_descriptor_open "dir" Directory _ _ _ _ Hrun).
  - cbn. discriminate.
  - vm_compute. reflexivity.
Defined.

(** X8.  The two loaders and the object: [LoadRGBData] never modifies the
    object at all, and [LoadColorPalleta] modifies nothing but the palette;
    header, descriptor and pixel pointer are as they were, whichever way
    the loader ends. *)
Theorem loaders_leave_object (s : State) :
  this (final (LoadRGBData s)) = this s
  ∧ m_bmpHeader (this (final (LoadColorPalleta s))) = m_bmpHeader (this s)
  ∧ m_nFD (this (final (LoadColorPalleta s))) = m_nFD (this s)
  ∧ m_pRGBData (this (final (LoadColorPalleta s))) = m_pRGBData (this s).
Proof.
  split; [exact (keeps_LoadRGBData (λ b, b) s) |].
  split; [exact (keeps_LoadColorPalleta m_bmpHeader ltac:(reflexivity) s) |].
  split; [exact (keeps_LoadColorPalleta m_nFD ltac:(reflexivity) s) |].
  exact (keeps_LoadColorPalleta m_pRGBData ltac:(reflexivity) s).
Qed.

(** ** Failures inside the loaders *)

(** X9.  When 14 + nBIDHeaderSize, taken as an [int], is not positive (a
    header size of 2^31 - 14 or more), [LoadColorPalleta] with a non-zero
    colour count gives up at its seek: it returns false after one [lseek]
    and one diagnostic, and allocates no palette. *)
Theorem LoadColorPalleta_offset_not_positive (s : State) :
  let h := m_bmpHeader (this s) in
  let off := to_int32 (BMP_HEADERSIZE + nBIDHeaderSize h) in
  signature h = BMP_SIGNATURE →
  0 < nColorsInPalleta h →
  off ≤ 0 →
  ∃ s' r,
    LoadColorPalleta s = Ret false s'
    ∧ this s' = this s
    ∧ w_trace (world s')
      = w_trace (world s)
        ++ [EvSeek (m_nFD (this s)) off r;
            EvDiag "LoadColorPalleta" "Error Accessing Color Palleta area"].
Proof.
  intros h off Hsig Hn Hoff. subst h off.
  unfold LoadColorPalleta, VERIFYFALSE, bind at 1 2, header at 1, gets at 1, ret at 1.
  rewrite Hsig. change (BMP_SIGNATURE =? BMP_SIGNATURE) with true. cbv beta iota.
  unfold bind at 1, header at 1, gets at 1.
  replace (0 <? nColorsInPalleta (m_bmpHeader (this s))) with true
    by (symmetry; apply Z.ltb_lt; exact Hn).
  set (off := to_int32 (BMP_HEADERSIZE + nBIDHeaderSize (m_bmpHeader (this s)))) in *.
  unfold VERIFYFALSE, bind at 1 2 3, fd_of_this at 1, gets at 1, sys_lseek.
  destruct (w_fds (world s) !! m_nFD (this s)) as [[n pos] |].
  - destruct (off <? 0) eqn:Hneg.
    + unfold ret at 1. change (0 <? -1) with false. cbv iota.
      eexists _, (-1). split; [reflexivity |]. split; [reflexivity |].
      cbn. rewrite <- app_assoc. reflexivity.
    + apply Z.ltb_ge in Hneg. unfold ret at 1.
      replace (0 <? off) with false by (symmetry; apply Z.ltb_ge; exact Hoff).
      eexists _, off. split; [reflexivity |]. split; [reflexivity |].
      cbn. rewrite <- app_assoc. reflexivity.
  - unfold ret at 1. change (0 <? -1) with false. cbv iota.
    eexists _, (-1). split; [reflexivity |]. split; [reflexivity |].
    cbn. rewrite <- app_assoc. reflexivity.
Qed.

Lemma LoadColorPalleta_offset_not_positive_witness :
  ∃ s' r,
    LoadColorPalleta
      (mkState (mkBMP (mkBMPHeader 19778 70 0 54 2147483648 2 2 1 8 0 16 0 0 2 0)
                  3 None None)
         (world_of []))
    = Ret false s'
    ∧ this s'
      = mkBMP (mkBMPHeader 19778 70 0 54 2147483648 2 2 1 8 0 16 0 0 2 0)
          3 None None
    ∧ w_trace (world s')
      = [] ++ [EvSeek 3 (-2147483634) r;
               EvDiag "LoadColorPalleta" "Error Accessing Color Palleta area"].
Proof.
  refine (LoadColorPalleta_offset_not_positive
            (mkState (mkBMP (mkBMPHeader 19778 70 0 54 2147483648 2 2 1 8 0 16 0 0 2 0)
                        3 None None)
               (world_of [])) _ _ _).
  - reflexivity.
  - reflexivity.
  - vm_compute. discriminate.
Defined.

Lemma store_RGB_nothing (old : RGB) : store_RGB [] old = old.
Proof. destruct old; reflexivity. Qed.

Section TruncatedTable.

Variables (fd : Z) (content : list byte) (off : Z).
Hypothesis off_pos : 0 ≤ off.

(** The loop on a file that ends after [avail] more entries, with more
    than [avail] entries to read. *)
Lemma LoadColorPalleta_loop_truncated (avail : nat) :
  ∀ (todo i : nat) (h : BMPHeader) (data : option (list RGB)) (pal : list RGB)
    (fs : gmap string node) (fds : gmap Z ofd) (tr : list event),
    fds !! fd = Some (mkOfd (RegularFile content) (off + 4 * Z.of_nat i)) →
    off + 4 * Z.of_nat (i + avail) = Z.of_nat (length content) →
    Z.of_nat (i + avail) < INT_MAX →
    (i + avail ≤ length pal)%nat →
    ∃ pal',
      LoadColorPalleta_loop (avail + S todo) (Z.of_nat i)
        (mkState (mkBMP h fd data (Some pal)) (mkWorld fs fds tr))
      = Ret false
          (mkState (mkBMP h fd data (Some pal'))
             (mkWorld fs
                (<[fd := mkOfd (RegularFile content)
                           (off + 4 * Z.of_nat (i + avail))]> fds)
                (tr ++ map (palette_read fd content off) (seq i avail)
                    ++ [EvRead fd 4 (Some []);
                        EvDiag "LoadColorPalleta" "Error reading index Palleta"])))
      ∧ length pal' = length pal
      ∧ (∀ j, (i ≤ j < i + avail)%nat → (j < length pal)%nat →
              pal' !! j = Some (palette_entry content off j))
      ∧ (∀ j, (j < i ∨ i + avail ≤ j)%nat → pal' !! j = pal !! j).
Proof.
  induction avail as [| avail IH]; intros todo i h data pal fs fds tr Hopen Hend Hmax Hpal.
  - exists pal. split; [| split; [reflexivity | split; [intros j Hj; lia | reflexivity]]].
    cbn [Nat.add LoadColorPalleta_loop].
    unfold VERIFYFALSE, bind, fd_of_this, gets, sys_read.
    cbn [this world w_fds m_nFD]. rewrite Hopen.
    replace (take (Z.to_nat sizeof_RGB)
               (drop (Z.to_nat (off + 4 * Z.of_nat i)) content)) with (@nil byte).
    2:{ rewrite drop_ge by lia. reflexivity. }
    unfold modify, ret, read_ret, delivered, on_this, on_world, log, with_fds, set_palleta.
    cbn. rewrite Nat.add_0_r, Z.add_0_r.
    rewrite (list_alter_id _ _ _ store_RGB_nothing).
    change (0 <? Z.of_nat 0) with false. cbn. rewrite <- app_assoc. reflexivity.
  - rewrite Nat.add_succ_l.
    rewrite (LoadColorPalleta_loop_step fd content off off_pos);
      [| exact Hopen | lia | lia | lia].
    destruct (IH todo (S i) h data (alter (λ _, palette_entry content off i) i pal) fs
                (<[fd := mkOfd (RegularFile content) (off + 4 * Z.of_nat (S i))]> fds)
                (tr ++ [palette_read fd content off i]))
      as (pal' & Hrun & Hlen & Hmid & Hout).
    { apply lookup_insert_eq. }
    { replace (S i + avail)%nat with (i + S avail)%nat by lia. exact Hend. }
    { replace (S i + avail)%nat with (i + S avail)%nat by lia. exact Hmax. }
    { rewrite length_alter. lia. }
    exists pal'. split.
    { rewrite Hrun, insert_insert_eq, <- !app_assoc.
      replace (S i + avail)%nat with (i + S avail)%nat by lia. reflexivity. }
    rewrite length_alter in Hlen. split; [exact Hlen |]. split.
    + intros j Hj Hjl. destruct (decide (j = i)) as [-> | Hne].
      * rewrite Hout by lia. rewrite list_lookup_alter_eq.
        destruct (lookup_lt_is_Some_2 pal i Hjl) as [old ->]. reflexivity.
      * apply Hmid; [lia | rewrite length_alter; exact Hjl].
    + intros j Hj. rewrite Hout by lia. apply list_lookup_alter_ne. lia.
Qed.

End TruncatedTable.

(** X10.  A colour table cut short: when the file ends after [k] whole
    entries of the [n] > [k] the header counts, [LoadColorPalleta] returns
    false, having read the [k] entries and then a read of no bytes; the
    palette stays allocated with [n] entries, the first [k] from the file
    and the others indeterminate. *)
Theorem LoadColorPalleta_truncated_table
  (s : State) (content : list byte) (pos : Z) (k : nat) :
  let h := m_bmpHeader (this s) in
  let fd := m_nFD (this s) in
  let off := BMP_HEADERSIZE + nBIDHeaderSize h in
  signature h = BMP_SIGNATURE →
  Z.of_nat k < nColorsInPalleta h ≤ INT_MAX →
  0 < off < 2 ^ 31 →
  w_fds (world s) !! fd = Some (mkOfd (RegularFile content) pos) →
  off + 4 * Z.of_nat k = Z.of_nat (length content) →
  ∃ s' pal,
    LoadColorPalleta s = Ret false s'
    ∧ m_pRGBPalleta (this s') = Some pal
    ∧ Z.of_nat (length pal) = nColorsInPalleta h
    ∧ (∀ i, (i < k)%nat → pal !! i = Some (palette_entry content off i))
    ∧ (∀ i, (k ≤ i)%nat → Z.of_nat i < nColorsInPalleta h →
            pal !! i = Some RGB_indeterminate)
    ∧ w_trace (world s')
      = w_trace (world s)
        ++ EvSeek fd off off :: map (palette_read fd content off) (seq 0 k)
        ++ [EvRead fd 4 (Some []);
            EvDiag "LoadColorPalleta" "Error reading index Palleta"].
Proof.
  destruct s as [[h fd data old] [fs fds tr]].
  intros h' fd' off Hsig Hn Hoff Hopen Hend. subst h' fd' off.
  cbn [this world m_bmpHeader m_nFD w_fds w_trace] in *.
  unfold LoadColorPalleta, VERIFYFALSE, bind at 1 2, header at 1, gets at 1, ret at 1.
  cbn [this m_bmpHeader]. rewrite Hsig, Z.eqb_refl.
  unfold bind at 1, header at 1, gets at 1. cbn [this m_bmpHeader].
  replace (0 <? nColorsInPalleta h) with true by (symmetry; apply Z.ltb_lt; lia).
  rewrite to_int32_small by lia.
  unfold VERIFYFALSE, bind at 1 2 3, fd_of_this at 1, gets at 1, sys_lseek.
  cbn [this world m_nFD w_fds]. rewrite Hopen.
  replace (BMP_HEADERSIZE + nBIDHeaderSize h <? 0) with false
    by (symmetry; apply Z.ltb_ge; lia).
  unfold ret at 1.
  replace (0 <? BMP_HEADERSIZE + nBIDHeaderSize h) with true
    by (symmetry; apply Z.ltb_lt; lia).
  unfold bind at 1, modify at 1, on_this, on_world, log, with_fds, set_palleta.
  cbn [this world m_bmpHeader m_nFD m_pRGBData m_pRGBPalleta w_fs w_fds w_trace].
  set (n := Z.to_nat (nColorsInPalleta h)).
  assert (Hsplit : n = (k + S (n - k - 1))%nat) by (subst n; lia).
  replace (LoadColorPalleta_loop n 0)
    with (LoadColorPalleta_loop (k + S (n - k - 1)) 0)
    by (rewrite <- Hsplit; reflexivity).
  destruct (LoadColorPalleta_loop_truncated fd content
              (BMP_HEADERSIZE + nBIDHeaderSize h) ltac:(lia) k (n - k - 1) 0%nat h data
              (replicate n RGB_indeterminate) fs
              (<[fd := mkOfd (RegularFile content)
                         (BMP_HEADERSIZE + nBIDHeaderSize h)]> fds)
              (tr ++ [EvSeek fd (BMP_HEADERSIZE + nBIDHeaderSize h)
                        (BMP_HEADERSIZE + nBIDHeaderSize h)]))
    as (pal & Hrun & Hlen & Hmid & Hout).
  { rewrite lookup_insert_eq. do 2 f_equal. lia. }
  { cbn [Nat.add]. exact Hend. }
  { cbn [Nat.add]. unfold INT_MAX in *. lia. }
  { rewrite length_replicate. subst n. lia. }
  change (Z.of_nat 0) with 0 in Hrun. rewrite Hrun.
  eexists _, pal. split; [reflexivity |].
  cbn [this world m_pRGBPalleta w_trace].
  rewrite length_replicate in Hlen, Hmid.
  split; [reflexivity |]. split; [subst n; lia |]. split; [| split].
  - intros i Hi. apply Hmid; [lia | subst n; lia].
  - intros i Hi Hin. rewrite Hout by lia. apply lookup_replicate_2. subst n. lia.
  - rewrite <- !app_assoc. reflexivity.
Qed.

Lemma LoadColorPalleta_truncated_table_witness :
  ∃ s' pal,
    LoadColorPalleta (Load_header_read "cut.bmp" (take 58 pal8_1x2)
                        (start [("cut.bmp", RegularFile (take 58 pal8_1x2))]))
    = Ret false s'
    ∧ m_pRGBPalleta (this s') = Some pal
    ∧ Z.of_nat (length pal) = 2
    ∧ (∀ i, (i < 1)%nat → pal !! i = Some (palette_entry (take 58 pal8_1x2) 54 i))
    ∧ (∀ i, (1 ≤ i)%nat → Z.of_nat i < 2 → pal !! i = Some RGB_indeterminate)
    ∧ w_trace (world s')
      = [EvOpen "cut.bmp" 3; EvRead 3 54 (Some (take 54 pal8_1x2))]
        ++ EvSeek 3 54 54 :: [EvRead 3 4 (Some (bytes [16; 32; 48; 0]))]
        ++ [EvRead 3 4 (Some []);
            EvDiag "LoadColorPalleta" "Error reading index Palleta"].
Proof.
  refine (LoadColorPalleta_truncated_table
            (Load_header_read "cut.bmp" (take 58 pal8_1x2)
               (start [("cut.bmp", RegularFile (take 58 pal8_1x2))]))
            (take 58 pal8_1x2) 54 1 _ _ _ _ _).
  - vm_compute; reflexivity.
  - vm_compute. split; [reflexivity | discriminate].
  - vm_compute. split; reflexivity.
  - vm_compute. reflexivity.
  - vm_compute. reflexivity.
Defined.

(** X11.  A seek that lands on offset 0 is taken for a failure: when the
    target of the first row is 0 (a data offset of 0) and there is at least
    one row, [LoadRGBData] returns false after that one [lseek] and its
    diagnostic, without a read. *)
Theorem LoadRGBData_first_seek_zero (s : State) (g : Geometry) (rows : Z) :
  let h := m_bmpHeader (this s) in
  signature h = BMP_SIGNATURE →
  scanline_geometry (nWidth h) (nBitPerPixel h) = inr g →
  ABS (nHeight h) = inr rows →
  0 < rows →
  row_offset h g 0 = 0 →
  ∃ s' r,
    LoadRGBData s = Ret false s'
    ∧ this s' = this s
    ∧ w_trace (world s')
      = w_trace (world s)
        ++ [EvSeek (m_nFD (this s)) 0 r;
            EvDiag "LoadRGBData" "Error setting next row data location"].
Proof.
  intros h Hsig Hgeo Habs Hrows Hzero. subst h.
  unfold LoadRGBData, VERIFYFALSE, bind at 1 2, header at 1, gets at 1, ret at 1.
  rewrite Hsig. change (BMP_SIGNATURE =? BMP_SIGNATURE) with true. cbv beta iota.
  unfold bind at 1 2 3, header at 1, gets at 1.
  rewrite Hgeo, Habs. unfold defined, ret at 1 2.
  destruct (Z.to_nat rows) as [| todo] eqn:Hnat; [lia |].
  cbn [LoadRGBData_rows].
  unfold VERIFYFALSE, bind at 1 2 3 4, header at 1, fd_of_this at 1, gets at 1 2,
    sys_lseek.
  fold (row_offset (m_bmpHeader (this s)) g 0). rewrite Hzero.
  change (0 <? 0) with false.
  destruct (w_fds (world s) !! m_nFD (this s)) as [[n pos] |];
    unfold ret at 1; cbv iota.
  - eexists _, 0. split; [reflexivity |]. split; [reflexivity |].
    cbn. rewrite <- app_assoc. reflexivity.
  - change (0 <? -1) with false. cbv iota.
    eexists _, (-1). split; [reflexivity |]. split; [reflexivity |].
    cbn. rewrite <- app_assoc. reflexivity.
Qed.

Lemma LoadRGBData_first_seek_zero_witness :
  ∃ s' r,
    LoadRGBData (Load_header_read "origin24.bmp" origin24_2x2
                   (start [("origin24.bmp", RegularFile origin24_2x2)]))
    = Ret false s'
    ∧ this s'
      = this (Load_header_read "origin24.bmp" origin24_2x2
                (start [("origin24.bmp", RegularFile origin24_2x2)]))
    ∧ w_trace (world s')
      = [EvOpen "origin24.bmp" 3; EvRead 3 54 (Some (take 54 origin24_2x2))]
        ++ [EvSeek 3 0 r;
            EvDiag "LoadRGBData" "Error setting next row data location"].
Proof.
  refine (LoadRGBData_first_seek_zero
            (Load_header_read "origin24.bmp" origin24_2x2
               (start [("origin24.bmp", RegularFile origin24_2x2)]))
            (mkGeometry (24 # 8) 3 6 2 8) 2 _ _ _ _ _).
  - vm_compute; reflexivity.
  - vm_compute; reflexivity.
  - vm_compute; reflexivity.
  - reflexivity.
  - vm_compute; reflexivity.
Defined.

(** ** main *)

(** X12.  [main] does not report what [Load] returned: with any other
    number of arguments than the program name and one file it exits with
    status 1 without touching a file, and with one file it exits with
    status 0 whenever [Load] returns, also when [Load] returned false. *)
Theorem main_status (args : list string) (w : World) :
  (length args ≠ 2%nat → main args w = Ret 1 (mkState BMP_new w))
  ∧ (∀ prog file b s',
       args = [prog; file] →
       Load file (mkState BMP_new w) = Ret b s' →
       main args w = Ret 0 s').
Proof.
  split.
  - apply main_usage.
  - intros prog file b s' -> Hrun. exact (main_exit_status prog file w b s' Hrun).
Qed.

Lemma main_status_witness :
  main ["bmp"] (world_of []) = Ret 1 (mkState BMP_new (world_of []))
  ∧ ∃ s', Load "absent.bmp" (mkState BMP_new (world_of [])) = Ret false s'
          ∧ main ["bmp"; "absent.bmp"] (world_of []) = Ret 0 s'.
Proof.
  split.
  - refine (proj1 (main_status ["bmp"] (world_of [])) _). cbn. discriminate.
  - assert (Hrun : ∃ s', Load "absent.bmp" (mkState BMP_new (world_of []))
                         = Ret false s')
      by (eexists; vm_compute; reflexivity).
    destruct Hrun as [s' Hrun]. exists s'. split; [exact Hrun |].
    exact (proj2 (main_status ["bmp"; "absent.bmp"] (world_of []))
             "bmp" "absent.bmp" false s' eq_refl Hrun).
Defined.

(** * Further properties of the arithmetic *)

(** ** RoundUp *)

(** X13.  On a value that is not negative (and below 2^53, where [double]
    still holds every integer) [RoundUp] is the ceiling. *)
Theorem RoundUp_is_ceiling (q : Q) :
  (0 <= q)%Q → Qfloor q < 2 ^ 53 →
  RoundUp q = inr (inject_Z (Qceiling q)).
Proof.
  destruct q as [a d]. unfold Qle, Qfloor; cbn [Qnum Qden]. intros Ha Hfl.
  assert (Hd : 0 < Z.pos d) by lia.
  assert (Ha' : 0 ≤ a) by lia.
  pose proof (Z.div_pos a (Z.pos d) Ha' Hd) as Hfl0.
  pose proof (Z.div_mod a (Z.pos d) ltac:(lia)) as Hdm.
  pose proof (Z.mod_pos_bound a (Z.pos d) Hd) as Hm.
  unfold RoundUp, double_to_unsigned, Qtrunc.
  replace (Qle_bool 0 (a # d)) with true
    by (symmetry; unfold Qle_bool; cbn [Qnum Qden]; apply Z.leb_le; lia).
  unfold Qfloor.
  replace ((0 <=? a / Z.pos d) && (a / Z.pos d <? 2 ^ 64)) with true
    by (symmetry; apply andb_true_iff; split; [apply Z.leb_le | apply Z.ltb_lt]; lia).
  f_equal. unfold Qeq_bool, Qceiling, Qfloor, Qopp, inject_Z; cbn [Qnum Qden].
  destruct (Z.eqb (a * 1) (a / Z.pos d * Z.pos d)) eqn:E.
  - apply Z.eqb_eq in E. f_equal.
    replace (- a) with ((- (a / Z.pos d)) * Z.pos d) by lia.
    rewrite Z.div_mul by lia. lia.
  - apply Z.eqb_neq in E. f_equal.
    rewrite Z_div_nz_opp_full by lia.
    unfold to_uint64. rewrite Z.mod_small by lia. lia.
Qed.

Lemma RoundUp_is_ceiling_witness :
  RoundUp (21 # 8) = inr (inject_Z (Qceiling (21 # 8))).
Proof.
  refine (RoundUp_is_ceiling (21 # 8) _ _).
  - unfold Qle. cbn. lia.
  - vm_compute. reflexivity.
Defined.

(** X14.  Below zero [RoundUp] is not the ceiling: between -1 and 0 it
    returns 1 where the ceiling is 0, and from -1 down the conversion to
    [uint64_t] it starts with is undefined. *)
Theorem RoundUp_below_zero (q : Q) :
  ((-1 < q)%Q → (q < 0)%Q →
   RoundUp q = inr (inject_Z 1) ∧ Qceiling q = 0)
  ∧ ((q <= -1)%Q → RoundUp q = inl FloatToIntegerRange).
Proof.
  destruct q as [a d]. unfold Qlt, Qle; cbn [Qnum Qden].
  assert (Hd : 0 < Z.pos d) by lia.
  split.
  - intros Hlow Hneg.
    assert (Hdiv : (- a) / Z.pos d = 0) by (apply Z.div_small; lia).
    assert (Hceil : Qceiling (a # d) = 0).
    { unfold Qceiling, Qfloor, Qopp; cbn [Qnum Qden]. rewrite Hdiv. reflexivity. }
    split; [| exact Hceil].
    unfold RoundUp, double_to_unsigned, Qtrunc.
    replace (Qle_bool 0 (a # d)) with false
      by (symmetry; apply not_true_iff_false; unfold Qle_bool; cbn [Qnum Qden];
          rewrite Z.leb_le; lia).
    rewrite Hceil. cbn [Z.leb Z.ltb Z.compare andb].
    change (0 <? 2 ^ 64) with true. cbv iota.
    unfold Qeq_bool, inject_Z; cbn [Qnum Qden].
    replace (Z.eqb (a * 1) (0 * Z.pos d)) with false
      by (symmetry; apply Z.eqb_neq; lia).
    reflexivity.
  - intros Hlow.
    unfold RoundUp, double_to_unsigned, Qtrunc.
    replace (Qle_bool 0 (a # d)) with false
      by (symmetry; apply not_true_iff_false; unfold Qle_bool; cbn [Qnum Qden];
          rewrite Z.leb_le; lia).
    unfold Qceiling, Qfloor, Qopp; cbn [Qnum Qden].
    assert (Hdiv : 1 ≤ (- a) / Z.pos d).
    { apply Z.div_le_lower_bound; lia. }
    replace (0 <=? - (- a / Z.pos d)) with false
      by (symmetry; apply Z.leb_gt; lia).
    reflexivity.
Qed.

Lemma RoundUp_below_zero_witness :
  (RoundUp (-1 # 8) = inr (inject_Z 1) ∧ Qceiling (-1 # 8) = 0)
  ∧ RoundUp (-3 # 1) = inl FloatToIntegerRange.
Proof.
  split.
  - refine (proj1 (RoundUp_below_zero (-1 # 8)) _ _); unfold Qlt; cbn; lia.
  - refine (proj2 (RoundUp_below_zero (-3 # 1)) _). unfold Qle; cbn; lia.
Defined.

(** ** Scanline geometry at any depth *)

Lemma bytes_per_pixel_of_depth (d : Z) :
  0 ≤ d < 2048 →
  double_to_unsigned 8
    (if negb (Qle_bool 1 (inject_Z d / 8)) then 1%Q else (inject_Z d / 8)%Q)
  = inr (Z.max 1 (d / 8)).
Proof.
  intros Hd.
  change (inject_Z d / 8)%Q with ((d * 1) # 8).
  unfold Qle_bool; cbn [Qnum Qden]. rewrite !Z.mul_1_r.
  pose proof (Z.div_mod d 8 ltac:(lia)) as Hdm.
  pose proof (Z.mod_pos_bound d 8 ltac:(lia)) as Hm.
  destruct (1 * 8 <=? d) eqn:E; cbn [negb].
  - apply Z.leb_le in E.
    unfold double_to_unsigned, Qtrunc.
    replace (Qle_bool 0 (d # 8)) with true
      by (symmetry; unfold Qle_bool; cbn [Qnum Qden]; apply Z.leb_le; lia).
    unfold Qfloor.
    replace ((0 <=? d / 8) && (d / 8 <? 2 ^ 8)) with true
      by (symmetry; apply andb_true_iff; split;
          [apply Z.leb_le | apply Z.ltb_lt]; lia).
    f_equal. lia.
  - apply Z.leb_gt in E. rewrite Z.div_small by lia. reflexivity.
Qed.

Lemma bytes_per_pixel_of_deep (d : Z) :
  2048 ≤ d →
  double_to_unsigned 8
    (if negb (Qle_bool 1 (inject_Z d / 8)) then 1%Q else (inject_Z d / 8)%Q)
  = inl FloatToIntegerRange.
Proof.
  intros Hd.
  change (inject_Z d / 8)%Q with ((d * 1) # 8).
  unfold Qle_bool; cbn [Qnum Qden]. rewrite !Z.mul_1_r.
  replace (1 * 8 <=? d) with true by (symmetry; apply Z.leb_le; lia).
  cbn [negb]. unfold double_to_unsigned, Qtrunc.
  replace (Qle_bool 0 (d # 8)) with true
    by (symmetry; unfold Qle_bool; cbn [Qnum Qden]; apply Z.leb_le; lia).
  unfold Qfloor.
  assert (256 ≤ d / 8) by (apply Z.div_le_lower_bound; lia).
  replace (d / 8 <? 2 ^ 8) with false by (symmetry; apply Z.ltb_ge; lia).
  rewrite andb_false_r. reflexivity.
Qed.

Lemma scanline_geometry_below_2048 (w d : Z) :
  0 ≤ w → 0 ≤ d < 2048 →
  Qceiling (inject_Z w * (inject_Z d / 8)) < 2 ^ 32 →
  scanline_geometry w d
  = inr {| nBytesPerPixelFactor := (inject_Z d / 8)%Q;
           nBytesPerPixel := Z.max 1 (d / 8);
           nBytesPerRow := Qceiling (inject_Z w * (inject_Z d / 8));
           nPaddingSize :=
             (4 - Qceiling (inject_Z w * (inject_Z d / 8)) mod 4) mod 4;
           nRowDataSize :=
             to_uint32 (Qceiling (inject_Z w * (inject_Z d / 8))
                        + (4 - Qceiling (inject_Z w * (inject_Z d / 8)) mod 4)
                          mod 4) |}.
Proof.
  intros Hw Hd. rewrite product_eighths, Qceiling_eighths. intros Hc.
  set (bpr := (w * (d * 1) + 7) / 8) in *.
  unfold scanline_geometry.
  rewrite bytes_per_pixel_of_depth by exact Hd.
  rewrite product_eighths.
  assert (Hn : 0 ≤ w * (d * 1) < 2 ^ 60).
  { pose proof (Z.div_mod (w * (d * 1) + 7) 8 ltac:(lia)).
    pose proof (Z.mod_pos_bound (w * (d * 1) + 7) 8 ltac:(lia)).
    subst bpr. split; [nia | lia]. }
  rewrite RoundUp_eighths by exact Hn. fold bpr.
  assert (Hbpr : 0 ≤ bpr) by (subst bpr; apply Z.div_pos; lia).
  unfold double_to_unsigned. rewrite Qtrunc_inject.
  replace ((0 <=? bpr) && (bpr <? 2 ^ 32)) with true
    by (symmetry; apply andb_true_iff; split;
        [apply Z.leb_le | apply Z.ltb_lt]; lia).
  pose proof (Z.mod_pos_bound bpr 4 ltac:(lia)) as Hm.
  assert (Hpad : (if 0 <? bpr mod 4 then 4 - bpr mod 4 else 0)
                 = (4 - bpr mod 4) mod 4).
  { destruct (0 <? bpr mod 4) eqn:E.
    - apply Z.ltb_lt in E. symmetry. apply Z.mod_small. lia.
    - apply Z.ltb_ge in E. replace (bpr mod 4) with 0 by lia. reflexivity. }
  rewrite Hpad. reflexivity.
Qed.

(** X15.  The geometry in closed form, at every depth below 2048 and not
    only the five of the format: for a width that is not negative and a
    row below 2^32 bytes, nBytesPerPixel is the depth over 8 rounded down,
    and 1 below 8 bits; nBytesPerRow is ceil (width * depth / 8);
    nPaddingSize completes it to a multiple of 4 and nRowDataSize is their
    sum in 32 bits.  From 2048 bits on the conversion of nBytesPerPixel to
    [uint8_t] is undefined. *)
Theorem scanline_geometry_closed_form (w d : Z) :
  (0 ≤ w → 0 ≤ d < 2048 →
   Qceiling (inject_Z w * (inject_Z d / 8)) < 2 ^ 32 →
   let bpr := Qceiling (inject_Z w * (inject_Z d / 8)) in
   scanline_geometry w d
   = inr {| nBytesPerPixelFactor := (inject_Z d / 8)%Q;
            nBytesPerPixel := Z.max 1 (d / 8);
            nBytesPerRow := bpr;
            nPaddingSize := (4 - bpr mod 4) mod 4;
            nRowDataSize := to_uint32 (bpr + (4 - bpr mod 4) mod 4) |})
  ∧ (2048 ≤ d → scanline_geometry w d = inl FloatToIntegerRange).
Proof.
  split.
  - intros Hw Hd Hc bpr. subst bpr.
    apply scanline_geometry_below_2048; assumption.
  - intros Hd. unfold scanline_geometry.
    rewrite bytes_per_pixel_of_deep by exact Hd. reflexivity.
Qed.

Lemma scanline_geometry_closed_form_witness :
  scanline_geometry 5 12 = inr (mkGeometry (inject_Z 12 / 8) 1 8 0 8)
  ∧ scanline_geometry 1 4096 = inl FloatToIntegerRange.
Proof.
  split.
  - refine (proj1 (scanline_geometry_closed_form 5 12) _ _ _).
    + lia.
    + lia.
    + vm_compute. reflexivity.
  - refine (proj2 (scanline_geometry_closed_form 1 4096) _). lia.
Defined.

(** X16.  Which depths [LoadRGBData] can read a row of: with a geometry
    that is defined and at least one row and one byte per row, on a
    regular file and a first seek target above 0, a depth of 40 bits or
    more makes the loader pass more than the 4 bytes of nDataProcessing to
    [PrintBinary], after its first read. *)
Theorem LoadRGBData_deep_pixels_overrun
  (s : State) (content : list byte) (pos : Z) (g : Geometry) (rows : Z) :
  let h := m_bmpHeader (this s) in
  signature h = BMP_SIGNATURE →
  scanline_geometry (nWidth h) (nBitPerPixel h) = inr g →
  ABS (nHeight h) = inr rows →
  0 < rows → 0 < nBytesPerRow g →
  40 ≤ nBitPerPixel h < 2048 →
  w_fds (world s) !! m_nFD (this s) = Some (mkOfd (RegularFile content) pos) →
  0 < row_offset h g 0 →
  ∃ s' data,
    LoadRGBData s = Fault OutOfBoundsAccess s'
    ∧ this s' = this s
    ∧ w_trace (world s')
      = w_trace (world s)
        ++ [EvSeek (m_nFD (this s)) (row_offset h g 0) (row_offset h g 0);
            EvRead (m_nFD (this s)) (nBytesPerPixel g) (Some data)].
Proof.
  destruct s as [b [fs fds tr]].
  intros h Hsig Hgeo Habs Hrows Hbpr Hdepth Hopen Hseek. subst h.
  cbn [this world w_fds w_trace] in *.
  assert (Hpix : 4 < nBytesPerPixel g).
  { unfold scanline_geometry in Hgeo.
    rewrite bytes_per_pixel_of_depth in Hgeo by lia.
    destruct (RoundUp _) as [e | up]; [discriminate |].
    destruct (double_to_unsigned 32 up) as [e | bpr]; [discriminate |].
    injection Hgeo as <-. cbn [nBytesPerPixel].
    assert (5 ≤ nBitPerPixel (m_bmpHeader b) / 8)
      by (apply Z.div_le_lower_bound; lia).
    lia. }
  unfold LoadRGBData, VERIFYFALSE, bind at 1 2, header at 1, gets at 1, ret at 1.
  cbn [this]. rewrite Hsig. change (BMP_SIGNATURE =? BMP_SIGNATURE) with true.
  cbv beta iota.
  unfold bind at 1 2 3, header at 1, gets at 1. cbn [this].
  rewrite Hgeo, Habs. unfold defined, ret at 1 2.
  destruct (Z.to_nat rows) as [| todo] eqn:Hnat; [lia |].
  cbn [LoadRGBData_rows].
  unfold VERIFYFALSE, bind at 1 2 3 4, header at 1, fd_of_this at 1, gets at 1 2,
    sys_lseek.
  cbn [this world w_fds]. rewrite Hopen.
  fold (row_offset (m_bmpHeader b) g 0).
  replace (row_offset (m_bmpHeader b) g 0 <? 0) with false
    by (symmetry; apply Z.ltb_ge; lia).
  unfold ret at 1.
  replace (0 <? row_offset (m_bmpHeader b) g 0) with true
    by (symmetry; apply Z.ltb_lt; exact Hseek).
  destruct (Z.to_nat (nBytesPerRow g)) as [| reads] eqn:Hreads; [lia |].
  cbn [LoadRGBData_row].
  unfold VERIFYFALSE, bind at 1 2 3, fd_of_this at 1, gets at 1, sys_read,
    on_world, log, with_fds.
  cbn [this world w_fs w_fds w_trace]. rewrite lookup_insert_eq.
  unfold ret at 1, read_ret.
  match goal with |- context [Z.of_nat (length ?d)] =>
    replace (0 <=? Z.of_nat (length d)) with true
      by (symmetry; apply Z.leb_le; lia)
  end.
  replace (4 <? nBytesPerPixel g) with true by (symmetry; apply Z.ltb_lt; exact Hpix).
  unfold raise. eexists _, _. split; [reflexivity |]. split; [reflexivity |].
  cbn. rewrite <- app_assoc. reflexivity.
Qed.

Lemma LoadRGBData_deep_pixels_overrun_witness :
  ∃ s' data,
    LoadRGBData (Load_header_read "deep40.bmp" deep40_1x1
                   (start [("deep40.bmp", RegularFile deep40_1x1)]))
    = Fault OutOfBoundsAccess s'
    ∧ this s'
      = this (Load_header_read "deep40.bmp" deep40_1x1
                (start [("deep40.bmp", RegularFile deep40_1x1)]))
    ∧ w_trace (world s')
      = [EvOpen "deep40.bmp" 3; EvRead 3 54 (Some (take 54 deep40_1x1))]
        ++ [EvSeek 3 54 54; EvRead 3 5 (Some data)].
Proof.
  refine (LoadRGBData_deep_pixels_overrun
            (Load_header_read "deep40.bmp" deep40_1x1
               (start [("deep40.bmp", RegularFile deep40_1x1)]))
            deep40_1x1 54 (mkGeometry (40 # 8) 5 5 3 8) 1 _ _ _ _ _ _ _ _).
  - vm_compute; reflexivity.
  - vm_compute; reflexivity.
  - vm_compute; reflexivity.
  - reflexivity.
  - reflexivity.
  - vm_compute. split; [discriminate | reflexivity].
  - vm_compute; reflexivity.
  - vm_compute; reflexivity.
Defined.

(** ** Load on the usual files *)

Lemma le_decode_nonneg (bs : list byte) : 0 ≤ le_decode bs.
Proof.
  induction bs as [| b bs IH]; cbn [le_decode]; [lia |].
  pose proof (Z_of_byte_range b). lia.
Qed.

(** X17.  [Load] returns, true or false, with no undefined step, for a
    name that is not in the file system or is a directory's, and for every
    regular file whose header has a height other than 0 and INT_MIN, a
    width that is not negative, a depth below 40 bits, a row below 2^32
    bytes and a colour count of at most INT_MAX, and which holds, from
    offset 14 + nBIDHeaderSize below 2^31 on, the whole of the colour table
    that its header counts. *)
Theorem Load_defined (strFileName : string) (s : State) :
  (∀ content,
     w_fs (world s) !! c_str strFileName = Some (RegularFile content) →
     let h := file_header content in
     let off := BMP_HEADERSIZE + nBIDHeaderSize h in
     nHeight h ≠ 0 ∧ nHeight h ≠ INT_MIN
     ∧ 0 ≤ nWidth h ∧ nBitPerPixel h < 40
     ∧ Qceiling (inject_Z (nWidth h) * (inject_Z (nBitPerPixel h) / 8)) < 2 ^ 32
     ∧ nColorsInPalleta h ≤ INT_MAX
     ∧ (0 < nColorsInPalleta h →
        off < 2 ^ 31
        ∧ off + 4 * nColorsInPalleta h ≤ Z.of_nat (length content))) →
  ∃ b s', Load strFileName s = Ret b s'.
Proof.
  intros Hfile. rewrite Load_eq.
  destruct (String.length strFileName =? 0)%nat; [eauto |].
  cbv zeta.
  destruct (w_fs (world s) !! c_str strFileName) as [n |]; [| eauto].
  destruct (0 <? lowest_free (w_fds (world s))); [| eauto].
  destruct n as [content |]; [| eauto].
  destruct (Hfile content eq_refl) as (Hh0 & Hmin & Hw & Hd & Hrow & Hn & Htable).
  rewrite Load_header_read_header.
  replace (to_uint32 (nHeight (file_header content)) =? 0) with false.
  2:{ symmetry. apply Z.eqb_neq. intros Hz. apply Hh0.
      unfold file_header, header_of_bytes, nHeight in *.
      apply to_int32_zero, Hz. }
  destruct (signature (file_header content) =? BMP_SIGNATURE) eqn:Hsig; [| eauto].
  destruct (nCompressionMethod (file_header content) =? BMP_BI_RGB) eqn:Hcomp;
    [| eauto].
  apply Z.eqb_eq in Hsig.
  set (s2 := Load_header_read (c_str strFileName) content s).
  assert (Hpal : ∃ s3, LoadColorPalleta s2 = Ret true s3
                       ∧ m_bmpHeader (this s3) = file_header content).
  { pose proof (keeps_LoadColorPalleta m_bmpHeader (λ _ _, eq_refl) s2) as Hkeep.
    destruct (Z.lt_ge_cases 0 (nColorsInPalleta (file_header content)))
      as [Hpos | Hzero].
    - destruct (Htable Hpos) as [Hoff Hfit].
      assert (Hbid : 0 ≤ nBIDHeaderSize (file_header content))
        by apply le_decode_nonneg.
      destruct (LoadColorPalleta_reads s2 content
                  (0 + Z.of_nat (length (take 54 content))) Hsig
                  (conj Hpos Hn))
        as (s3 & pal & Hrun & _).
      + unfold BMP_HEADERSIZE in *.
        change (m_bmpHeader (this s2)) with (file_header content). lia.
      + apply lookup_insert_eq.
      + exact Hfit.
      + exists s3. split; [exact Hrun |].
        rewrite Hrun in Hkeep. exact Hkeep.
    - exists s2. split; [| reflexivity].
      unfold LoadColorPalleta, VERIFYFALSE, bind, header, gets, ret.
      change (m_bmpHeader (this s2)) with (file_header content).
      rewrite Hsig. change (BMP_SIGNATURE =? BMP_SIGNATURE) with true.
      cbv beta iota.
      change (m_bmpHeader (this s2)) with (file_header content).
      replace (0 <? nColorsInPalleta (file_header content)) with false
        by (symmetry; apply Z.ltb_ge; exact Hzero).
      reflexivity. }
  destruct Hpal as (s3 & Hrun & Hs3).
  assert (Hd0 : 0 ≤ nBitPerPixel (file_header content)) by apply le_decode_nonneg.
  assert (Hrest : returns_with (file_header content)
                    (LoadRGBData >>
                     (let* fd := fd_of_this in sys_close fd) >> ret true)).
  { apply returns_bind; [| intros _].
    - eapply returns_LoadRGBData; [| | exact Hmin].
      + apply scanline_geometry_below_2048; [exact Hw | lia | exact Hrow].
      + cbn [nBytesPerPixel].
        assert (nBitPerPixel (file_header content) / 8 < 5)
          by (apply Z.div_lt_upper_bound; lia).
        lia.
    - apply returns_bind; [| intros _; apply returns_ret].
      apply returns_bind; [apply returns_gets | intros fd; apply returns_sys_close]. }
  destruct (Hrest s3 Hs3) as (b & s' & Hb & _).
  exists b, s'. unfold bind at 1. rewrite Hrun. exact Hb.
Qed.

Lemma Load_defined_witness :
  ∃ b s', Load "pal8.bmp" (start [("pal8.bmp", RegularFile pal8_1x2)]) = Ret b s'.
Proof.
  refine (Load_defined "pal8.bmp" (start [("pal8.bmp", RegularFile pal8_1x2)]) _).
  intros content Hfile.
  vm_compute in Hfile. injection Hfile as <-.
  split; [vm_compute; discriminate |].
  split; [vm_compute; discriminate |].
  split; [vm_compute; discriminate |].
  split; [vm_compute; reflexivity |].
  split; [vm_compute; reflexivity |].
  split; [vm_compute; discriminate |].
  intros _. split; vm_compute; [reflexivity | discriminate].
Defined.

(** The table has to be whole: on the file cut after two bytes of its first
    entry the read of that entry succeeds, and the dump that follows
    evaluates the two bytes that were never stored. *)
Lemma Load_partial_entry :
  ∃ s' e,
    Load "cut.bmp" (start [("cut.bmp", RegularFile (take 56 pal8_1x2))])
    = Fault IndeterminateValue s'
    ∧ m_pRGBPalleta (this s') ≫= (λ pal, pal !! 0%nat) = Some e
    ∧ nRed e = Some (byte_of_Z 16) ∧ nGreen e = Some (byte_of_Z 32)
    ∧ nBlue e = None ∧ nAlpha e = None.
Proof.
  eexists _, _. split; [vm_compute; reflexivity |].
  split; [reflexivity |]. repeat split.
Qed.

(** ** ImageBuffer *)

(** X18.  An [ImageBuffer] of width [w] and height [h]: its byte size is
    always 4 times the number of samples allocated; for a height that is
    not negative and a product below 2^32 that number is [w * h]; for a
    negative height it is [w * h + 2^32 * k] for some k > 0 and not
    [w * |h|], the product being taken in unsigned 32 bits. *)
Theorem ImageBuffer_new_size (w h : Z) :
  0 ≤ w < 2 ^ 32 → INT_MIN ≤ h ≤ INT_MAX →
  let b := ImageBuffer_new w h in
  m_ImageBytesSize b = 4 * Z.of_nat (length (m_RGBBuffer b))
  ∧ (0 ≤ h → w * h < 2 ^ 32 →
     Z.of_nat (length (m_RGBBuffer b)) = w * h ∧ m_nHeight b = h)
  ∧ (h < 0 → 0 < w →
     m_nHeight b = h + 2 ^ 32
     ∧ ∃ k, 0 < k ∧ Z.of_nat (length (m_RGBBuffer b)) = w * h + 2 ^ 32 * k).
Proof.
  intros Hw Hh b. subst b. unfold INT_MIN, INT_MAX in Hh.
  unfold ImageBuffer_new; cbn [m_ImageBytesSize m_RGBBuffer m_nHeight].
  rewrite length_replicate. unfold to_uint32, to_uint64, UINT32_MOD, sizeof_RGB.
  pose proof (Z.mod_pos_bound (w * h) (2 ^ 32) ltac:(lia)) as Hm.
  rewrite Z2Nat.id by lia.
  split; [rewrite Z.mod_small; lia |]. split.
  - intros Hh0 Hfit. split; rewrite Z.mod_small; nia.
  - intros Hneg Hw0. split.
    + replace h with (h + 2 ^ 32 + (-1) * 2 ^ 32) at 1 by lia.
      rewrite Z.mod_add by lia. apply Z.mod_small. lia.
    + pose proof (Z.div_mod (w * h) (2 ^ 32) ltac:(lia)) as Hdm.
      exists (- (w * h / 2 ^ 32)). split; [| lia].
      assert (w * h / 2 ^ 32 < 0); [| lia].
      apply Z.div_lt_upper_bound; nia.
Qed.

Lemma ImageBuffer_new_size_witness :
  m_ImageBytesSize (ImageBuffer_new 2 (-1))
  = 4 * Z.of_nat (length (m_RGBBuffer (ImageBuffer_new 2 (-1))))
  ∧ m_nHeight (ImageBuffer_new 2 (-1)) = 4294967295
  ∧ m_ImageBytesSize (ImageBuffer_new 3 2) = 24.
Proof.
  destruct (ImageBuffer_new_size 2 (-1)) as (Hsize & _ & Hneg);
    [lia | unfold INT_MIN, INT_MAX; lia |].
  destruct (ImageBuffer_new_size 3 2) as (Hsize' & Hpos & _);
    [lia | unfold INT_MIN, INT_MAX; lia |].
  split; [exact Hsize |]. split.
  - exact (proj1 (Hneg ltac:(lia) ltac:(lia))).
  - rewrite Hsize'. rewrite (proj1 (Hpos ltac:(lia) ltac:(lia))). reflexivity.
Defined.

(** * Further properties: PrintBinary *)

Lemma le_decode_app (l1 l2 : list byte) :
  le_decode (l1 ++ l2) = le_decode l1 + 256 ^ Z.of_nat (length l1) * le_decode l2.
Proof.
  induction l1 as [| b l1 IH].
  - cbn [app le_decode length]. change (256 ^ Z.of_nat 0) with 1. lia.
  - cbn [app le_decode length]. rewrite IH, Nat2Z.inj_succ, Z.pow_succ_r by lia. lia.
Qed.

Lemma binary_value_byte (b : byte) (acc : Z) (rest : string) :
  binary_value acc (PrintBinary_bits 8 (Z_of_byte b) 0 +:+ rest)
  = binary_value (256 * acc + Z_of_byte b) rest.
Proof.
  destruct b;
    (set (o := PrintBinary_bits _ _ _); vm_compute in o; subst o;
     set (v := Z_of_byte _); vm_compute in v; subst v;
     cbv [String.append]; cbn [binary_value]; f_equal; lia).
Qed.

Lemma length_string_app (a b : string) :
  String.length (a +:+ b) = (String.length a + String.length b)%nat.
Proof.
  induction a as [| c a IH]; [reflexivity |].
  change (String c a +:+ b) with (String c (a +:+ b)).
  cbn [String.length]. rewrite IH. reflexivity.
Qed.

Lemma length_PrintBinary_bits (todo : nat) (nValue nCountb : Z) :
  String.length (PrintBinary_bits todo nValue nCountb) = todo.
Proof.
  revert nCountb. induction todo as [| n IH]; intros nCountb; [reflexivity |].
  cbn [PrintBinary_bits]. rewrite length_string_app, IH.
  unfold PrintBinary_digit. destruct (_ =? 0); reflexivity.
Qed.

Lemma PrintBinary_bytes_spec (todo : nat) (pBuffer : list byte) (nCount : nat) :
  (nCount + todo ≤ length pBuffer)%nat →
  ∃ out,
    PrintBinary_bytes todo pBuffer (Z.of_nat nCount) = inr out
    ∧ String.length out = (8 * todo)%nat
    ∧ ∀ acc, binary_value acc out
             = Some (256 ^ Z.of_nat todo * acc
                     + le_decode (rev (take todo (drop nCount pBuffer)))).
Proof.
  revert nCount. induction todo as [| n IH]; intros nCount Hfit.
  - exists "". split; [reflexivity |]. split; [reflexivity |].
    intros acc. rewrite take_0. cbn [binary_value rev le_decode].
    change (256 ^ Z.of_nat 0) with 1. f_equal. lia.
  - cbn [PrintBinary_bytes]. rewrite Nat2Z.id.
    destruct (lookup_lt_is_Some_2 pBuffer nCount ltac:(lia)) as [b Hb].
    rewrite Hb.
    replace (Z.of_nat nCount + 1) with (Z.of_nat (S nCount)) by lia.
    destruct (IH (S nCount) ltac:(lia)) as (rest & -> & Hlen & Hval).
    eexists. split; [reflexivity |]. split.
    + rewrite length_string_app, length_PrintBinary_bits, Hlen. lia.
    + intros acc. rewrite binary_value_byte, Hval. f_equal.
      rewrite (drop_S _ _ _ Hb). cbn [take rev].
      rewrite le_decode_app, length_rev, length_take, length_drop.
      cbn [le_decode]. rewrite Nat.min_l by lia.
      rewrite Nat2Z.inj_succ, Z.pow_succ_r by lia. lia.
Qed.

(** X19.  [PrintBinary] on [nSize] bytes that the buffer has writes
    [8 * nSize] characters, all binary digits; read as one binary numeral
    they give the bytes taken as a big-endian number, that is each byte
    from its highest bit down, the bytes in the order of the buffer. *)
Theorem PrintBinary_big_endian (pBuffer : list byte) (nSize : Z) :
  0 ≤ nSize ≤ Z.of_nat (length pBuffer) →
  ∃ out,
    PrintBinary pBuffer nSize = inr out
    ∧ Z.of_nat (String.length out) = 8 * nSize
    ∧ binary_value 0 out
      = Some (le_decode (rev (take (Z.to_nat nSize) pBuffer))).
Proof.
  intros Hfit. unfold PrintBinary.
  destruct (PrintBinary_bytes_spec (Z.to_nat nSize) pBuffer 0 ltac:(lia))
    as (out & Hout & Hlen & Hval).
  exists out. split; [exact Hout |]. split; [lia |].
  rewrite Hval, drop_0. f_equal. lia.
Qed.

Lemma PrintBinary_big_endian_witness :
  ∃ out,
    PrintBinary (le_encode 4 258) 2 = inr out
    ∧ Z.of_nat (String.length out) = 8 * 2
    ∧ binary_value 0 out = Some (le_decode (rev (take 2 (le_encode 4 258)))).
Proof.
  refine (PrintBinary_big_endian (le_encode 4 258) 2 _).
  vm_compute. split; discriminate.
Defined.

(** X20.  [PrintBinary] asked for more bytes than the buffer has reads past
    the buffer. *)
Theorem PrintBinary_past_buffer (pBuffer : list byte) (nSize : Z) :
  Z.of_nat (length pBuffer) < nSize →
  PrintBinary pBuffer nSize = inl OutOfBoundsAccess.
Proof.
  intros Hover. unfold PrintBinary.
  assert (Hgen : ∀ todo nCount,
             (length pBuffer < nCount + todo)%nat →
             (nCount ≤ length pBuffer)%nat →
             PrintBinary_bytes todo pBuffer (Z.of_nat nCount) = inl OutOfBoundsAccess).
  { induction todo as [| n IH]; intros nCount Hlt Hle; [lia |].
    cbn [PrintBinary_bytes]. rewrite Nat2Z.id.
    destruct (pBuffer !! nCount) as [b |] eqn:Hb; [| reflexivity].
    apply lookup_lt_Some in Hb.
    replace (Z.of_nat nCount + 1) with (Z.of_nat (S nCount)) by lia.
    rewrite IH by lia. reflexivity. }
  exact (Hgen (Z.to_nat nSize) 0%nat ltac:(lia) ltac:(lia)).
Qed.

Lemma PrintBinary_past_buffer_witness :
  PrintBinary (le_encode 4 258) 5 = inl OutOfBoundsAccess.
Proof.
  refine (PrintBinary_past_buffer (le_encode 4 258) 5 _).
  vm_compute. reflexivity.
Defined.

(** * Further properties: the terminal helpers *)

Lemma length_list_byte_of_string (text : string) :
  length (String.list_byte_of_string text) = String.length text.
Proof.
  unfold String.list_byte_of_string. rewrite length_map.
  induction text as [| c text IH]; [reflexivity |].
  cbn [String.list_ascii_of_string length String.length]. rewrite IH. reflexivity.
Qed.

(** A text of at most 14 characters goes through the 15-byte buffer
    whole. *)
Lemma snprintf_write_whole (text : string) :
  (String.length text ≤ 14)%nat →
  (let '(szTemp, n) := snprintf (replicate 15 None) 15 text in
   Stream_write szTemp (n mod 256))
  = inr (map Some (String.list_byte_of_string text)).
Proof.
  intros Hlen. unfold snprintf, Stream_write.
  pose proof (length_list_byte_of_string text) as Hbytes.
  rewrite take_ge by lia.
  rewrite Z.mod_small by lia.
  rewrite length_app, length_map, length_app, length_drop, length_replicate.
  rewrite Hbytes. cbn [length].
  replace (Z.of_nat (String.length text)
           <=? Z.of_nat (String.length text + 1 + (15 - (String.length text + 1))))
    with true by (symmetry; apply Z.leb_le; lia).
  rewrite Nat2Z.id, map_app, <- app_assoc.
  rewrite take_app_length'; [reflexivity |].
  rewrite length_map. symmetry. exact Hbytes.
Qed.

Lemma length_string_of_uint (d : Decimal.uint) :
  String.length (DecimalString.NilEmpty.string_of_uint d) = Decimal.nb_digits d.
Proof.
  induction d; cbn [DecimalString.NilEmpty.string_of_uint String.length Decimal.nb_digits];
    congruence.
Qed.

Lemma of_uint_acc_lower (d : Decimal.uint) (acc : positive) :
  Z.pos acc * 10 ^ Z.of_nat (Decimal.nb_digits d) ≤ Z.pos (Pos.of_uint_acc d acc).
Proof.
  revert acc.
  induction d as [| d IH | d IH | d IH | d IH | d IH | d IH | d IH | d IH | d IH | d IH];
    intros acc;
    cbn [Pos.of_uint_acc Decimal.nb_digits];
    [change (10 ^ Z.of_nat 0) with 1; lia | ..];
    (rewrite Nat2Z.inj_succ, Z.pow_succ_r by lia;
     etransitivity; [| apply IH];
     pose proof (Z.pow_nonneg 10 (Z.of_nat (Decimal.nb_digits d)) ltac:(lia));
     nia).
Qed.

Lemma to_uint_normal (n : N) : Decimal.unorm (N.to_uint n) = N.to_uint n.
Proof.
  rewrite <- DecimalN.Unsigned.to_of, DecimalN.Unsigned.of_to. reflexivity.
Qed.

Lemma nb_digits_to_uint (n : N) (k : nat) :
  (Z.of_N n < 10 ^ Z.of_nat (S k)) →
  (Decimal.nb_digits (N.to_uint n) ≤ S k)%nat.
Proof.
  intros Hn.
  pose proof (to_uint_normal n) as Hnorm.
  pose proof (DecimalN.Unsigned.of_to n) as Hval.
  destruct (N.to_uint n) as [| d | d | d | d | d | d | d | d | d | d] eqn:E.
  1: cbn; lia.
  1: { (* a leading zero: the numeral is 0 *)
    unfold Decimal.unorm in Hnorm. cbn [Decimal.nzhead] in Hnorm.
    pose proof (DecimalFacts.nb_digits_nzhead d) as Hhead.
    destruct (Decimal.nzhead d) eqn:Ed;
      [injection Hnorm as <-; cbn; lia
      | rewrite Hnorm in Hhead; cbn [Decimal.nb_digits] in Hhead; lia ..]. }
  all: cbn [N.of_uint Pos.of_uint] in Hval;
    match type of Hval with
    | N.pos (Pos.of_uint_acc ?x ?a) = _ =>
        pose proof (of_uint_acc_lower x a) as Hlow
    end;
    cbn [Decimal.nb_digits];
    assert (Hlt : 10 ^ Z.of_nat (Decimal.nb_digits d) < 10 ^ Z.of_nat (S k))
      by (pose proof (Z.pow_pos_nonneg 10 (Z.of_nat (Decimal.nb_digits d))
                        ltac:(lia) ltac:(lia)); subst n; nia);
    apply Z.pow_lt_mono_r_iff in Hlt; lia.
Qed.

Lemma format_u_length (n : Z) (k : nat) :
  n < 10 ^ Z.of_nat (S k) → (String.length (format_u n) ≤ S k)%nat.
Proof.
  intros Hn. unfold format_u.
  assert (Hk : Z.of_N (Z.to_N n) < 10 ^ Z.of_nat (S k)).
  { destruct (Z.le_gt_cases 0 n) as [Hpos | Hneg].
    - rewrite Z2N.id by lia. exact Hn.
    - replace (Z.to_N n) with 0%N by lia.
      apply Z.pow_pos_nonneg; lia. }
  pose proof (nb_digits_to_uint (Z.to_N n) k Hk) as Hnb.
  unfold DecimalString.NilZero.string_of_uint.
  destruct (N.to_uint (Z.to_N n)) eqn:E;
    [cbn; lia | rewrite length_string_of_uint; exact Hnb ..].
Qed.

Lemma format_u_uint16 (n : Z) :
  0 ≤ n < 2 ^ 16 → (String.length (format_u n) ≤ 5)%nat.
Proof.
  intros Hn. apply (format_u_length n 4).
  change (10 ^ Z.of_nat 5) with 100000. lia.
Qed.

Lemma format_u_colour (n : Z) :
  0 ≤ n < 296 → (String.length (format_u n) ≤ 3)%nat.
Proof.
  intros Hn. apply (format_u_length n 2).
  change (10 ^ Z.of_nat 3) with 1000. lia.
Qed.

(** X21.  [SetLocation] hands the stream the whole sequence
    [ESC [ nY ; nX H], the two numbers in decimal, for every pair of 16-bit
    coordinates: the 15-byte buffer never cuts it, and no zero byte and no
    byte that was never stored is sent. *)
Theorem SetLocation_whole_sequence (nY nX : Z) :
  0 ≤ nY < 2 ^ 16 → 0 ≤ nX < 2 ^ 16 →
  SetLocation nY nX
  = inr (map Some (String.list_byte_of_string
                     (ESC +:+ "[" +:+ format_u nY +:+ ";" +:+ format_u nX +:+ "H"))).
Proof.
  intros HY HX. unfold SetLocation. apply snprintf_write_whole.
  pose proof (format_u_uint16 nY HY). pose proof (format_u_uint16 nX HX).
  rewrite !length_string_app. cbn [ESC String.length]. lia.
Qed.

Lemma SetLocation_whole_sequence_witness :
  SetLocation 65535 65535
  = inr (map Some (String.list_byte_of_string
                     (ESC +:+ "[" +:+ format_u 65535 +:+ ";" +:+ format_u 65535 +:+ "H"))).
Proof.
  refine (SetLocation_whole_sequence 65535 65535 _ _); lia.
Defined.

(** X22.  [SetColor] hands the stream the whole sequence
    [ESC [ nFgColor + 30 ; nBgColor + 40 m] for every pair of 8-bit
    colours, the sums taken without wrapping. *)
Theorem SetColor_whole_sequence (nFgColor nBgColor : Z) :
  0 ≤ nFgColor < 2 ^ 8 → 0 ≤ nBgColor < 2 ^ 8 →
  SetColor nFgColor nBgColor
  = inr (map Some (String.list_byte_of_string
                     (ESC +:+ "[" +:+ format_u (nFgColor + 30) +:+ ";"
                      +:+ format_u (nBgColor + 40) +:+ "m"))).
Proof.
  intros HF HB. unfold SetColor. apply snprintf_write_whole.
  pose proof (format_u_colour (nFgColor + 30) ltac:(lia)).
  pose proof (format_u_colour (nBgColor + 40) ltac:(lia)).
  rewrite !length_string_app. cbn [ESC String.length]. lia.
Qed.

Lemma SetColor_whole_sequence_witness :
  SetColor 255 255
  = inr (map Some (String.list_byte_of_string
                     (ESC +:+ "[" +:+ format_u 285 +:+ ";" +:+ format_u 295 +:+ "m"))).
Proof.
  refine (SetColor_whole_sequence 255 255 _ _); lia.
Defined.

(** * Further properties: Delay *)

(** X23.  [Delay] asked for 2^32 milliseconds or more never returns,
    whatever the clock does: the elapsed time is a 32-bit difference, which
    stays below the 64-bit request. *)
Theorem Delay_never_returns (nSleep : Z) (clock : nat → Z) (fuel : nat) :
  2 ^ 32 ≤ nSleep → Delay fuel clock nSleep = None.
Proof.
  intros Hlong. unfold Delay. generalize 1%nat as calls.
  induction fuel as [| fuel IH]; intros calls; [reflexivity |].
  cbn [Delay_loop].
  pose proof (Z.mod_pos_bound (clock calls - to_uint32 (clock 0%nat)) (2 ^ 32))
    as Hdiff.
  unfold to_uint32 at 1, UINT32_MOD.
  replace (_ <? nSleep) with true by (symmetry; apply Z.ltb_lt; lia).
  apply IH.
Qed.

Lemma Delay_never_returns_witness :
  Delay 1000 (ticking 0) (2 ^ 32) = None.
Proof.
  refine (Delay_never_returns (2 ^ 32) (ticking 0) 1000 _). lia.
Defined.

Lemma Delay_loop_ticking (fuel : nat) (t0 nSleep : Z) (calls : nat) :
  0 ≤ t0 < 2 ^ 32 → 0 ≤ nSleep < 2 ^ 32 →
  (1 ≤ calls)%nat → Z.of_nat calls ≤ Z.max 1 nSleep →
  Z.max 1 nSleep - Z.of_nat calls < Z.of_nat fuel →
  Delay_loop fuel (ticking t0) t0 nSleep calls
  = Some (Z.to_nat (Z.max 1 nSleep)).
Proof.
  intros Ht0 Hsleep. revert calls.
  induction fuel as [| fuel IH]; intros calls Hone Hle Hfuel; [lia |].
  cbn [Delay_loop].
  assert (Hdiff : to_uint32 (ticking t0 calls - t0) = Z.of_nat calls).
  { unfold ticking, to_uint32, UINT32_MOD.
    rewrite Zminus_mod_idemp_l.
    replace (t0 + Z.of_nat calls - t0) with (Z.of_nat calls) by lia.
    apply Z.mod_small. lia. }
  rewrite Hdiff.
  destruct (Z.of_nat calls <? nSleep) eqn:E.
  - apply Z.ltb_lt in E. apply IH; lia.
  - apply Z.ltb_ge in E. f_equal. lia.
Qed.

(** X24.  With a 32-bit millisecond counter that advances by one between
    two readings, [Delay] for less than 2^32 milliseconds returns after
    yielding exactly [nSleep] times, once for [nSleep = 0], from whatever
    value the counter starts: a counter that wraps to 0 on the way changes
    nothing. *)
Theorem Delay_counts_across_wrap (fuel : nat) (t0 nSleep : Z) :
  0 ≤ t0 < 2 ^ 32 → 0 ≤ nSleep < 2 ^ 32 →
  Z.max 1 nSleep ≤ Z.of_nat fuel →
  Delay fuel (ticking t0) nSleep = Some (Z.to_nat (Z.max 1 nSleep)).
Proof.
  intros Ht0 Hsleep Hfuel. unfold Delay.
  replace (to_uint32 (ticking t0 0)) with t0.
  - apply Delay_loop_ticking; lia.
  - unfold ticking, to_uint32, UINT32_MOD.
    rewrite Z.mod_mod by lia. rewrite Z.add_0_r. symmetry. apply Z.mod_small. lia.
Qed.

Lemma Delay_counts_across_wrap_witness :
  Delay 10 (ticking (2 ^ 32 - 3)) 5 = Some 5%nat
  ∧ Delay 10 (ticking 7) 0 = Some 1%nat.
Proof.
  split.
  - refine (Delay_counts_across_wrap 10 (2 ^ 32 - 3) 5 _ _ _); lia.
  - refine (Delay_counts_across_wrap 10 7 0 _ _ _); lia.
Defined.
